(** * cinema-bot: pagination, callback tokens, history store and catalog client

    A shallow embedding of [app/bot.py], [app/db/database.py] and
    [app/kinopoisk_api.py], followed by the properties of the pagination and
    callback-routing core that the specification states.

    Conventions of the embedding.
    - A Python [str] is a [string]: the UTF-8 bytes of the text.  Splitting on
      an ASCII separator is the same on bytes and on code points, since no
      byte of a multi-byte UTF-8 sequence is below 128.
    - A Python [int] is a [Z].
    - A Python [float] is a [Q] holding the value of a finite IEEE double; the
      result of an operation is rounded to the nearest double.  Infinities,
      NaN and the sign of zero are left out.
    - The store is the default one, SQLite.
    - A function that can raise returns a [result]; handlers that perform
      calls to the chat transport and to the store are written in a state and
      exception monad whose state records every call that was attempted. *)

From Stdlib Require Import ZArith NArith List String Ascii Bool Lia.
From Stdlib Require Import QArith Qround Qreduction Qabs Lqa.
From Stdlib Require Import Permutation Sorted.
From Stdlib Require Import DecimalString DecimalZ.
Import ListNotations.

#[local] Set Warnings "-register-all".

#[local] Open Scope string_scope.
#[local] Open Scope list_scope.
#[local] Open Scope Z_scope.

(* ================================================================= *)
(** ** Python primitives used by the sources *)

Module Py.

(** The exception classes the sources name or can meet.  All of them are
    subclasses of [Exception]; [ClientError] is [aiohttp.ClientError],
    [OtherError] any other exception raised by a collaborator. *)
Inductive exn : Type :=
| ValueError
| KeyError
| IndexError
| TypeError
| AttributeError
| UnboundLocalError
| ZeroDivisionError
| ClientError
| OtherError (name : string).

Inductive result (A : Type) : Type :=
| Ok (a : A)
| Raise (e : exn).
Arguments Ok {A} a.
Arguments Raise {A} e.

Definition rbind {A B} (r : result A) (k : A -> result B) : result B :=
  match r with
  | Ok a => k a
  | Raise e => Raise e
  end.

Definition exn_eqb (a b : exn) : bool :=
  match a, b with
  | ValueError, ValueError
  | KeyError, KeyError
  | IndexError, IndexError
  | TypeError, TypeError
  | AttributeError, AttributeError
  | UnboundLocalError, UnboundLocalError
  | ZeroDivisionError, ZeroDivisionError
  | ClientError, ClientError => true
  | OtherError x, OtherError y => String.eqb x y
  | _, _ => false
  end.

Definition NL : string := String (ascii_of_nat 10) EmptyString.

(** [s.split(sep)] for a one-character separator: never an empty list. *)
Fixpoint split (sep : ascii) (s : string) : list string :=
  match s with
  | EmptyString => [EmptyString]
  | String c rest =>
      if Ascii.eqb c sep then EmptyString :: split sep rest
      else match split sep rest with
           | seg :: segs => String c seg :: segs
           | [] => [String c EmptyString]
           end
  end.

(** [sep.join(parts)]. *)
Fixpoint join (sep : string) (parts : list string) : string :=
  match parts with
  | [] => EmptyString
  | [p] => p
  | p :: ps => (p ++ sep ++ join sep ps)%string
  end.

(** [str(n)] for an [int]: its decimal form, with a leading minus sign
    for a negative number. *)
Definition str_of_int (z : Z) : string :=
  NilZero.string_of_int (Z.to_int z).

(** The characters [int()] skips around a number ([Py_ISSPACE]). *)
Definition is_space (c : ascii) : bool :=
  let n := nat_of_ascii c in
  ((9 <=? n) && (n <=? 13))%nat || (n =? 32)%nat.

Fixpoint lstrip (s : string) : string :=
  match s with
  | String c rest => if is_space c then lstrip rest else s
  | EmptyString => EmptyString
  end.

Fixpoint rstrip (s : string) : string :=
  match s with
  | EmptyString => EmptyString
  | String c rest =>
      match rstrip rest with
      | EmptyString => if is_space c then EmptyString else String c EmptyString
      | rest' => String c rest'
      end
  end.

(** Underscores are allowed in a literal between two digits only;
    [prev_digit] tells whether the previous character was not an
    underscore.  Characters that are not digits are kept and refused by
    the digit parser. *)
Fixpoint drop_separators (prev_digit : bool) (s : string) : option string :=
  match s with
  | EmptyString => if prev_digit then Some EmptyString else None
  | String c rest =>
      if Ascii.eqb c "_"
      then if prev_digit then drop_separators false rest else None
      else option_map (String c) (drop_separators true rest)
  end.

Definition parse_digits (s : string) : option Z :=
  match drop_separators false s with
  | Some digits => option_map Z.of_uint (NilZero.uint_of_string digits)
  | None => None
  end.

(** *** What [int()] makes of text that is not ASCII

    Before it reads a number, [int()] replaces every whitespace character
    outside ASCII by a space and every decimal digit of another script by
    the ASCII digit of the same value; at the first other character outside
    ASCII it puts a question mark and drops the rest
    ([_PyUnicode_TransformDecimalAndSpaceToASCII]). *)

(** The code points of the whitespace characters from 127 on. *)
Definition unicode_spaces : list N :=
  [
     133; 160; 5760; 8192; 8193; 8194; 8195; 8196; 8197; 8198; 8199; 8200;
     8201; 8202; 8232; 8233; 8239; 8287; 12288
  ]%N.

(** The code point of the digit zero of every script but ASCII, in the
    Unicode database of the interpreter (version 14); the digits one to
    nine of a script follow its zero. *)
Definition unicode_zeros : list N :=
  [
     1632; 1776; 1984; 2406; 2534; 2662; 2790; 2918; 3046; 3174; 3302;
     3430; 3558; 3664; 3792; 3872; 4160; 4240; 6112; 6160; 6470; 6608;
     6784; 6800; 6992; 7088; 7232; 7248; 42528; 43216; 43264; 43472; 43504;
     43600; 44016; 65296; 66720; 68912; 69734; 69872; 69942; 70096; 70384;
     70736; 70864; 71248; 71360; 71472; 71904; 72016; 72784; 73040; 73120;
     92768; 92864; 93008; 120782; 120792; 120802; 120812; 120822; 123200;
     123632; 125264; 130032
  ]%N.

Definition is_unicode_space (code_point : N) : bool :=
  existsb (N.eqb code_point) unicode_spaces.

(** [Py_UNICODE_TODECIMAL]. *)
Definition unicode_decimal (code_point : N) : option N :=
  option_map (fun zero => (code_point - zero)%N)
    (find (fun zero => (zero <=? code_point)%N && (code_point <? zero + 10)%N)
       unicode_zeros).

(** The character put for one code point from 127 on, followed by
    [tail]; nothing follows the question mark. *)
Definition ascii_of_code_point (code_point : N) (tail : string) : string :=
  if is_unicode_space code_point then String " " tail
  else match unicode_decimal code_point with
       | Some digit => String (ascii_of_N (48 + digit)) tail
       | None => "?"
       end.

(** The six low bits of a continuation byte. *)
Definition low_bits (c : ascii) : N := (N_of_ascii c - 128)%N.

(** The transformation, on the UTF-8 bytes of the text. *)
Fixpoint ascii_decimal (s : string) : string :=
  match s with
  | EmptyString => EmptyString
  | String c rest =>
      let b := N_of_ascii c in
      if (b <? 127)%N then String c (ascii_decimal rest)
      else if (b <? 192)%N then "?"
      else if (b <? 224)%N then
        match rest with
        | String c1 rest1 =>
            ascii_of_code_point ((b - 192) * 64 + low_bits c1) (ascii_decimal rest1)
        | _ => "?"
        end
      else if (b <? 240)%N then
        match rest with
        | String c1 (String c2 rest2) =>
            ascii_of_code_point ((b - 224) * 4096 + low_bits c1 * 64 + low_bits c2)
              (ascii_decimal rest2)
        | _ => "?"
        end
      else
        match rest with
        | String c1 (String c2 (String c3 rest3)) =>
            ascii_of_code_point
              ((b - 240) * 262144 + low_bits c1 * 4096 + low_bits c2 * 64 + low_bits c3)
              (ascii_decimal rest3)
        | _ => "?"
        end
  end.

(** [int(s)] in base 10: [None] stands for [ValueError].  Whitespace
    around the number is skipped, one sign is accepted, leading zeros are
    accepted, and so are the decimal digits and the whitespace of Unicode.
    The interpreter's bound on the number of digits is left out. *)
Definition int_of_str (s : string) : option Z :=
  match rstrip (lstrip (ascii_decimal s)) with
  | String "+" body => parse_digits body
  | String "-" body => option_map Z.opp (parse_digits body)
  | body => parse_digits body
  end.

(** [c in s]. *)
Fixpoint contains (c : ascii) (s : string) : bool :=
  match s with
  | EmptyString => false
  | String c' rest => Ascii.eqb c' c || contains c rest
  end.

Definition is_digit (c : ascii) : bool :=
  let n := nat_of_ascii c in ((48 <=? n) && (n <=? 57))%nat.

Fixpoint all_digits (s : string) : bool :=
  match s with
  | EmptyString => true
  | String c rest => is_digit c && all_digits rest
  end.

(** [s[:n]]: the first [n] code points of UTF-8 text (a byte of the form
    10xxxxxx continues the previous code point). *)
Definition is_continuation (c : ascii) : bool :=
  let n := nat_of_ascii c in ((128 <=? n) && (n <? 192))%nat.

Fixpoint take_chars (n : nat) (s : string) : string :=
  match s with
  | EmptyString => EmptyString
  | String c rest =>
      if is_continuation c then String c (take_chars n rest)
      else match n with
           | O => EmptyString
           | S n' => String c (take_chars n' rest)
           end
  end.

(** *** Floats

    A [float] is an IEEE double, and a [Q] holds the value of a finite one.
    The result of an operation on doubles is the exact result rounded to
    the nearest double, halves to the even neighbour. *)

(** [round(x)] to the nearest integer, halves to the even neighbour. *)
Definition round_half_even (q : Q) : Z :=
  let f := Qfloor q in
  match Qcompare (q - inject_Z f) (1 # 2) with
  | Lt => f
  | Gt => f + 1
  | Eq => if Z.even f then f else f + 1
  end.

Definition pow2 (e : Z) : Q :=
  if 0 <=? e then inject_Z (2 ^ e) else (/ inject_Z (2 ^ (- e)))%Q.

(** The double nearest to a rational in lowest terms: a significand of
    53 bits times a power of two whose exponent is not below -1074. *)
Definition double_of_reduced (q : Q) : Q :=
  match Qnum q with
  | 0 => 0%Q
  | _ =>
      let a := Qabs q in
      let e0 := Z.log2 (Qnum a) - Z.log2 (Zpos (Qden a)) - 53 in
      let e1 := if Qle_bool (pow2 53) (a / pow2 e0) then e0 + 1 else e0 in
      let e := Z.max e1 (-1074) in
      let significand := round_half_even (a / pow2 e) in
      let magnitude := Qred (inject_Z significand * pow2 e) in
      if 0 <? Qnum q then magnitude else Qred (- magnitude)
  end.

Definition to_double (q : Q) : Q := double_of_reduced (Qred q).

(** *** Values decoded from JSON *)

(** What [response.json()] returns.  The entries of a [PDict] are those of
    the dictionary: one entry per key. *)
Inductive value : Type :=
| PNone
| PBool (b : bool)
| PInt (z : Z)
| PFloat (q : Q)
| PStr (s : string)
| PList (items : list value)
| PDict (entries : list (string * value)).

(** Truth value of an object in a condition. *)
Definition truthy (v : value) : bool :=
  match v with
  | PNone => false
  | PBool b => b
  | PInt z => negb (z =? 0)
  | PFloat q => negb (Qeq_bool q 0)
  | PStr EmptyString => false
  | PStr _ => true
  | PList [] => false
  | PList _ => true
  | PDict [] => false
  | PDict _ => true
  end.

Fixpoint lookup (key : string) (entries : list (string * value)) : option value :=
  match entries with
  | [] => None
  | (k, v) :: rest => if String.eqb k key then Some v else lookup key rest
  end.

(** [v[key]] for a string key: [KeyError] on a dictionary without the
    key, [TypeError] on anything that is not a dictionary. *)
Definition getitem (v : value) (key : string) : result value :=
  match v with
  | PDict entries =>
      match lookup key entries with
      | Some x => Ok x
      | None => Raise KeyError
      end
  | _ => Raise TypeError
  end.

(** [v.get(key, default)]: only a dictionary has the method. *)
Definition get (v : value) (key : string) (default : value) : result value :=
  match v with
  | PDict entries =>
      match lookup key entries with
      | Some x => Ok x
      | None => Ok default
      end
  | _ => Raise AttributeError
  end.

(** The code points of UTF-8 text, each as a one-character string. *)
Fixpoint code_points (s : string) : list string :=
  match s with
  | EmptyString => []
  | String c rest =>
      match code_points rest with
      | next :: others =>
          match next with
          | String c' _ =>
              if is_continuation c' then String c next :: others
              else String c EmptyString :: next :: others
          | EmptyString => String c EmptyString :: others
          end
      | [] => [String c EmptyString]
      end
  end.

(** [for x in v]: the items of a list, the keys of a dictionary, the
    characters of a string; other values are not iterable. *)
Definition iterate (v : value) : result (list value) :=
  match v with
  | PList items => Ok items
  | PDict entries => Ok (map (fun e => PStr (fst e)) entries)
  | PStr s => Ok (map PStr (code_points s))
  | _ => Raise TypeError
  end.

(** [v == s] for a string [s]. *)
Definition equals_str (v : value) (s : string) : bool :=
  match v with
  | PStr x => String.eqb x s
  | _ => false
  end.

(** *** Functions of the interpreter

    Conversions between text and floats, the text form of containers, the
    [","] format and [strftime] belong to the interpreter and its library;
    the sources only call them. *)
Class Runtime : Type := {
  (** [float(s)] for a string; [None] stands for [ValueError]. *)
  float_of_str : string -> option Q;
  (** [str(x)] for a float. *)
  float_repr : Q -> string;
  (** [str(v)] for a list or a dictionary. *)
  container_repr : value -> string;
  (** [format(v, ",")]. *)
  format_grouped : value -> result string;
  (** [t.strftime('%d.%m.%Y %H:%M')]. *)
  strftime : Z -> string
}.

(** [float(v)]. *)
Definition to_float {runtime : Runtime} (v : value) : result Q :=
  match v with
  | PFloat q => Ok q
  | PInt z => Ok (to_double (inject_Z z))
  | PBool b => Ok (if b then 1%Q else 0%Q)
  | PStr s =>
      match float_of_str s with
      | Some q => Ok q
      | None => Raise ValueError
      end
  | _ => Raise TypeError
  end.

(** [str(v)], the text an f-string puts in place of [{v}]. *)
Definition py_str {runtime : Runtime} (v : value) : string :=
  match v with
  | PNone => "None"
  | PBool true => "True"
  | PBool false => "False"
  | PInt z => str_of_int z
  | PFloat q => float_repr q
  | PStr s => s
  | PList _ | PDict _ => container_repr v
  end.

(** [sep.join(items)]: every item has to be a string. *)
Fixpoint join_values (sep : string) (items : list value) : result string :=
  match items with
  | [] => Ok EmptyString
  | PStr s :: rest =>
      match rest with
      | [] => Ok s
      | _ => rbind (join_values sep rest) (fun tail => Ok (s ++ sep ++ tail)%string)
      end
  | _ :: _ => Raise TypeError
  end.

(** [len(s)]: the number of code points of UTF-8 text. *)
Fixpoint char_count (s : string) : nat :=
  match s with
  | EmptyString => O
  | String c rest => if is_continuation c then char_count rest else S (char_count rest)
  end.

End Py.

(* ================================================================= *)
(** ** app/db/models.py *)

Module User.
Record row : Type := mk {
  id : Z;
  telegram_id : Z;
  username : option string
}.
End User.

Module SearchHistory.
Record row : Type := mk {
  id : Z;
  user_id : Z;
  query : string;
  movie_id : string;
  movie_title : string;
  movie_url : option string;
  movie_rating : option Q;
  timestamp : Z
}.
End SearchHistory.

(* ================================================================= *)
(** ** app/db/database.py *)

Module Database.
Import Py.

(** The two tables, each in insertion order. *)
Record Store : Type := mkStore {
  users : list User.row;
  search_history : list SearchHistory.row
}.

(** *** SQL operators of the two paginated queries *)

(** Stable insertion sort: [x] is placed before the first element that
    does not come strictly before it. *)
Fixpoint insert_sorted {A} (strictly_before : A -> A -> bool) (x : A) (l : list A) : list A :=
  match l with
  | [] => [x]
  | y :: rest =>
      if strictly_before y x then y :: insert_sorted strictly_before x rest
      else x :: l
  end.

Definition order_by {A} (strictly_before : A -> A -> bool) (l : list A) : list A :=
  fold_right (insert_sorted strictly_before) [] l.

(** [.offset(offset).limit(limit)] as SQLite reads it: a negative offset
    skips nothing, a negative limit is no limit. *)
Definition offset_limit {A} (offset limit : Z) (l : list A) : list A :=
  let rest := skipn (Z.to_nat offset) l in
  if limit <? 0 then rest else firstn (Z.to_nat limit) rest.

(** [max(1, (total_count + per_page - 1) // per_page)]. *)
Definition total_pages (total_count per_page : Z) : result Z :=
  if per_page =? 0 then Raise ZeroDivisionError
  else Ok (Z.max 1 ((total_count + per_page - 1) / per_page)).

Definition rows_of_user (db : Store) (user_id : Z) : list SearchHistory.row :=
  filter (fun r => SearchHistory.user_id r =? user_id) (search_history db).

(** [ORDER BY search_history.id DESC]. *)
Definition newer (a b : SearchHistory.row) : bool :=
  SearchHistory.id b <? SearchHistory.id a.

(** *** get_user_history *)

Definition get_user_history (db : Store) (user_id page per_page : Z)
  : result (list SearchHistory.row * Z) :=
  let total_count := Z.of_nat (List.length (rows_of_user db user_id)) in
  rbind (total_pages total_count per_page) (fun total_pages =>
  let offset := (page - 1) * per_page in
  let history := offset_limit offset per_page (order_by newer (rows_of_user db user_id)) in
  Ok (history, total_pages)).

(** *** get_user_stats *)

(** The [GROUP BY] key: (movie_id, movie_title, movie_url); two NULL
    URLs fall in one group. *)
Definition movie_key : Type := (string * string * option string)%type.

Definition key_of (r : SearchHistory.row) : movie_key :=
  (SearchHistory.movie_id r, SearchHistory.movie_title r, SearchHistory.movie_url r).

Definition option_string_eqb (a b : option string) : bool :=
  match a, b with
  | Some x, Some y => String.eqb x y
  | None, None => true
  | _, _ => false
  end.

Definition key_eqb (a b : movie_key) : bool :=
  let '(i, t, u) := a in
  let '(i', t', u') := b in
  String.eqb i i' && String.eqb t t' && option_string_eqb u u'.

Fixpoint add_to_group (r : SearchHistory.row)
    (groups : list (movie_key * list SearchHistory.row))
  : list (movie_key * list SearchHistory.row) :=
  match groups with
  | [] => [(key_of r, [r])]
  | (k, members) :: rest =>
      if key_eqb k (key_of r) then (k, members ++ [r]) :: rest
      else (k, members) :: add_to_group r rest
  end.

(** Groups in the order of the first row of each. *)
Definition group_by (rows : list SearchHistory.row)
  : list (movie_key * list SearchHistory.row) :=
  fold_left (fun groups r => add_to_group r groups) rows [].

Definition present_ratings (members : list SearchHistory.row) : list Q :=
  flat_map (fun r => match SearchHistory.movie_rating r with
                     | Some q => [q]
                     | None => []
                     end) members.


(** The sum [avg] keeps: a double that starts at 0.0, to which the values
    are added one by one, every addition rounding. *)
Definition double_sum (values : list Q) : Q :=
  fold_left (fun sum value => to_double (sum + value)) values 0%Q.

(** [avg(movie_rating)]: NULL rows are ignored, and the aggregate is NULL
    when every row is; otherwise it is the sum of the ratings divided by
    their number, in doubles.  The order in which the engine adds the rows
    of a group is its own, the model takes them in table order; SQLite
    from 3.44 on also carries the rounding errors of the additions along,
    which the model does not. *)
Definition sql_avg (members : list SearchHistory.row) : option Q :=
  match present_ratings members with
  | [] => None
  | ratings =>
      Some (to_double (double_sum ratings / inject_Z (Z.of_nat (List.length ratings))))
  end.



(** One row of the grouped subquery. *)
Record Aggregate : Type := mkAggregate {
  agg_movie_id : string;
  agg_movie_title : string;
  agg_movie_url : option string;
  agg_avg_rating : option Q;
  agg_search_count : Z
}.

Definition aggregate (g : movie_key * list SearchHistory.row) : Aggregate :=
  let '((i, t, u), members) := g in
  mkAggregate i t u (sql_avg members) (Z.of_nat (List.length members)).

Definition agg_key (g : Aggregate) : movie_key :=
(agg_movie_id g, agg_movie_title g, agg_movie_url g).

(** The rows a group stands for: those of its key, in table order. *)
Definition rows_with_key (k : movie_key) (rows : list SearchHistory.row)
: list SearchHistory.row :=
filter (fun r => key_eqb (key_of r) k) rows.

(** What [group_by] computes: one group per distinct key, holding the rows
    of that key. *)
Definition grouped (rows : list SearchHistory.row)
    (groups : list (movie_key * list SearchHistory.row)) : Prop :=
  NoDup (map fst groups)
  /\ (forall k members, In (k, members) groups ->
        members = rows_with_key k rows /\ members <> [])
  /\ (forall r, In r rows -> In (key_of r) (map fst groups)).

Definition subquery (db : Store) (user_id : Z) : list Aggregate :=
  map aggregate (group_by (rows_of_user db user_id)).

(** [ORDER BY search_count DESC]; the order of groups with equal counts
    is left to the engine, the model keeps them in group order. *)
Definition more_searched (a b : Aggregate) : bool :=
  agg_search_count b <? agg_search_count a.

(** [round(x, 1)] for a float: the multiple of one tenth nearest to the
    value of [x], halves of a tenth to the even neighbour, and then the
    double nearest to it. *)
Definition round1 (q : Q) : Q :=
  to_double (inject_Z (round_half_even (q * 10)) / 10).

(** Truth value of [row.avg_rating]: [None] and zero are false. *)
Definition truthy_rating (r : option Q) : bool :=
  match r with
  | Some q => negb (Qeq_bool q 0)
  | None => false
  end.

(** One entry of [stats_list]. *)
Record Stat : Type := mkStat {
  movie_id : string;
  movie_title : string;
  movie_url : option string;
  avg_rating : option Q;
  search_count : Z
}.

Definition stat_of_row (row : Aggregate) : Stat :=
  mkStat (agg_movie_id row) (agg_movie_title row) (agg_movie_url row)
    (if truthy_rating (agg_avg_rating row)
     then option_map round1 (agg_avg_rating row)
     else None)
    (agg_search_count row).

Definition get_user_stats (db : Store) (user_id page per_page : Z)
  : result (list Stat * Z) :=
  let total_count := Z.of_nat (List.length (subquery db user_id)) in
  rbind (total_pages total_count per_page) (fun total_pages =>
  let offset := (page - 1) * per_page in
  let stats := offset_limit offset per_page (order_by more_searched (subquery db user_id)) in
  Ok (map stat_of_row stats, total_pages)).

(** *** Users and appends *)

Definition get_user_by_telegram_id (db : Store) (telegram_id : Z) : option User.row :=
  find (fun u => User.telegram_id u =? telegram_id) (users db).

Definition next_id (ids : list Z) : Z := fold_right Z.max 0 ids + 1.

Definition get_or_create_user (db : Store) (telegram_id : Z) (username : option string)
  : User.row * Store :=
  match get_user_by_telegram_id db telegram_id with
  | Some user => (user, db)
  | None =>
      let user := User.mk (next_id (map User.id (users db))) telegram_id username in
      (user, mkStore (users db ++ [user]) (search_history db))
  end.

Definition truthy_str (s : string) : bool :=
  match s with
  | EmptyString => false
  | _ => true
  end.

(** [now] is the reading of [datetime.utcnow()]. *)
Definition add_search_history (db : Store) (now : Z) (user_id : Z)
    (query movie_id movie_title : string) (movie_url : option string)
    (movie_rating : option Q) : SearchHistory.row * Store :=
  let history_entry :=
    SearchHistory.mk (next_id (map SearchHistory.id (search_history db)))
      user_id
      (take_chars 255 query)
      (take_chars 255 movie_id)
      (take_chars 255 movie_title)
      (match movie_url with
       | Some url => if truthy_str url then Some (take_chars 512 url) else None
       | None => None
       end)
      movie_rating
      now in
  (history_entry, mkStore (users db) (search_history db ++ [history_entry])).

(** *** Reading a paginated result *)

(** The items of a page; none when the query raised. *)
Definition items_of {A} (r : result (list A * Z)) : list A :=
  match r with
  | Ok (items, _) => items
  | Raise _ => []
  end.

(** The page numbers 1, 2, ..., [total]. *)
Definition pages (total : Z) : list Z := map Z.of_nat (seq 1 (Z.to_nat total)).

Definition Zsum (l : list Z) : Z := fold_right Z.add 0 l.

(** The number of rows held by a list of groups. *)
Definition members_total (groups : list (movie_key * list SearchHistory.row)) : Z :=
  Zsum (map (fun g => Z.of_nat (List.length (snd g))) groups).

End Database.

(* ================================================================= *)
(** ** app/kinopoisk_api.py *)

Module MovieInfo.
Import Py.

(** The dataclass checks no type: a field holds whatever the catalog sent,
    except [rating], which is the result of [float()] or [None]. *)
Record t : Type := mk {
  id : value;
  title : value;
  original_title : value;
  year : value;
  rating : option Q;
  poster_url : value;
  description : value;
  short_description : value;
  genres : list value;
  countries : list value;
  movie_length : value;
  age_rating : value;
  type : value;
  votes_kp : value;
  votes_imdb : value;
  external_id_imdb : value
}.
End MovieInfo.

Module KinopoiskAPI.
Import Py.

#[local] Notation "x <- r ;; k" := (rbind r (fun x => k))
  (at level 61, r at next level, right associativity).

(** What [session.get] and [response.json()] give for one request. *)
Inductive Reply : Type :=
| GetRaised (e : exn)
| Response (status : Z) (json : result value).

(** [film[outer][inner] if film.get(outer) else default]. *)
Definition nested_or (film : value) (outer inner : string) (default : value)
  : result value :=
  present <- get film outer PNone ;;
  if truthy present
  then (o <- getitem film outer ;; getitem o inner)
  else Ok default.

(** [[item["name"] for item in film.get(key, [])]]. *)
Fixpoint names_of (items : list value) : result (list value) :=
  match items with
  | [] => Ok []
  | item :: rest =>
      name <- getitem item "name" ;;
      names <- names_of rest ;;
      Ok (name :: names)
  end.

Definition names (film : value) (key : string) : result (list value) :=
  listed <- get film key (PList []) ;;
  items <- iterate listed ;;
  names_of items.

(** The [MovieInfo(...)] expression of both methods; the arguments are
    evaluated in the order they are written. *)
Definition movie_info {runtime : Runtime} (film : value) : result MovieInfo.t :=
  id <- getitem film "id" ;;
  title <- getitem film "name" ;;
  original_title <- get film "alternativeName" PNone ;;
  year <- get film "year" PNone ;;
  rating <-
    (r <- get film "rating" (PDict []) ;;
     kp <- get r "kp" PNone ;;
     if truthy kp
     then (r' <- getitem film "rating" ;;
           kp' <- getitem r' "kp" ;;
           x <- to_float kp' ;;
           Ok (Some x))
     else Ok None) ;;
  poster_url <- nested_or film "poster" "url" PNone ;;
  description <- get film "description" PNone ;;
  short_description <- get film "shortDescription" PNone ;;
  genres <- names film "genres" ;;
  countries <- names film "countries" ;;
  movie_length <- get film "movieLength" PNone ;;
  age_rating <- get film "ageRating" PNone ;;
  type <- get film "type" (PStr "movie") ;;
  votes_kp <- nested_or film "votes" "kp" (PInt 0) ;;
  votes_imdb <- nested_or film "votes" "imdb" (PInt 0) ;;
  external_id_imdb <- nested_or film "externalId" "imdb" PNone ;;
  Ok (MovieInfo.mk id title original_title year rating poster_url description
        short_description genres countries movie_length age_rating type
        votes_kp votes_imdb external_id_imdb).

(** What a call leaves behind: the lines written with [logger.error]. *)
Definition Logged (A : Type) : Type := (result A * list string)%type.

(** The loop over [data.get("docs", [])]: a record whose construction
    raises [KeyError] or [ValueError] is logged and skipped; any other
    exception leaves the loop. *)
Fixpoint collect {runtime : Runtime} (docs : list value) (movies : list MovieInfo.t)
    (log : list string) : Logged (list MovieInfo.t) :=
  match docs with
  | [] => (Ok movies, log)
  | film :: rest =>
      match movie_info film with
      | Ok movie => collect rest (movies ++ [movie]) log
      | Raise e =>
          if exn_eqb e KeyError || exn_eqb e ValueError
          then collect rest movies (log ++ ["Ошибка при обработке фильма"])
          else (Raise e, log)
      end
  end.

Definition search_movie {runtime : Runtime} (reply : Reply) : Logged (list MovieInfo.t) :=
  let attempt : Logged (list MovieInfo.t) :=
    match reply with
    | GetRaised e => (Raise e, [])
    | Response status json =>
        if negb (status =? 200) then (Ok [], ["Ошибка API Кинопоиска"])
        else match json with
             | Raise e => (Raise e, [])
             | Ok data =>
                 match (listed <- get data "docs" (PList []) ;; iterate listed) with
                 | Raise e => (Raise e, [])
                 | Ok docs => collect docs [] []
                 end
             end
    end in
  match attempt with
  | (Raise e, log) =>
      if exn_eqb e ClientError
      then (Ok [], log ++ ["Ошибка при запросе к API Кинопоиска"])
      else (Raise e, log)
  | done => done
  end.

Definition get_movie_details {runtime : Runtime} (reply : Reply) : Logged (option MovieInfo.t) :=
  let attempt : Logged (option MovieInfo.t) :=
    match reply with
    | GetRaised e => (Raise e, [])
    | Response status json =>
        if negb (status =? 200) then (Ok None, ["Ошибка API Кинопоиска"])
        else match json with
             | Raise e => (Raise e, [])
             | Ok film =>
                 match movie_info film with
                 | Ok movie => (Ok (Some movie), [])
                 | Raise e =>
                     if exn_eqb e KeyError || exn_eqb e ValueError
                     then (Ok None, ["Ошибка при обработке деталей фильма"])
                     else (Raise e, [])
                 end
             end
    end in
  match attempt with
  | (Raise e, log) =>
      if exn_eqb e ClientError
      then (Ok None, log ++ ["Ошибка при запросе к API Кинопоиска"])
      else (Raise e, log)
  | done => done
  end.

End KinopoiskAPI.

(* ================================================================= *)
(** ** app/utils/text_loader.py *)

Module TextLoader.
Import Py.

#[local] Open Scope string_scope.

(** What [open(path, "r", encoding="utf-8")] and [f.read()] give. *)
Inductive Read : Type :=
| Content (raw : string)
| FileNotFound
| ReadFailed (e : exn).

(** [os.path.join(directory, name)] on POSIX paths. *)
Definition path_join (directory name : string) : string :=
  match name with
  | String "/" _ => name
  | _ =>
      match directory with
      | EmptyString => name
      | _ =>
          if String.eqb (substring (String.length directory - 1) 1 directory) "/"
          then directory ++ name
          else directory ++ "/" ++ name
      end
  end.

(** The module-level dictionary [_text_cache]. *)
Definition Cache : Type := list (string * string).

Fixpoint cached (text_key : string) (cache : Cache) : option string :=
  match cache with
  | [] => None
  | (k, text) :: rest => if String.eqb k text_key then Some text else cached text_key rest
  end.

(** [cache[text_key] = text]. *)
Fixpoint store (text_key text : string) (cache : Cache) : Cache :=
  match cache with
  | [] => [(text_key, text)]
  | (k, old) :: rest =>
      if String.eqb k text_key then (k, text) :: rest
      else (k, old) :: store text_key text rest
  end.

Definition default_texts_dir : string := "app/utils/texts".

Section GetText.

(** [str.strip()] of the interpreter, and the files as they are when the
    function runs. *)
Variable strip : string -> string.
Variable files : string -> Read.

Definition get_text (cache : Cache) (text_key texts_dir : string)
  : result string * Cache :=
  match cached text_key cache with
  | Some text => (Ok text, cache)
  | None =>
      match files (path_join texts_dir (text_key ++ ".txt")) with
      | Content raw =>
          let text := strip raw in
          (Ok text, store text_key text cache)
      | FileNotFound => (Ok ("Текст не найден: " ++ text_key), cache)
      | ReadFailed e => (Raise e, cache)
      end
  end.

End GetText.

End TextLoader.

(* ================================================================= *)
(** ** app/bot.py *)

Module Bot.
Import Py Database.

#[local] Open Scope string_scope.

(** *** The chat transport's objects *)

Record Button : Type := mkButton {
  button_text : string;
  callback_data : option string;
  url : option string
}.

(** The buttons of a keyboard, in the order they were added. *)
Definition InlineKeyboardMarkup : Type := list Button.

Record TelegramUser : Type := mkTelegramUser {
  tg_id : Z;
  tg_username : option string
}.

Record Message : Type := mkMessage {
  from_user : option TelegramUser;
  text : option string
}.

(** [message] is [None] when the update carries no message or one that is
    not a [Message]. *)
Record CallbackQuery : Type := mkCallbackQuery {
  message : option Message;
  data : option string;
  callback_from_user : TelegramUser
}.

(** *** Calls to the collaborators

    Every call a handler attempts is recorded, in order, with its
    arguments. *)
Inductive Call : Type :=
| LoggerError (line : string) (cause : option exn)
| CallbackAnswer (text : option string) (show_alert : bool)
| MessageAnswer (text : string) (reply_markup : option InlineKeyboardMarkup)
| MessageAnswerPhoto (photo : value) (caption : string) (reply_markup : InlineKeyboardMarkup)
| MessageDelete
| MessageEditText (text : string) (reply_markup : InlineKeyboardMarkup)
| GetOrCreateUser (telegram_id : Z) (username : option string)
| GetUserByTelegramId (telegram_id : Z)
| GetUserHistory (user_id page : Z)
| GetUserStats (user_id page : Z)
| AddSearchHistory (user_id : Z) (query movie_id : string) (movie_title : value)
    (movie_url : string) (movie_rating : option Q)
| SearchMovie (query : option string)
| GetMovieDetails (movie_id : Z).

(** What the handler does not control: which calls to the transport and
    to the store raise ([fault k] is the exception raised by the call
    recorded at position [k]), the clock, and the catalog's replies. *)
Record Env : Type := mkEnv {
  fault : nat -> option exn;
  utcnow : Z;
  search_reply : string -> KinopoiskAPI.Reply;
  details_reply : Z -> KinopoiskAPI.Reply
}.

(** The store, the calls recorded so far, and the binding of the local
    variable [content_type] of [handle_pagination]. *)
Record World : Type := mkWorld {
  db : Store;
  calls : list Call;
  content_type_local : option string
}.

Definition M (A : Type) : Type := Env -> World -> result A * World.

Definition ret {A} (a : A) : M A := fun _ w => (Ok a, w).

Definition raise {A} (e : exn) : M A := fun _ w => (Raise e, w).

Definition bind {A B} (m : M A) (k : A -> M B) : M B :=
  fun env w =>
    match m env w with
    | (Ok a, w') => k a env w'
    | (Raise e, w') => (Raise e, w')
    end.

#[local] Notation "x <- m ;; k" := (bind m (fun x => k))
  (at level 61, m at next level, right associativity).
#[local] Notation "m ;; k" := (bind m (fun _ => k))
  (at level 61, right associativity).
#[local] Notation "' pat <- m ;; k" := (bind m (fun x => match x with pat => k end))
  (at level 61, pat pattern, m at next level, right associativity).

(** [try: body except Exception as e: handler]. *)
Definition try_except {A} (body : M A) (handler : exn -> M A) : M A :=
  fun env w =>
    match body env w with
    | (Raise e, w') => handler e env w'
    | done => done
    end.

Definition lift {A} (r : result A) : M A := fun _ w => (r, w).

Definition record (c : Call) (w : World) : World :=
  mkWorld (db w) (calls w ++ [c]) (content_type_local w).

(** [logger.error(...)]. *)
Definition logger_error (line : string) (cause : option exn) : M unit :=
  fun _ w => (Ok tt, record (LoggerError line cause) w).

(** A call to the transport or to the store: recorded, then it raises if
    the environment says so. *)
Definition invoke (c : Call) : M unit :=
  fun env w =>
    match fault env (List.length (calls w)) with
    | Some e => (Raise e, record c w)
    | None => (Ok tt, record c w)
    end.

Definition read_db : M Store := fun _ w => (Ok (db w), w).

Definition write_db (store : Store) : M unit :=
  fun _ w => (Ok tt, mkWorld store (calls w) (content_type_local w)).

Definition assign_content_type (content_type : string) : M unit :=
  fun _ w => (Ok tt, mkWorld (db w) (calls w) (Some content_type)).

(** A new frame: no local is bound yet. *)
Definition enter {A} (body : M A) : M A :=
  fun env w => body env (mkWorld (db w) (calls w) None).

(** *** The collaborators as the handlers call them *)

Definition callback_answer (text : option string) (show_alert : bool) : M unit :=
  invoke (CallbackAnswer text show_alert).

Definition message_answer (text : string) (reply_markup : option InlineKeyboardMarkup)
  : M unit :=
  invoke (MessageAnswer text reply_markup).

Definition message_edit_text (text : string) (reply_markup : InlineKeyboardMarkup)
  : M unit :=
  invoke (MessageEditText text reply_markup).

Definition db_get_or_create_user (telegram_id : Z) (username : option string)
  : M User.row :=
  invoke (GetOrCreateUser telegram_id username) ;;
  store <- read_db ;;
  let '(user, store') := get_or_create_user store telegram_id username in
  write_db store' ;;
  ret user.

Definition db_get_user_by_telegram_id (telegram_id : Z) : M (option User.row) :=
  invoke (GetUserByTelegramId telegram_id) ;;
  store <- read_db ;;
  ret (get_user_by_telegram_id store telegram_id).

(** [per_page] is left to its default, 5. *)
Definition db_get_user_history (user_id page : Z) : M (list SearchHistory.row * Z) :=
  invoke (GetUserHistory user_id page) ;;
  store <- read_db ;;
  lift (get_user_history store user_id page 5).

Definition db_get_user_stats (user_id page : Z) : M (list Stat * Z) :=
  invoke (GetUserStats user_id page) ;;
  store <- read_db ;;
  lift (get_user_stats store user_id page 5).

(** [movie_title[:255]] needs a string; a title of another type ends in
    an exception, here or when the row is written. *)
Definition db_add_search_history (user_id : Z) (query movie_id : string)
    (movie_title : value) (movie_url : string) (movie_rating : option Q) : M unit :=
  invoke (AddSearchHistory user_id query movie_id movie_title movie_url movie_rating) ;;
  match movie_title with
  | PStr title =>
      fun env w =>
        let '(_, store') :=
          add_search_history (db w) (utcnow env) user_id query movie_id title
            (Some movie_url) movie_rating in
        write_db store' env w
  | _ => raise TypeError
  end.

Fixpoint log_lines (lines : list string) : M unit :=
  match lines with
  | [] => ret tt
  | line :: rest => logger_error line None ;; log_lines rest
  end.

(** [self.kinopoisk.search_movie(message.text)]; a query that is [None]
    is refused when the request is built. *)
Definition api_search_movie {runtime : Runtime} (query : option string) : M (list MovieInfo.t) :=
  fun env w =>
    let reply := match query with
                 | Some q => search_reply env q
                 | None => KinopoiskAPI.GetRaised TypeError
                 end in
    let '(outcome, lines) := KinopoiskAPI.search_movie reply in
    (log_lines lines ;; lift outcome) env (record (SearchMovie query) w).

Definition api_get_movie_details {runtime : Runtime} (movie_id : Z) : M (option MovieInfo.t) :=
  fun env w =>
    let '(outcome, lines) := KinopoiskAPI.get_movie_details (details_reply env movie_id) in
    (log_lines lines ;; lift outcome) env (record (GetMovieDetails movie_id) w).

(** *** _get_or_create_user *)

Definition _get_or_create_user (telegram_user : option TelegramUser) : M User.row :=
  match telegram_user with
  | None => raise ValueError
  | Some telegram_user =>
      db_get_or_create_user (tg_id telegram_user) (tg_username telegram_user)
  end.

(** *** _get_pagination_keyboard *)

Definition _get_pagination_keyboard (content_type : string)
    (current_page total_pages : Z) : InlineKeyboardMarkup :=
  let back :=
    mkButton "◀️ Назад"
      (Some ("pagination_" ++ content_type ++ "_prev_" ++ str_of_int current_page))
      None in
  let forward :=
    mkButton "Вперед ▶️"
      (Some ("pagination_" ++ content_type ++ "_next_" ++ str_of_int current_page))
      None in
  List.app (if (1 <? current_page)%Z then [back] else [])
           (if (current_page <? total_pages)%Z then [forward] else []).

(** *** _format_history_message and _format_stats_message *)

Definition history_item_text {runtime : Runtime} (item : SearchHistory.row) : string :=
  "🔍 " ++ SearchHistory.query item ++ NL
  ++ "🎬 " ++ SearchHistory.movie_title item
  ++ (if truthy_rating (SearchHistory.movie_rating item)
      then match SearchHistory.movie_rating item with
           | Some rating => " (🤩 " ++ float_repr rating ++ ")"
           | None => EmptyString
           end
      else EmptyString)
  ++ NL
  ++ match SearchHistory.movie_url item with
     | Some movie_url =>
         if truthy_str movie_url then "🔗 " ++ movie_url ++ NL else EmptyString
     | None => EmptyString
     end
  ++ "📅 " ++ strftime (SearchHistory.timestamp item) ++ NL ++ NL.

Definition _format_history_message {runtime : Runtime} (history : list SearchHistory.row)
    (current_page total_pages : Z) : string :=
  match history with
  | [] => "История поиска пуста"
  | _ =>
      fold_left (fun message item => message ++ history_item_text item) history
        ("📝 История поиска (страница " ++ str_of_int current_page ++ " из "
         ++ str_of_int total_pages ++ "):" ++ NL ++ NL)
  end.

Definition stats_item_text {runtime : Runtime} (item : Stat) : string :=
  "🎬 " ++ movie_title item ++ NL
  ++ "🔢 Количество поисков: " ++ str_of_int (search_count item) ++ NL
  ++ (if truthy_rating (avg_rating item)
      then match avg_rating item with
           | Some rating => "🤩 Рейтинг: " ++ float_repr rating ++ NL
           | None => EmptyString
           end
      else EmptyString)
  ++ match movie_url item with
     | Some movie_url =>
         if truthy_str movie_url then "Просмотреть: " ++ movie_url ++ NL else EmptyString
     | None => EmptyString
     end
  ++ NL.

Definition _format_stats_message {runtime : Runtime} (stats : list Stat)
    (current_page total_pages : Z) : string :=
  match stats with
  | [] => "Статистика поиска пуста"
  | _ =>
      fold_left (fun message item => message ++ stats_item_text item) stats
        ("📊 Статистика поиска (страница " ++ str_of_int current_page ++ " из "
         ++ str_of_int total_pages ++ "):" ++ NL ++ NL)
  end.

(** *** _show_paginated_content, cmd_history, cmd_stats *)

Definition _show_paginated_content {runtime : Runtime} (content_type : string) (user_id : Z)
  : M unit :=
  let page := 1%Z in
  if content_type =? "history" then
    '(content, total_pages) <- db_get_user_history user_id page ;;
    let text := _format_history_message content page total_pages in
    let keyboard := _get_pagination_keyboard content_type page total_pages in
    message_answer text (Some keyboard)
  else if content_type =? "stats" then
    '(content, total_pages) <- db_get_user_stats user_id page ;;
    let text := _format_stats_message content page total_pages in
    let keyboard := _get_pagination_keyboard content_type page total_pages in
    message_answer text (Some keyboard)
  else
    logger_error "Неверный тип контента" None.

Definition cmd_history {runtime : Runtime} (message : Message) : M unit :=
  match from_user message with
  | None => message_answer "Ошибка: не удалось определить пользователя" None
  | Some telegram_user =>
      user <- _get_or_create_user (Some telegram_user) ;;
      _show_paginated_content "history" (User.id user)
  end.

Definition cmd_stats {runtime : Runtime} (message : Message) : M unit :=
  match from_user message with
  | None => message_answer "Ошибка: не удалось определить пользователя" None
  | Some telegram_user =>
      user <- _get_or_create_user (Some telegram_user) ;;
      _show_paginated_content "stats" (User.id user)
  end.

(** *** handle_search *)

Definition search_button {runtime : Runtime} (movie : MovieInfo.t) : Button :=
  let button_text := py_str (MovieInfo.title movie) in
  let button_text :=
    if truthy (MovieInfo.year movie)
    then button_text ++ " (" ++ py_str (MovieInfo.year movie) ++ ")"
    else button_text in
  let button_text :=
    match MovieInfo.rating movie with
    | Some rating =>
        if truthy_rating (Some rating)
        then button_text ++ " 🤩" ++ float_repr rating
        else button_text
    | None => button_text
    end in
  let button_text :=
    if equals_str (MovieInfo.type movie) "tv-series"
    then button_text ++ " 📺"
    else button_text in
  mkButton button_text (Some ("movie_" ++ py_str (MovieInfo.id movie))) None.

Definition handle_search {runtime : Runtime} (message : Message) : M unit :=
  match from_user message with
  | None => message_answer "Ошибка: не удалось определить пользователя" None
  | Some telegram_user =>
      _get_or_create_user (Some telegram_user) ;;
      movies <- api_search_movie (text message) ;;
      match movies with
      | [] => message_answer "По вашему запросу ничего не найдено 😔" None
      | _ =>
          message_answer "Выберите фильм из списка:"
            (Some (map search_button (firstn 5 movies)))
      end
  end.

(** *** handle_movie_select *)

#[local] Notation "x <~ r ;; k" := (rbind r (fun x => k))
  (at level 61, r at next level, right associativity).

(** The detail view; [join] and the [","] format raise on values of the
    wrong type. *)
Definition details_text {runtime : Runtime} (movie : MovieInfo.t) : result string :=
  let message := "🎬 " ++ py_str (MovieInfo.title movie) in
  let message :=
    if truthy (MovieInfo.original_title movie)
    then message ++ NL ++ "📝 " ++ py_str (MovieInfo.original_title movie)
    else message in
  let message :=
    if equals_str (MovieInfo.type movie) "tv-series"
    then message ++ NL ++ "📺 Сериал"
    else message in
  let message :=
    if truthy (MovieInfo.year movie)
    then message ++ NL ++ "📅 " ++ py_str (MovieInfo.year movie)
    else message in
  let message :=
    if truthy (MovieInfo.movie_length movie)
    then message ++ NL ++ "⏱ " ++ py_str (MovieInfo.movie_length movie) ++ " мин."
    else message in
  let message :=
    if truthy (MovieInfo.age_rating movie)
    then message ++ NL ++ "🔞 " ++ py_str (MovieInfo.age_rating movie) ++ "+"
    else message in
  message <~
    match MovieInfo.rating movie with
    | Some rating =>
        if truthy_rating (Some rating)
        then
          let message := message ++ NL ++ "🤩 Рейтинг КП: " ++ float_repr rating in
          if truthy (MovieInfo.votes_kp movie)
          then votes <~ format_grouped (MovieInfo.votes_kp movie) ;;
               Ok (message ++ " (" ++ votes ++ " пользователей оценили)")
          else Ok message
        else Ok message
    | None => Ok message
    end ;;
  message <~
    match MovieInfo.genres movie with
    | [] => Ok message
    | genres => joined <~ join_values ", " genres ;;
                Ok (message ++ NL ++ "🎭 Жанры: " ++ joined)
    end ;;
  message <~
    match MovieInfo.countries movie with
    | [] => Ok message
    | countries => joined <~ join_values ", " countries ;;
                   Ok (message ++ NL ++ "🌍 Страны: " ++ joined)
    end ;;
  let message :=
    if truthy (MovieInfo.short_description movie)
    then message ++ NL ++ NL ++ "📖 <blockquote>"
         ++ py_str (MovieInfo.short_description movie) ++ "</blockquote>"
    else if truthy (MovieInfo.description movie)
    then message ++ NL ++ NL ++ "📖 <blockquote>"
         ++ py_str (MovieInfo.description movie) ++ "</blockquote>"
    else message in
  let message :=
    if truthy (MovieInfo.external_id_imdb movie)
    then message ++ NL ++ NL ++ "🎯 IMDB: https://www.imdb.com/title/"
         ++ py_str (MovieInfo.external_id_imdb movie) ++ "/"
    else message in
  Ok (message ++ NL ++ "🎯 Кинопоиск: https://www.kinopoisk.ru/film/"
      ++ py_str (MovieInfo.id movie) ++ "/").

(** [int(callback.data.split("_")[1])]. *)
Definition selected_movie_id (callback_data : string) : result Z :=
  match split "_" callback_data with
  | _ :: second :: _ =>
      match int_of_str second with
      | Some movie_id => Ok movie_id
      | None => Raise ValueError
      end
  | _ => Raise IndexError
  end.

(** [query_text.split("\n")[0] if query_text else "Поиск"]. *)
Definition first_line (message_text : option string) : string :=
  let query_text := match message_text with
                    | Some t => t
                    | None => "Поиск"
                    end in
  if truthy_str query_text
  then match split (ascii_of_nat 10) query_text with
       | line :: _ => line
       | [] => EmptyString
       end
  else "Поиск".

Definition movie_select_body {runtime : Runtime} (callback : CallbackQuery) : M unit :=
  match message callback with
  | None => callback_answer (Some "Сообщение не найдено") true
  | Some callback_message =>
      match data callback with
      | None | Some EmptyString =>
          callback_answer (Some "Некорректные данные кнопки") true
      | Some callback_data =>
          movie_id <- lift (selected_movie_id callback_data) ;;
          found <- api_get_movie_details movie_id ;;
          match found with
          | None =>
              callback_answer (Some "Не удалось получить информацию о фильме") true
          | Some movie =>
              user <- db_get_user_by_telegram_id (tg_id (callback_from_user callback)) ;;
              match user with
              | None => callback_answer (Some "Пользователь не найден") true
              | Some user =>
                  let watch_url := "https://www.sspoisk.ru/film/"
                                   ++ py_str (MovieInfo.id movie) ++ "/" in
                  db_add_search_history (User.id user)
                    (first_line (text callback_message))
                    (py_str (MovieInfo.id movie))
                    (MovieInfo.title movie)
                    watch_url
                    (MovieInfo.rating movie) ;;
                  message_text <- lift (details_text movie) ;;
                  let keyboard := [mkButton "🎬 Посмотреть" None (Some watch_url)] in
                  (if truthy (MovieInfo.poster_url movie)
                   then
                     try_except
                       (invoke (MessageAnswerPhoto (MovieInfo.poster_url movie)
                                  message_text keyboard) ;;
                        invoke MessageDelete)
                       (fun e =>
                          logger_error "Ошибка при отправке постера: " (Some e) ;;
                          message_edit_text message_text keyboard)
                   else message_edit_text message_text keyboard) ;;
                  callback_answer None false
              end
          end
      end
  end.

Definition movie_select_except (e : exn) : M unit :=
  logger_error "Ошибка при обработке выбора фильма: " (Some e) ;;
  callback_answer (Some "Произошла ошибка при получении информации о фильме") true.

Definition handle_movie_select {runtime : Runtime} (callback : CallbackQuery) : M unit :=
  try_except (movie_select_body callback) movie_select_except.

(** *** handle_pagination *)

(** Lines 272-282: the three ways the token of a pagination button is
    read. *)
Inductive Decoded : Type :=
| WrongSegments
| WrongPageNumber (content_type action : string)
| Token (content_type action : string) (current_page : Z).

Definition decode_pagination (callback_data : string) : Decoded :=
  match split "_" callback_data with
  | [_; content_type; action; current_page_str] =>
      match int_of_str current_page_str with
      | Some current_page => Token content_type action current_page
      | None => WrongPageNumber content_type action
      end
  | _ => WrongSegments
  end.

(** [current_page + 1 if action == "next" else current_page - 1]. *)
Definition new_page_of (action : string) (current_page : Z) : Z :=
  if action =? "next" then (current_page + 1)%Z else (current_page - 1)%Z.

(** Lines 302-313, reached from both content types: [empty] is
    [not content]. *)
Definition show_page (empty : bool) (text : string) (content_type : string)
    (new_page total_pages : Z) : M unit :=
  if empty && (0 <? total_pages)%Z
  then callback_answer (Some "Ошибка при получении контента") true
  else
    let keyboard := _get_pagination_keyboard content_type new_page total_pages in
    message_edit_text text keyboard ;;
    callback_answer None false.

Definition is_empty {A} (l : list A) : bool :=
  match l with
  | [] => true
  | _ => false
  end.

(** [callback.data or ] the empty string. *)
Definition data_or_empty (callback : CallbackQuery) : string :=
  match data callback with
  | Some d => d
  | None => EmptyString
  end.

Definition pagination_body {runtime : Runtime} (callback : CallbackQuery) : M unit :=
  match message callback with
  | None => callback_answer (Some "Сообщение не найдено") true
  | Some _ =>
      let callback_data := data_or_empty callback in
      match decode_pagination callback_data with
      | WrongSegments => logger_error "Ошибка данных пагинации" None
      | WrongPageNumber content_type _ =>
          assign_content_type content_type ;;
          logger_error "Ошибка номера страницы" None
      | Token content_type action current_page =>
          assign_content_type content_type ;;
          user <- db_get_user_by_telegram_id (tg_id (callback_from_user callback)) ;;
          match user with
          | None => callback_answer (Some "Пользователь не найден") true
          | Some user =>
              let new_page := new_page_of action current_page in
              if content_type =? "history" then
                '(content, total_pages) <- db_get_user_history (User.id user) new_page ;;
                let text := _format_history_message content new_page total_pages in
                show_page (is_empty content) text content_type new_page total_pages
              else if content_type =? "stats" then
                '(content, total_pages) <- db_get_user_stats (User.id user) new_page ;;
                let text := _format_stats_message content new_page total_pages in
                show_page (is_empty content) text content_type new_page total_pages
              else
                logger_error "Неверный тип контента" None ;;
                callback_answer (Some "Ошибка при получении контента") true
          end
      end
  end.

(** The [except] clause reads [content_type], which is bound only once
    the token has been split in four. *)
Definition pagination_except (e : exn) : M unit :=
  fun env w =>
    match content_type_local w with
    | None => (Raise UnboundLocalError, w)
    | Some content_type =>
        (logger_error ("Ошибка при обработке пагинации " ++ content_type ++ ": ") (Some e) ;;
         callback_answer (Some "Произошла ошибка при обновлении контента") true) env w
    end.

Definition handle_pagination {runtime : Runtime} (callback : CallbackQuery) : M unit :=
  enter (try_except (pagination_body callback) pagination_except).

(** *** Vocabulary of the properties *)

(** The token of the specification: four segments joined by the
    delimiter, the page number in decimal. *)
Definition pagination_token (content_kind direction : string) (current_page : Z)
  : string :=
  join "_" ["pagination"; content_kind; direction; str_of_int current_page].

Definition is_previous (button : Button) : bool := button_text button =? "◀️ Назад".

Definition is_next (button : Button) : bool := button_text button =? "Вперед ▶️".

Definition is_store_call (c : Call) : bool :=
  match c with
  | GetOrCreateUser _ _ | GetUserByTelegramId _ | GetUserHistory _ _
  | GetUserStats _ _ | AddSearchHistory _ _ _ _ _ _ => true
  | _ => false
  end.

Definition is_edit (c : Call) : bool :=
  match c with
  | MessageEditText _ _ => true
  | _ => false
  end.

(** A transient notice: [callback.answer] with a text. *)
Definition is_notice (c : Call) : bool :=
  match c with
  | CallbackAnswer (Some _) _ => true
  | _ => false
  end.

Definition is_log (c : Call) : bool :=
  match c with
  | LoggerError _ _ => true
  | _ => false
  end.

(** *** The other handlers and the registration of the handlers *)

(** _get_history_keyboard, which no handler calls. *)
Definition _get_history_keyboard (current_page total_pages : Z) : InlineKeyboardMarkup :=
  let back :=
    mkButton "◀️ Назад" (Some ("history_prev_" ++ str_of_int current_page)) None in
  let forward :=
    mkButton "Вперед ▶️" (Some ("history_next_" ++ str_of_int current_page)) None in
  List.app (if (1 <? current_page)%Z then [back] else [])
           (if (current_page <? total_pages)%Z then [forward] else []).

(** The two registrations on [dp.callback_query], in their order: the
    first handler whose filter accepts the data gets the event. *)
Inductive CallbackHandler : Type :=
| HandlePagination
| HandleMovieSelect.

Definition callback_route (callback_data : option string) : option CallbackHandler :=
  match callback_data with
  | Some d =>
      if prefix "pagination_" d then Some HandlePagination
      else if prefix "movie_" d then Some HandleMovieSelect
      else None
  | None => None
  end.

(** cmd_start and cmd_help; the cache of the text loader is passed in
    and out. *)
Definition cmd_start (strip : string -> string) (files : string -> TextLoader.Read)
    (cache : TextLoader.Cache) (message : Message)
  : Env -> World -> (result unit * World) * TextLoader.Cache :=
  fun env w =>
    match from_user message with
    | None =>
        (message_answer "Ошибка: не удалось определить пользователя" None env w, cache)
    | Some telegram_user =>
        match _get_or_create_user (Some telegram_user) env w with
        | (Raise e, w') => ((Raise e, w'), cache)
        | (Ok _, w') =>
            match TextLoader.get_text strip files cache "start"
                    TextLoader.default_texts_dir with
            | (Ok text, cache') => (message_answer text None env w', cache')
            | (Raise e, cache') => ((Raise e, w'), cache')
            end
        end
    end.

Definition cmd_help (strip : string -> string) (files : string -> TextLoader.Read)
    (cache : TextLoader.Cache) (message : Message)
  : Env -> World -> (result unit * World) * TextLoader.Cache :=
  fun env w =>
    match TextLoader.get_text strip files cache "help" TextLoader.default_texts_dir with
    | (Ok text, cache') => (message_answer text None env w, cache')
    | (Raise e, cache') => ((Raise e, w), cache')
    end.

(** The calls that write the given lines to the log. *)
Definition logged (lines : list string) : list Call :=
  map (fun line => LoggerError line None) lines.

(** *** What a handler may do to the store *)

(** [keeps R m]: whatever the environment, the world [m] ends in is
    related by [R] to the world it started from. *)
Definition keeps (R : World -> World -> Prop) {A} (m : M A) : Prop :=
  forall env w r w', m env w = (r, w') -> R w w'.

Definition same_store (w w' : World) : Prop := db w' = db w.

(** The history is as it was and the users table has only grown at its
    end. *)
Definition users_grow (w w' : World) : Prop :=
  search_history (db w') = search_history (db w)
  /\ exists added, users (db w') = (users (db w) ++ added)%list.

Class StoreOrder (R : World -> World -> Prop) : Prop := {
  same_db_related : forall w w', db w' = db w -> R w w';
  related_trans : forall a b c, R a b -> R b c -> R a c
}.

End Bot.

(* ================================================================= *)
(** ** Sample data *)

Module Samples.
Import Database.

Definition film_url (movie_id : string) : string :=
  ("https://www.sspoisk.ru/film/" ++ movie_id ++ "/")%string.

Definition entry (id user_id : Z) (movie_id title : string) (rating : option Q)
  : SearchHistory.row :=
  SearchHistory.mk id user_id "Выберите фильм из списка:" movie_id title
    (Some (film_url movie_id)) rating 0.

Definition two_users : list User.row :=
  [User.mk 1 1001 (Some "alice"); User.mk 2 1002 None].

(** Twelve lookups of user 1, with two of user 2 in between. *)
Definition store_twelve : Store :=
  mkStore two_users
    [entry 1 1 "301" "Матрица" (Some 8.5%Q);
     entry 2 1 "326" "Побег из Шоушенка" (Some 9.1%Q);
     entry 3 2 "301" "Матрица" (Some 8.5%Q);
     entry 4 1 "301" "Матрица" (Some 8.5%Q);
     entry 5 1 "435" "Зеленая миля" (Some 9.1%Q);
     entry 6 1 "448" "Форрест Гамп" None;
     entry 7 1 "535341" "1+1" (Some 8.8%Q);
     entry 8 2 "326" "Побег из Шоушенка" (Some 9.1%Q);
     entry 9 1 "301" "Матрица" (Some 8.5%Q);
     entry 10 1 "258687" "Интерстеллар" (Some 8.6%Q);
     entry 11 1 "326" "Побег из Шоушенка" (Some 9.1%Q);
     entry 12 1 "447301" "Начало" (Some 8.7%Q);
     entry 13 1 "361" "Бойцовский клуб" (Some 8.7%Q);
     entry 14 1 "301" "Матрица" (Some 8.5%Q)].



(** One film looked up twice, rated 0.1 and 0.4 (the doubles nearest to
    them). *)
Definition store_near_tie : Store :=
  mkStore two_users
    [entry 1 1 "55" "Почти поровну" (Some (Py.to_double 0.1%Q));
     entry 2 1 "55" "Почти поровну" (Some (Py.to_double 0.4%Q))].

Definition store_empty : Store := mkStore two_users [].

(** A stand-in for the interpreter's functions, to run the handlers on the
    samples: floats print with one decimal, timestamps as numbers. *)
Definition runtime : Py.Runtime :=
  {| Py.float_of_str := fun _ => None;
     Py.float_repr := fun q =>
       (Py.str_of_int (Qfloor q) ++ "."
        ++ Py.str_of_int (Qfloor ((q - inject_Z (Qfloor q)) * 10)))%string;
     Py.container_repr := fun _ => "[...]";
     Py.format_grouped := fun v =>
       match v with
       | Py.PInt z => Py.Ok (Py.str_of_int z)
       | _ => Py.Raise Py.TypeError
       end;
     Py.strftime := Py.str_of_int |}.

(** The catalog's reply to a search: one record with [rating] null
    between two complete ones. *)
Definition docs_with_null_rating : Py.value :=
  Py.PDict
    [("docs",
      Py.PList
        [Py.PDict [("id", Py.PInt 301); ("name", Py.PStr "Матрица");
                   ("rating", Py.PDict [("kp", Py.PFloat 8.5%Q)])];
         Py.PDict [("id", Py.PInt 302); ("name", Py.PStr "Без рейтинга");
                   ("rating", Py.PNone)];
         Py.PDict [("id", Py.PInt 326); ("name", Py.PStr "Побег из Шоушенка")]])].

(** One record without [id] between two complete ones. *)
Definition docs_with_missing_id : Py.value :=
  Py.PDict
    [("docs",
      Py.PList
        [Py.PDict [("id", Py.PInt 301); ("name", Py.PStr "Матрица")];
         Py.PDict [("name", Py.PStr "Без номера")];
         Py.PDict [("id", Py.PInt 326); ("name", Py.PStr "Побег из Шоушенка")]])].

Definition film_301 : Py.value :=
  Py.PDict [("id", Py.PInt 301); ("name", Py.PStr "Матрица");
            ("year", Py.PInt 1999);
            ("rating", Py.PDict [("kp", Py.PFloat 8.5%Q)]);
            ("genres", Py.PList [Py.PDict [("name", Py.PStr "фантастика")]])].

(** No call fails; every search finds the film, and so does every lookup. *)
Definition calm : Bot.Env :=
  Bot.mkEnv (fun _ => None) 0
    (fun _ => KinopoiskAPI.Response 200 (Py.Ok (Py.PDict [("docs", Py.PList [film_301])])))
    (fun _ => KinopoiskAPI.Response 200 (Py.Ok film_301)).

(** As [calm], but the call recorded at position [k] raises [e]. *)
Definition failing_at (k : nat) (e : Py.exn) : Bot.Env :=
  Bot.mkEnv (fun i => if Nat.eqb i k then Some e else None)
    (Bot.utcnow calm) (Bot.search_reply calm) (Bot.details_reply calm).

(** A film with a poster. *)
Definition film_326 : Py.value :=
  Py.PDict [("id", Py.PInt 326); ("name", Py.PStr "Побег из Шоушенка");
            ("poster", Py.PDict [("url", Py.PStr "https://img.example/326.jpg")])].

(** Every lookup finds the film with a poster, and the call recorded at
    position [k] raises [e]. *)
Definition poster_failing_at (k : nat) (e : Py.exn) : Bot.Env :=
  Bot.mkEnv (fun i => if Nat.eqb i k then Some e else None) 0
    (Bot.search_reply calm)
    (fun _ => KinopoiskAPI.Response 200 (Py.Ok film_326)).

(** No call fails, but the catalog answers every request with status 503. *)
Definition catalog_down : Bot.Env :=
  Bot.mkEnv (fun _ => None) 0
    (fun _ => KinopoiskAPI.Response 503 (Py.Ok Py.PNone))
    (fun _ => KinopoiskAPI.Response 503 (Py.Ok Py.PNone)).

Definition alice : Bot.TelegramUser := Bot.mkTelegramUser 1001 (Some "alice").

Definition list_message : Bot.Message :=
  Bot.mkMessage None (Some "Выберите фильм из списка:").

Definition press (token : string) : Bot.CallbackQuery :=
  Bot.mkCallbackQuery (Some list_message) (Some token) alice.

Definition typed (query : string) : Bot.Message :=
  Bot.mkMessage (Some alice) (Some query).

Definition world (store : Store) : Bot.World := Bot.mkWorld store [] None.

End Samples.

(* ================================================================= *)
(** ** Properties *)

Module PyFacts.
Import Py.

Example split_token :
  split "_" "pagination_history_next_12" = ["pagination"; "history"; "next"; "12"].
Proof. reflexivity. Qed.

Example int_examples :
  map int_of_str [" 12 "; "+7"; "-3"; "0012"; "1_000"; "1__0"; "_1"; "1_"; "x"; "- 1"; "0"]
  = [Some 12; Some 7; Some (-3); Some 12; Some 1000; None; None; None; None; None; Some 0].
Proof. reflexivity. Qed.

(** Digits and whitespace of other scripts are read like those of ASCII. *)
Example int_unicode_examples :
  map int_of_str ["١٢"; "1١"; "-١٢"; "１２"; "۱۲"; "١٢x"; "é1"; "１ ２"]
  = [Some 12; Some 11; Some (-12); Some 12; Some 12; None; None; None].
Proof. reflexivity. Qed.

Example str_examples :
  map str_of_int [0; 7; -12; 4300] = ["0"; "7"; "-12"; "4300"].
Proof. reflexivity. Qed.

Example take_chars_utf8 : take_chars 2 "Поиск" = "По".
Proof. reflexivity. Qed.

(** *** split *)

Lemma split_without (sep : ascii) (s : string) :
  contains sep s = false -> split sep s = [s].
Proof.
  induction s as [|c s IH]; simpl; [reflexivity|].
  intros H. apply orb_false_iff in H. destruct H as [Hc Hs].
  rewrite Hc, (IH Hs). reflexivity.
Qed.

Lemma split_app (sep : ascii) (s1 s2 : string) :
  contains sep s1 = false ->
  split sep (s1 ++ String sep s2) = s1 :: split sep s2.
Proof.
  induction s1 as [|c s1 IH]; simpl.
  - intros _. now rewrite Ascii.eqb_refl.
  - intros H. apply orb_false_iff in H. destruct H as [Hc Hs].
    rewrite Hc, (IH Hs). reflexivity.
Qed.

(** *** int and str *)

Ltac digit_cases c H :=
  destruct c as [[] [] [] [] [] [] [] []]; try discriminate H.

Lemma digit_not_space (c : ascii) : is_digit c = true -> is_space c = false.
Proof. intros H. digit_cases c H; reflexivity. Qed.

Lemma digit_not_separator (c : ascii) : is_digit c = true -> Ascii.eqb c "_" = false.
Proof. intros H. digit_cases c H; reflexivity. Qed.

Lemma digit_is_ascii (c : ascii) : is_digit c = true -> (N_of_ascii c <? 127)%N = true.
Proof. intros H. digit_cases c H; reflexivity. Qed.

(** Text made of ASCII digits is left as it is. *)
Lemma ascii_decimal_digits (s : string) : all_digits s = true -> ascii_decimal s = s.
Proof.
  induction s as [|c s IH]; [reflexivity|].
  cbn [all_digits ascii_decimal]. intros H.
  apply andb_true_iff in H. destruct H as [Hc Hs].
  cbv zeta. now rewrite (digit_is_ascii c Hc), (IH Hs).
Qed.

Lemma rstrip_digits (s : string) : all_digits s = true -> rstrip s = s.
Proof.
  induction s as [|c s IH]; simpl; [reflexivity|].
  intros H. apply andb_true_iff in H. destruct H as [Hc Hs].
  rewrite (IH Hs), (digit_not_space c Hc). now destruct s.
Qed.

Lemma drop_separators_digits (s : string) :
  all_digits s = true -> drop_separators true s = Some s.
Proof.
  induction s as [|c s IH]; simpl; [reflexivity|].
  intros H. apply andb_true_iff in H. destruct H as [Hc Hs].
  now rewrite (digit_not_separator c Hc), (IH Hs).
Qed.

Lemma parse_digits_digits (s : string) :
  all_digits s = true -> s <> EmptyString ->
  parse_digits s = option_map Z.of_uint (NilZero.uint_of_string s).
Proof.
  destruct s as [|c s]; [congruence|]. simpl. intros H _.
  apply andb_true_iff in H. destruct H as [Hc Hs].
  unfold parse_digits. cbn [drop_separators].
  now rewrite (digit_not_separator c Hc), (drop_separators_digits s Hs).
Qed.

Lemma int_of_str_digits (s : string) :
  all_digits s = true -> s <> EmptyString ->
  int_of_str s = option_map Z.of_uint (NilZero.uint_of_string s).
Proof.
  intros H Hne. rewrite <- (parse_digits_digits s H Hne).
  destruct s as [|c s]; [congruence|].
  cbn [all_digits] in H. apply andb_true_iff in H. destruct H as [Hc Hs].
  unfold int_of_str.
  rewrite (ascii_decimal_digits (String c s)) by (cbn [all_digits]; now rewrite Hc, Hs).
  cbn [lstrip]. rewrite (digit_not_space c Hc).
  rewrite (rstrip_digits (String c s)) by (cbn [all_digits]; now rewrite Hc, Hs).
  digit_cases c Hc; reflexivity.
Qed.

Lemma int_of_str_minus (s : string) :
  all_digits s = true -> s <> EmptyString ->
  int_of_str (String "-" s)
  = option_map Z.opp (option_map Z.of_uint (NilZero.uint_of_string s)).
Proof.
  intros H Hne. rewrite <- (parse_digits_digits s H Hne).
  unfold int_of_str.
  change (ascii_decimal (String "-" s)) with (String "-" (ascii_decimal s)).
  rewrite (ascii_decimal_digits s H).
  cbn [lstrip]. change (is_space "-") with false. cbv iota.
  cbn [rstrip]. rewrite (rstrip_digits s H).
  destruct s as [|c s]; [congruence|]. reflexivity.
Qed.

Lemma string_of_uint_digits (d : Decimal.uint) :
  all_digits (NilEmpty.string_of_uint d) = true.
Proof. induction d; simpl; auto. Qed.

Lemma string_of_uint_nonempty (d : Decimal.uint) :
  d <> Decimal.Nil -> NilEmpty.string_of_uint d <> EmptyString.
Proof. destruct d; simpl; congruence. Qed.

Lemma str_of_pos (p : positive) :
  all_digits (NilZero.string_of_uint (Pos.to_uint p)) = true
  /\ NilZero.string_of_uint (Pos.to_uint p) <> EmptyString
  /\ option_map Z.of_uint
       (NilZero.uint_of_string (NilZero.string_of_uint (Pos.to_uint p)))
     = Some (Z.pos p).
Proof.
  assert (Hnn := DecimalPos.Unsigned.to_uint_nonnil p).
  assert (E : NilZero.string_of_uint (Pos.to_uint p)
              = NilEmpty.string_of_uint (Pos.to_uint p)).
  { destruct (Pos.to_uint p); [congruence | reflexivity ..]. }
  split; [rewrite E; apply string_of_uint_digits|].
  split; [rewrite E; now apply string_of_uint_nonempty|].
  rewrite NilZero.usu by assumption. cbn [option_map]. f_equal.
  unfold Z.of_uint. now rewrite DecimalPos.Unsigned.of_to.
Qed.

(** [int(str(n)) == n]. *)
Lemma int_of_str_of_int (z : Z) : int_of_str (str_of_int z) = Some z.
Proof.
  destruct z as [|p|p]; [reflexivity | |];
    destruct (str_of_pos p) as (Hd & Hne & Hv);
    unfold str_of_int; cbn [Z.to_int NilZero.string_of_int].
  - now rewrite int_of_str_digits.
  - rewrite int_of_str_minus by assumption. now rewrite Hv.
Qed.

Lemma str_of_int_no_separator (z : Z) : contains "_" (str_of_int z) = false.
Proof.
  assert (Hdigits : forall s, all_digits s = true -> contains "_" s = false).
  { induction s as [|c s IH]; simpl; [reflexivity|].
    intros H. apply andb_true_iff in H. destruct H as [Hc Hs].
    now rewrite (digit_not_separator c Hc), (IH Hs). }
  destruct z as [|p|p]; [reflexivity | |];
    destruct (str_of_pos p) as (Hd & _ & _);
    unfold str_of_int; cbn [Z.to_int NilZero.string_of_int].
  - now apply Hdigits.
  - cbn [contains]. now rewrite (Hdigits _ Hd).
Qed.

End PyFacts.

(* ================================================================= *)
(** ** The history store *)

Module DatabaseFacts.
Import Py Database.

(** *** ORDER BY ... DESC *)

Section Ordering.
Context {A : Type} (key : A -> Z).

Let before (a b : A) : bool := key b <? key a.
Let descending (a b : A) : Prop := key b <= key a.

Lemma insert_sorted_perm (x : A) (l : list A) :
  Permutation (x :: l) (insert_sorted before x l).
Proof.
  induction l as [|y l IH]; simpl; [reflexivity|].
  destruct (before y x); [|reflexivity].
  rewrite perm_swap. now constructor.
Qed.

Lemma insert_sorted_sorted (x : A) (l : list A) :
  StronglySorted descending l ->
  StronglySorted descending (insert_sorted before x l).
Proof.
  induction 1 as [|y l Hl IH Hy]; simpl.
  - repeat constructor.
  - destruct (before y x) eqn:E; unfold before in E.
    + constructor; [exact IH|].
      rewrite <- (insert_sorted_perm x l).
      constructor; [unfold descending; lia | exact Hy].
    + constructor; [now constructor|].
      constructor; [unfold descending; lia|].
      eapply Forall_impl; [|exact Hy].
      unfold descending; intros a Ha; lia.
Qed.

Lemma order_by_perm (l : list A) : Permutation (order_by before l) l.
Proof.
  induction l as [|x l IH]; simpl; [reflexivity|].
  rewrite <- insert_sorted_perm. now constructor.
Qed.

Lemma order_by_sorted (l : list A) :
  StronglySorted descending (order_by before l).
Proof.
  induction l as [|x l IH]; simpl; [constructor|].
  now apply insert_sorted_sorted.
Qed.

Lemma order_by_length (l : list A) :
  List.length (order_by before l) = List.length l.
Proof. apply Permutation_length, order_by_perm. Qed.
End Ordering.

(** *** OFFSET and LIMIT *)

Lemma offset_limit_window {A} (offset limit : Z) (l : list A) :
  0 <= offset -> 0 <= limit ->
  offset_limit offset limit l
  = firstn (Z.to_nat limit) (skipn (Z.to_nat offset) l).
Proof.
  intros _ Hl. unfold offset_limit.
  destruct (Z.ltb_spec limit 0); [lia | reflexivity].
Qed.

Lemma offset_limit_nth {A} (offset limit : Z) (l : list A) (i : nat) :
  0 <= offset -> 0 <= limit ->
  nth_error (offset_limit offset limit l) i
  = if (Z.of_nat i <? limit) then nth_error l (Z.to_nat (offset + Z.of_nat i)) else None.
Proof.
  intros Ho Hl. rewrite offset_limit_window by assumption.
  rewrite nth_error_firstn, nth_error_skipn.
  destruct (Nat.ltb_spec i (Z.to_nat limit)), (Z.ltb_spec (Z.of_nat i) limit);
    try lia; [|reflexivity].
  f_equal. lia.
Qed.

Lemma offset_limit_beyond {A} (offset limit : Z) (l : list A) :
  Z.of_nat (List.length l) <= offset ->
  offset_limit offset limit l = [].
Proof.
  intros H. unfold offset_limit.
  rewrite skipn_all2 by lia.
  destruct (limit <? 0); [reflexivity | apply firstn_nil].
Qed.

(** *** The page count *)

Lemma ceiling_quotient (a b : Z) :
  0 < b -> Qceiling (inject_Z a / inject_Z b) = (a + b - 1) / b.
Proof.
  intros Hb. destruct b as [|p|p]; try lia.
  unfold Qceiling, Qfloor, Qdiv, Qinv, Qmult, Qopp, inject_Z; simpl.
  rewrite Z.mul_1_r.
  Z.div_mod_to_equations. nia.
Qed.

Lemma total_pages_ceiling (total_count per_page : Z) :
  1 <= per_page ->
  total_pages total_count per_page
  = Ok (Z.max 1 (Qceiling (inject_Z total_count / inject_Z per_page))).
Proof.
  intros H. unfold total_pages.
  destruct (Z.eqb_spec per_page 0); [lia|].
  now rewrite ceiling_quotient by lia.
Qed.

Lemma total_pages_of_none (per_page : Z) :
  1 <= per_page -> total_pages 0 per_page = Ok 1.
Proof.
  intros H. unfold total_pages.
  destruct (Z.eqb_spec per_page 0); [lia|].
  rewrite Z.div_small by lia. reflexivity.
Qed.

(** C1. For every total_count >= 0 and per_page >= 1 the page count that
    get_user_history and get_user_stats return is
    max(1, ceil(total_count / per_page)), where total_count is the number
    of the user's rows (of the user's groups, for the statistics); with no
    history row, page 1 is an empty list together with a page count of 1. *)
Theorem total_pages_is_floored_ceiling
    (db : Store) (user_id page per_page total_count : Z) :
  0 <= total_count -> 1 <= per_page ->
  total_pages total_count per_page
  = Ok (Z.max 1 (Qceiling (inject_Z total_count / inject_Z per_page)))
  /\ (exists history,
        get_user_history db user_id page per_page
        = Ok (history,
              Z.max 1 (Qceiling
                (inject_Z (Z.of_nat (List.length (rows_of_user db user_id)))
                 / inject_Z per_page))))
  /\ (exists stats,
        get_user_stats db user_id page per_page
        = Ok (stats,
              Z.max 1 (Qceiling
                (inject_Z (Z.of_nat (List.length (group_by (rows_of_user db user_id))))
                 / inject_Z per_page))))
  /\ (rows_of_user db user_id = [] ->
      get_user_history db user_id 1 per_page = Ok ([], 1)
      /\ get_user_stats db user_id 1 per_page = Ok ([], 1)).
Proof.
  intros _ Hpp. split; [now apply total_pages_ceiling|].
  split; [|split].
  - unfold get_user_history.
    rewrite total_pages_ceiling by assumption. simpl. eauto.
  - unfold get_user_stats, subquery.
    rewrite length_map, total_pages_ceiling by assumption. simpl. eauto.
  - intros Hnone. unfold get_user_history, get_user_stats, subquery.
    rewrite Hnone. simpl.
    rewrite total_pages_of_none by assumption. simpl.
    unfold offset_limit. simpl.
    destruct (per_page <? 0); rewrite ?firstn_nil; split; reflexivity.
Qed.

(** *** GROUP BY *)

Lemma option_string_eqb_eq (a b : option string) :
  option_string_eqb a b = true <-> a = b.
Proof.
  destruct a as [x|], b as [y|]; simpl; try (split; congruence).
  rewrite String.eqb_eq. split; congruence.
Qed.

Lemma key_eqb_eq (a b : movie_key) : key_eqb a b = true <-> a = b.
Proof.
  destruct a as [[i t] u], b as [[i' t'] u']. unfold key_eqb.
  rewrite !andb_true_iff, !String.eqb_eq, option_string_eqb_eq.
  split; [intros [[-> ->] ->]; reflexivity | intros [= -> -> ->]; auto].
Qed.

Lemma key_eqb_refl (k : movie_key) : key_eqb k k = true.
Proof. now apply key_eqb_eq. Qed.

Lemma key_eqb_neq (a b : movie_key) : a <> b -> key_eqb a b = false.
Proof.
  intros H. destruct (key_eqb a b) eqn:E; [|reflexivity].
  now apply key_eqb_eq in E.
Qed.

Lemma group_by_snoc (rows : list SearchHistory.row) (r : SearchHistory.row) :
  group_by (rows ++ [r]) = add_to_group r (group_by rows).
Proof. unfold group_by. now rewrite fold_left_app. Qed.

Lemma add_to_group_new r groups :
  ~ In (key_of r) (map fst groups) ->
  add_to_group r groups = groups ++ [(key_of r, [r])].
Proof.
  induction groups as [|[k m] gs IH]; cbn [add_to_group app map fst In];
    intros Hnew; [reflexivity|].
  rewrite key_eqb_neq by tauto. f_equal. apply IH. tauto.
Qed.

Lemma add_to_group_known r before members after :
  ~ In (key_of r) (map fst before) ->
  add_to_group r (before ++ (key_of r, members) :: after)
  = before ++ (key_of r, members ++ [r]) :: after.
Proof.
  induction before as [|[k m] gs IH]; cbn [add_to_group app map fst In];
    intros Hnew.
  - now rewrite key_eqb_refl.
  - rewrite key_eqb_neq by tauto. f_equal. apply IH. tauto.
Qed.

Lemma rows_with_key_snoc k rows r :
  rows_with_key k (rows ++ [r])
  = rows_with_key k rows ++ (if key_eqb (key_of r) k then [r] else []).
Proof. unfold rows_with_key. rewrite filter_app. reflexivity. Qed.

Lemma rows_with_key_none k rows :
  (forall r, In r rows -> key_of r <> k) -> rows_with_key k rows = [].
Proof.
  induction rows as [|x rows IH]; intros H; [reflexivity|].
  unfold rows_with_key in *. cbn [filter].
  rewrite key_eqb_neq by (apply H; now left).
  apply IH. intros r Hr. apply H. now right.
Qed.

Lemma key_eq_dec (a b : movie_key) : {a = b} + {a <> b}.
Proof.
  destruct (key_eqb a b) eqn:E.
  - left. now apply key_eqb_eq.
  - right. intros H. apply key_eqb_eq in H. congruence.
Qed.

Lemma grouped_known r rows before members after :
  grouped rows (before ++ (key_of r, members) :: after) ->
  grouped (rows ++ [r]) (before ++ (key_of r, members ++ [r]) :: after).
Proof.
  intros (Hnd & Hmem & Hcov).
  assert (Hkeys : forall m', map fst (before ++ (key_of r, m') :: after)
                             = map fst (before ++ (key_of r, members) :: after)).
  { intros m'. now rewrite !map_app. }
  rewrite map_app in Hnd. cbn [map fst] in Hnd.
  assert (Hfresh := NoDup_remove_2 _ _ _ Hnd).
  assert (Hother : forall k ms,
             In (k, ms) before \/ In (k, ms) after -> k <> key_of r).
  { intros k ms Hin ->. apply Hfresh, in_or_app.
    destruct Hin as [Hin|Hin]; [left|right]; exact (in_map fst _ _ Hin). }
  split; [|split].
  - rewrite Hkeys, map_app. exact Hnd.
  - intros k ms Hin. rewrite rows_with_key_snoc.
    apply in_app_or in Hin. destruct Hin as [Hin|[Hin|Hin]].
    + destruct (Hmem k ms) as [-> Hne]; [apply in_or_app; now left|].
      rewrite key_eqb_neq, app_nil_r; [now split|].
      intros E. apply (Hother k (rows_with_key k rows)); auto.
    + injection Hin as <- <-.
      destruct (Hmem (key_of r) members) as [-> _];
        [apply in_or_app; right; now left|].
      rewrite key_eqb_refl. split; [reflexivity|].
      now destruct (rows_with_key (key_of r) rows).
    + destruct (Hmem k ms) as [-> Hne]; [apply in_or_app; right; now right|].
      rewrite key_eqb_neq, app_nil_r; [now split|].
      intros E. apply (Hother k (rows_with_key k rows)); auto.
  - intros r' Hr'. rewrite Hkeys. apply in_app_or in Hr'.
    destruct Hr' as [Hr'|[<-|[]]]; [now apply Hcov|].
    rewrite map_app. apply in_or_app. right. now left.
Qed.

Lemma grouped_new r rows groups :
  grouped rows groups ->
  ~ In (key_of r) (map fst groups) ->
  grouped (rows ++ [r]) (groups ++ [(key_of r, [r])]).
Proof.
  intros (Hnd & Hmem & Hcov) Hnew.
  assert (Hnone : rows_with_key (key_of r) rows = []).
  { apply rows_with_key_none. intros r' Hr' E. apply Hnew.
    rewrite <- E. now apply Hcov. }
  split; [|split].
  - rewrite map_app. cbn [map fst].
    apply (Permutation_NoDup (l := key_of r :: map fst groups)).
    + rewrite Permutation_app_comm. reflexivity.
    + now constructor.
  - intros k ms Hin. rewrite rows_with_key_snoc.
    apply in_app_or in Hin. destruct Hin as [Hin|[Hin|[]]].
    + destruct (Hmem k ms Hin) as [-> Hne].
      rewrite key_eqb_neq, app_nil_r; [now split|].
      intros E. apply Hnew. rewrite E. exact (in_map fst _ _ Hin).
    + injection Hin as <- <-. rewrite Hnone, key_eqb_refl.
      split; [reflexivity | discriminate].
  - intros r' Hr'. rewrite map_app. apply in_or_app.
    apply in_app_or in Hr'. destruct Hr' as [Hr'|[<-|[]]].
    + left. now apply Hcov.
    + right. now left.
Qed.

Lemma group_by_grouped (rows : list SearchHistory.row) :
  grouped rows (group_by rows).
Proof.
  induction rows as [|r rows IH] using rev_ind.
  - repeat split; simpl; [constructor | contradiction | contradiction | contradiction].
  - rewrite group_by_snoc.
    destruct (in_dec key_eq_dec (key_of r) (map fst (group_by rows))) as [Hin|Hnew].
    + apply in_map_iff in Hin. destruct Hin as ([k members] & Hk & Hin).
      cbn [fst] in Hk. subst k.
      destruct (in_split _ _ Hin) as (before & after & Hsplit).
      rewrite Hsplit in IH |- *.
      destruct IH as (Hnd & Hrest).
      rewrite add_to_group_known.
      * apply grouped_known. now split.
      * rewrite map_app in Hnd. cbn [map fst] in Hnd.
        intros H. apply (NoDup_remove_2 _ _ _ Hnd), in_or_app. now left.
    + rewrite add_to_group_new by assumption. now apply grouped_new.
Qed.

(** *** get_user_history *)

Lemma newest_first_perm (db : Store) (user_id : Z) :
  Permutation (order_by newer (rows_of_user db user_id)) (rows_of_user db user_id).
Proof. apply (order_by_perm SearchHistory.id). Qed.

Lemma newest_first_sorted (db : Store) (user_id : Z) :
  StronglySorted (fun a b => SearchHistory.id b <= SearchHistory.id a)
    (order_by newer (rows_of_user db user_id)).
Proof. apply (order_by_sorted SearchHistory.id). Qed.

Lemma get_user_history_window (db : Store) (user_id page per_page : Z) :
  1 <= page -> 1 <= per_page ->
  exists history total,
    get_user_history db user_id page per_page = Ok (history, total)
    /\ forall i : nat,
        nth_error history i
        = if Z.of_nat i <? per_page
          then nth_error (order_by newer (rows_of_user db user_id))
                 (Z.to_nat ((page - 1) * per_page + Z.of_nat i))
          else None.
Proof.
  intros Hp Hpp. unfold get_user_history.
  rewrite total_pages_ceiling by assumption. cbn [rbind].
  eexists _, _. split; [reflexivity|].
  intros i. apply offset_limit_nth; nia.
Qed.

(** C6. A user with 12 history rows, per_page = 5: page 1 is the 5 newest
    rows (descending id) with 3 pages in all, page 3 the remaining 2 rows,
    page 4 an empty list with still 3 pages; the window of page p is rows
    [(p-1)*per_page, p*per_page) of the rows in descending order of id. *)
Theorem history_of_twelve_rows (db : Store) (user_id : Z) :
  List.length (rows_of_user db user_id) = 12%nat ->
  let newest_first := order_by newer (rows_of_user db user_id) in
  Permutation newest_first (rows_of_user db user_id)
  /\ StronglySorted (fun a b => SearchHistory.id b <= SearchHistory.id a) newest_first
  /\ get_user_history db user_id 1 5 = Ok (firstn 5 newest_first, 3)
  /\ List.length (firstn 5 newest_first) = 5%nat
  /\ (forall recent older,
        In recent (firstn 5 newest_first) -> In older (skipn 5 newest_first) ->
        SearchHistory.id older <= SearchHistory.id recent)
  /\ get_user_history db user_id 3 5 = Ok (skipn 10 newest_first, 3)
  /\ List.length (skipn 10 newest_first) = 2%nat
  /\ get_user_history db user_id 4 5 = Ok ([], 3)
  /\ (forall page per_page, 1 <= page -> 1 <= per_page ->
      exists history total,
        get_user_history db user_id page per_page = Ok (history, total)
        /\ forall i : nat,
            nth_error history i
            = if Z.of_nat i <? per_page
              then nth_error newest_first (Z.to_nat ((page - 1) * per_page + Z.of_nat i))
              else None).
Proof.
  intros H12 newest_first.
  assert (Hlen : List.length newest_first = 12%nat).
  { unfold newest_first. now rewrite (order_by_length SearchHistory.id). }
  assert (Hsorted := newest_first_sorted db user_id). fold newest_first in Hsorted.
  assert (Hpages : forall page,
             get_user_history db user_id page 5
             = Ok (offset_limit ((page - 1) * 5) 5 newest_first, 3)).
  { intros page. unfold get_user_history. rewrite H12. reflexivity. }
  split; [apply newest_first_perm|].
  split; [exact Hsorted|].
  split; [rewrite Hpages; reflexivity|].
  split; [rewrite length_firstn, Hlen; reflexivity|].
  split.
  { intros recent older Hr Ho.
    rewrite <- (firstn_skipn 5 newest_first) in Hsorted.
    revert Hsorted Hr Ho.
    generalize (firstn 5 newest_first) (skipn 5 newest_first).
    induction l as [|x l IH]; intros l' Hs Hr Ho; [destruct Hr|].
    simpl in Hs. inversion Hs as [|? ? Hs' Hall]; subst.
    destruct Hr as [<-|Hr]; [|now apply (IH l')].
    rewrite Forall_forall in Hall. apply Hall, in_or_app. now right. }
  split.
  { rewrite Hpages. f_equal. f_equal.
    rewrite offset_limit_window by lia.
    change (Z.to_nat ((3 - 1) * 5)) with 10%nat.
    apply firstn_all2. rewrite length_skipn, Hlen. simpl. lia. }
  split; [rewrite length_skipn, Hlen; reflexivity|].
  split.
  { rewrite Hpages. f_equal. f_equal.
    apply offset_limit_beyond. rewrite Hlen. simpl. lia. }
  intros page per_page. apply get_user_history_window.
Qed.

(** *** get_user_stats *)







Lemma most_searched_perm (db : Store) (user_id : Z) :
  Permutation (order_by more_searched (subquery db user_id)) (subquery db user_id).
Proof. apply (order_by_perm agg_search_count). Qed.


Lemma agg_key_aggregate (g : movie_key * list SearchHistory.row) :
  agg_key (aggregate g) = fst g.
Proof. now destruct g as [[[i t] u] members]. Qed.

Lemma subquery_keys (db : Store) (user_id : Z) :
  map agg_key (subquery db user_id) = map fst (group_by (rows_of_user db user_id)).
Proof.
  unfold subquery. rewrite map_map. apply map_ext, agg_key_aggregate.
Qed.

Lemma subquery_member (db : Store) (user_id : Z) (g : Aggregate) :
  In g (subquery db user_id) ->
  let members := rows_with_key (agg_key g) (rows_of_user db user_id) in
  members <> []
  /\ agg_search_count g = Z.of_nat (List.length members)
  /\ agg_avg_rating g = sql_avg members.
Proof.
  unfold subquery. intros Hg. apply in_map_iff in Hg.
  destruct Hg as ([k members] & <- & Hin).
  destruct (group_by_grouped (rows_of_user db user_id)) as (_ & Hmem & _).
  destruct (Hmem k members Hin) as [Heq Hne].
  rewrite agg_key_aggregate. cbn [fst]. rewrite <- Heq.
  destruct k as [[i t] u]. now repeat split.
Qed.



(** *** The page after the last one *)

Lemma window_after_last_page {A} (l : list A) (last : Z) :
  last = Z.max 1 ((Z.of_nat (List.length l) + 5 - 1) / 5) ->
  0 < last /\ offset_limit ((last + 1 - 1) * 5) 5 l = [].
Proof.
  intros ->. split; [lia|].
  apply offset_limit_beyond.
  assert (H : Z.of_nat (List.length l) <= 5 * ((Z.of_nat (List.length l) + 5 - 1) / 5))
    by (Z.div_mod_to_equations; lia).
  lia.
Qed.

Lemma history_after_last_page (db : Store) (user_id last : Z) shown :
  get_user_history db user_id last 5 = Ok (shown, last) ->
  0 < last /\ get_user_history db user_id (last + 1) 5 = Ok ([], last).
Proof.
  unfold get_user_history. cbn [total_pages Z.eqb rbind]. intros [= _ Hlast].
  destruct (window_after_last_page (order_by newer (rows_of_user db user_id)) last)
    as [Hpos Hwindow].
  { now rewrite (order_by_length SearchHistory.id). }
  split; [exact Hpos|]. now rewrite Hwindow, Hlast.
Qed.

Lemma stats_after_last_page (db : Store) (user_id last : Z) shown :
  get_user_stats db user_id last 5 = Ok (shown, last) ->
  0 < last /\ get_user_stats db user_id (last + 1) 5 = Ok ([], last).
Proof.
  unfold get_user_stats. cbn [total_pages Z.eqb rbind]. intros [= _ Hlast].
  destruct (window_after_last_page (order_by more_searched (subquery db user_id)) last)
    as [Hpos Hwindow].
  { now rewrite (order_by_length agg_search_count). }
  split; [exact Hpos|]. now rewrite Hwindow, Hlast.
Qed.

(** *** The scenarios on sample stores *)

Lemma total_pages_is_floored_ceiling_witness :
  total_pages 0 5 = Ok (Z.max 1 (Qceiling (inject_Z 0 / inject_Z 5)))
  /\ get_user_history Samples.store_empty 1 1 5 = Ok ([], 1)
  /\ get_user_stats Samples.store_empty 1 1 5 = Ok ([], 1).
Proof.
  pose proof (total_pages_is_floored_ceiling Samples.store_empty 1 1 5 0
                ltac:(lia) ltac:(lia)) as (Hpages & _ & _ & Hnone).
  split; [exact Hpages | exact (Hnone eq_refl)].
Defined.

Example twelve_rows_pages :
  let ids r := match r with
               | Ok (history, total) => Some (map SearchHistory.id history, total)
               | Raise _ => None
               end in
  map (fun page => ids (get_user_history Samples.store_twelve 1 page 5)) [1; 2; 3; 4]
  = [Some ([14; 13; 12; 11; 10], 3); Some ([9; 7; 6; 5; 4], 3);
     Some ([2; 1], 3); Some ([], 3)].
Proof. reflexivity. Qed.

Lemma history_of_twelve_rows_witness :
  List.length (rows_of_user Samples.store_twelve 1) = 12%nat
  /\ get_user_history Samples.store_twelve 1 1 5
     = Ok (firstn 5 (order_by newer (rows_of_user Samples.store_twelve 1)), 3)
  /\ get_user_history Samples.store_twelve 1 3 5
     = Ok (skipn 10 (order_by newer (rows_of_user Samples.store_twelve 1)), 3)
  /\ get_user_history Samples.store_twelve 1 4 5 = Ok ([], 3).
Proof.
  pose proof (history_of_twelve_rows Samples.store_twelve 1 eq_refl)
    as (_ & _ & Hfirst & _ & _ & Hthird & _ & Hfourth & _).
  repeat split; assumption.
Defined.


(** The sum of the doubles of 0.1 and 0.4 rounds to 0.5, so that their
    average in doubles is 0.25 and is reported as 0.2, although the mean
    of the two stored values is above 0.25 and nearer to 0.3. *)
Example near_tie_follows_the_doubles :
  get_user_stats Samples.store_near_tie 1 1 5
  = Ok ([mkStat "55" "Почти поровну" (Some (Samples.film_url "55"))
           (Some (to_double 0.2%Q)) 2], 1)
  /\ double_sum [to_double 0.1%Q; to_double 0.4%Q] = (1 # 2)%Q
  /\ round_half_even ((to_double 0.1 + to_double 0.4) / 2 * 10)%Q = 3.
Proof. repeat split; vm_compute; reflexivity. Qed.


End DatabaseFacts.

(* ================================================================= *)
(** ** The callback state codec and the pagination keyboard *)

Module CodecFacts.
Import Py Bot PyFacts.

#[local] Open Scope string_scope.

Example decode_examples :
  map decode_pagination
    ["pagination_history_next_2"; "pagination_stats_prev_10"; "pagination_history";
     "pagination_history_next_2_3"; "pagination_history_next_two";
     "pagination_history__-4"]
  = [Token "history" "next" 2%Z; Token "stats" "prev" 10%Z; WrongSegments;
     WrongSegments; WrongPageNumber "history" "next";
     Token "history" EmptyString (-4)%Z].
Proof. reflexivity. Qed.

Example keyboard_examples :
  map (fun '(page, total) =>
         map callback_data (_get_pagination_keyboard "stats" page total))
    [(1, 1); (1, 3); (2, 3); (3, 3); (4, 3)]%Z
  = [[];
     [Some "pagination_stats_next_1"];
     [Some "pagination_stats_prev_2"; Some "pagination_stats_next_2"];
     [Some "pagination_stats_prev_3"];
     [Some "pagination_stats_prev_4"]].
Proof. reflexivity. Qed.

Lemma join_four (a b c d : string) :
  join "_" [a; b; c; d] = a ++ String "_" (b ++ String "_" (c ++ String "_" d)).
Proof. reflexivity. Qed.

Lemma split_four (a b c d : string) :
  contains "_" a = false -> contains "_" b = false ->
  contains "_" c = false -> contains "_" d = false ->
  split "_" (join "_" [a; b; c; d]) = [a; b; c; d].
Proof.
  intros Ha Hb Hc Hd.
  now rewrite join_four, !split_app, split_without.
Qed.

(** Decoding undoes encoding whenever the two names hold no delimiter. *)
Lemma decode_pagination_token (content_kind direction : string) (current_page : Z) :
  contains "_" content_kind = false -> contains "_" direction = false ->
  decode_pagination (pagination_token content_kind direction current_page)
  = Token content_kind direction current_page.
Proof.
  intros Hk Hd. unfold decode_pagination, pagination_token.
  rewrite split_four by (auto using str_of_int_no_separator).
  now rewrite int_of_str_of_int.
Qed.

Lemma keyboard_tokens (content_type : string) (current_page total_pages : Z) :
  _get_pagination_keyboard content_type current_page total_pages
  = List.app
      (if (1 <? current_page)%Z
       then [mkButton "◀️ Назад"
               (Some (pagination_token content_type "prev" current_page)) None]
       else [])
      (if (current_page <? total_pages)%Z
       then [mkButton "Вперед ▶️"
               (Some (pagination_token content_type "next" current_page)) None]
       else []).
Proof. reflexivity. Qed.

(** C2. For content_kind in {history, stats}, direction in {next, prev}
    and a positive current_page, _get_pagination_keyboard puts the token
    "pagination_{kind}_{direction}_{page}" on its button of that direction
    (the button back on a page after the first, the button forward on a
    page before the last) and on no other button; the token splits in
    four segments, the 4th reads back as current_page, and handle_pagination
    decodes it to the same (content_kind, direction, current_page).  Every
    button of the keyboard carries such a token, of its own direction. *)
Theorem pagination_token_roundtrip
    (content_kind direction : string) (current_page total_pages : Z) :
  content_kind = "history" \/ content_kind = "stats" ->
  direction = "next" \/ direction = "prev" ->
  (0 < current_page)%Z ->
  let keyboard := _get_pagination_keyboard content_kind current_page total_pages in
  let token_of pressed :=
    "pagination_" ++ content_kind ++ "_" ++ pressed ++ "_" ++ str_of_int current_page in
  let shown :=
    if direction =? "next" then (current_page <? total_pages)%Z
    else (1 <? current_page)%Z in
  let label := if direction =? "next" then "Вперед ▶️" else "◀️ Назад" in
  (shown = true -> In (mkButton label (Some (token_of direction)) None) keyboard)
  /\ (shown = false ->
      forall button, In button keyboard -> callback_data button <> Some (token_of direction))
  /\ split "_" (token_of direction)
     = ["pagination"; content_kind; direction; str_of_int current_page]
  /\ int_of_str (str_of_int current_page) = Some current_page
  /\ decode_pagination (token_of direction) = Token content_kind direction current_page
  /\ (forall button,
        In button keyboard ->
        exists pressed,
          (pressed = "next" /\ is_next button = true
           \/ pressed = "prev" /\ is_previous button = true)
          /\ callback_data button = Some (token_of pressed)
          /\ decode_pagination (token_of pressed)
             = Token content_kind pressed current_page).
Proof.
  intros Hkind Hdir _ keyboard token_of shown label.
  assert (Hk : contains "_" content_kind = false)
    by (destruct Hkind; subst; reflexivity).
  assert (Hd : contains "_" direction = false)
    by (destruct Hdir; subst; reflexivity).
  assert (Htoken : forall pressed,
             token_of pressed = pagination_token content_kind pressed current_page)
    by reflexivity.
  assert (Hbuttons : forall button,
             In button keyboard ->
             exists pressed,
               (pressed = "next" /\ is_next button = true /\ (current_page <? total_pages)%Z = true
                \/ pressed = "prev" /\ is_previous button = true /\ (1 <? current_page)%Z = true)
               /\ callback_data button = Some (token_of pressed)
               /\ decode_pagination (token_of pressed)
                  = Token content_kind pressed current_page).
  { intros button Hin. unfold keyboard in Hin. rewrite keyboard_tokens in Hin.
    apply in_app_or in Hin.
    destruct Hin as [Hin|Hin];
      [destruct (1 <? current_page)%Z eqn:Hshown
      | destruct (current_page <? total_pages)%Z eqn:Hshown];
      try contradiction; destruct Hin as [<-|[]].
    - exists "prev". split; [right; repeat split|].
      split; [reflexivity | rewrite Htoken; now apply decode_pagination_token].
    - exists "next". split; [left; repeat split|].
      split; [reflexivity | rewrite Htoken; now apply decode_pagination_token]. }
  assert (Hdecode : decode_pagination (token_of direction)
                    = Token content_kind direction current_page)
    by (rewrite Htoken; now apply decode_pagination_token).
  split; [|split; [|split; [|split; [|split]]]].
  - intros Hshown. unfold keyboard. rewrite keyboard_tokens. apply in_or_app.
    unfold shown, label in *.
    destruct Hdir as [-> | ->]; cbn [String.eqb Ascii.eqb Bool.eqb] in *.
    + right. rewrite Hshown. now left.
    + left. rewrite Hshown. now left.
  - intros Hhidden button Hin Hdata.
    destruct (Hbuttons button Hin) as (pressed & Hpressed & Hcarried & Hread).
    assert (Hsame : token_of pressed = token_of direction) by congruence.
    rewrite Hsame, Hdecode in Hread. injection Hread as Heq.
    unfold shown in Hhidden.
    destruct Hpressed as [(-> & _ & Hshown) | (-> & _ & Hshown)]; subst direction;
      cbn [String.eqb Ascii.eqb Bool.eqb] in Hhidden; congruence.
  - rewrite Htoken. unfold pagination_token.
    apply split_four; auto using str_of_int_no_separator.
  - apply int_of_str_of_int.
  - exact Hdecode.
  - intros button Hin.
    destruct (Hbuttons button Hin) as (pressed & Hpressed & Hcarried & Hread).
    exists pressed. split; [|now split].
    destruct Hpressed as [(-> & Hnext & _) | (-> & Hprevious & _)]; [left | right];
      now split.
Qed.

Lemma pagination_token_roundtrip_witness :
  In (mkButton "Вперед ▶️" (Some "pagination_history_next_2") None)
    (_get_pagination_keyboard "history" 2 3)
  /\ split "_" "pagination_history_next_2" = ["pagination"; "history"; "next"; "2"]
  /\ decode_pagination "pagination_history_next_2" = Token "history" "next" 2%Z.
Proof.
  pose proof (pagination_token_roundtrip "history" "next" 2 3
                (or_introl eq_refl) (or_introl eq_refl) eq_refl)
    as (Hbuilt & _ & Hsplit & _ & Hdecode & _).
  split; [exact (Hbuilt eq_refl) | split; [exact Hsplit | exact Hdecode]].
Defined.

(** C8. For current_page >= 1 and total_pages >= 1 the keyboard has no
    "previous" button on page 1 and one on any later page, no "next"
    button on the last page or beyond and one on any earlier page. *)
Theorem keyboard_follows_position (content_type : string) (current_page total_pages : Z) :
  (1 <= current_page)%Z -> (1 <= total_pages)%Z ->
  let keyboard := _get_pagination_keyboard content_type current_page total_pages in
  (current_page = 1%Z -> filter is_previous keyboard = [])
  /\ ((1 < current_page)%Z ->
      filter is_previous keyboard
      = [mkButton "◀️ Назад"
           (Some (pagination_token content_type "prev" current_page)) None])
  /\ ((total_pages <= current_page)%Z -> filter is_next keyboard = [])
  /\ ((current_page < total_pages)%Z ->
      filter is_next keyboard
      = [mkButton "Вперед ▶️"
           (Some (pagination_token content_type "next" current_page)) None]).
Proof.
  intros _ _ keyboard. unfold keyboard. rewrite keyboard_tokens.
  destruct (Z.ltb_spec 1 current_page), (Z.ltb_spec current_page total_pages);
    repeat split; intros; try lia; reflexivity.
Qed.

Lemma keyboard_follows_position_witness :
  filter is_previous (_get_pagination_keyboard "history" 1 3) = []
  /\ filter is_next (_get_pagination_keyboard "history" 1 3)
     = [mkButton "Вперед ▶️" (Some "pagination_history_next_1") None].
Proof.
  pose proof (keyboard_follows_position "history" 1 3 ltac:(lia) ltac:(lia))
    as (Hfirst & _ & _ & Hmore).
  split; [exact (Hfirst eq_refl) | exact (Hmore ltac:(lia))].
Defined.

End CodecFacts.

(* ================================================================= *)
(** ** The interaction router *)

Module RouterFacts.
Import Py Database Bot PyFacts DatabaseFacts CodecFacts.

#[local] Open Scope string_scope.

(** Unfolds the monad down to the calls it records. *)
Ltac run :=
  unfold show_page, pagination_except, movie_select_except,
    db_get_user_by_telegram_id, db_get_user_history, db_get_user_stats,
    callback_answer, message_edit_text, message_answer,
    try_except, logger_error, assign_content_type, read_db, invoke, lift, ret, bind;
  cbn [db calls content_type_local record].

(** Closes a goal [exists r w' rest, m env w = (r, w') /\ ...] once
    [m env w] has been computed. *)
Ltac finish :=
  eexists _, _, _; split; [reflexivity|];
  unfold record; cbn [db calls content_type_local];
  rewrite <- ?app_assoc; repeat split; reflexivity.

Section Router.
Context {runtime : Runtime}.

(** *** Reading the token *)

Lemma decode_wrong_segments (token : string) :
  List.length (split "_" token) <> 4%nat ->
  decode_pagination token = WrongSegments.
Proof.
  unfold decode_pagination.
  destruct (split "_" token) as [|a [|b [|c [|d [|e rest]]]]]; simpl;
    intros H; congruence.
Qed.

Lemma decode_wrong_page_number (token a content_type action page_str : string) :
  split "_" token = [a; content_type; action; page_str] ->
  int_of_str page_str = None ->
  decode_pagination token = WrongPageNumber content_type action.
Proof. unfold decode_pagination. now intros -> ->. Qed.

Lemma decode_four_segments (token a content_type action page_str : string)
    (current_page : Z) :
  split "_" token = [a; content_type; action; page_str] ->
  int_of_str page_str = Some current_page ->
  decode_pagination token = Token content_type action current_page.
Proof. unfold decode_pagination. now intros -> ->. Qed.

(** *** handle_pagination on a token it refuses *)

Lemma pagination_wrong_segments env w callback m :
  message callback = Some m ->
  decode_pagination (data_or_empty callback) = WrongSegments ->
  handle_pagination callback env w
  = (Ok tt,
     mkWorld (db w) (calls w ++ [LoggerError "Ошибка данных пагинации" None])%list None).
Proof.
  intros Hm Hd. unfold handle_pagination, enter, try_except, pagination_body.
  rewrite Hm. cbv zeta. rewrite Hd. reflexivity.
Qed.

Lemma pagination_wrong_page_number env w callback m content_type action :
  message callback = Some m ->
  decode_pagination (data_or_empty callback) = WrongPageNumber content_type action ->
  handle_pagination callback env w
  = (Ok tt,
     mkWorld (db w) (calls w ++ [LoggerError "Ошибка номера страницы" None])%list
       (Some content_type)).
Proof.
  intros Hm Hd. unfold handle_pagination, enter, try_except, pagination_body.
  rewrite Hm. cbv zeta. rewrite Hd. reflexivity.
Qed.

(** *** handle_pagination on a token it accepts *)

Lemma get_user_history_returns store user_id page :
  exists content total_pages,
    get_user_history store user_id page 5 = Ok (content, total_pages).
Proof. unfold get_user_history. cbn [total_pages Z.eqb rbind]. eauto. Qed.

Lemma get_user_stats_returns store user_id page :
  exists content total_pages,
    get_user_stats store user_id page 5 = Ok (content, total_pages).
Proof. unfold get_user_stats. cbn [total_pages Z.eqb rbind]. eauto. Qed.

Lemma length_snoc {A} (l : list A) (x : A) :
  List.length (l ++ [x])%list = S (List.length l).
Proof. rewrite length_app. simpl. lia. Qed.

Lemma show_page_outcome env w content_type empty text new_page total_pages :
  content_type_local w = Some content_type ->
  exists r w' rest,
    try_except (show_page empty text content_type new_page total_pages)
      pagination_except env w = (r, w')
    /\ db w' = db w
    /\ calls w'
       = (calls w
          ++ (if empty && (0 <? total_pages)%Z
              then CallbackAnswer (Some "Ошибка при получении контента") true
              else MessageEditText text
                     (_get_pagination_keyboard content_type new_page total_pages))
             :: rest)%list
    /\ existsb is_edit rest = false.
Proof.
  intros Hct. run.
  destruct (empty && (0 <? total_pages)%Z);
    repeat (destruct (fault env _) as [?e|];
            cbn [db calls content_type_local record]; rewrite ?Hct;
            cbn [db calls content_type_local record]);
    finish.
Qed.

Lemma pagination_except_outcome env w e content_type :
  content_type_local w = Some content_type ->
  exists r w' rest,
    pagination_except e env w = (r, w')
    /\ db w' = db w
    /\ calls w' = (calls w ++ rest)%list
    /\ existsb is_edit rest = false.
Proof.
  intros Hct. run. rewrite Hct. cbn [db calls content_type_local record].
  destruct (fault env _); finish.
Qed.

(** The run up to the fetch, for either content type. *)
Lemma pagination_history_fetch env w callback m action current_page user :
  message callback = Some m ->
  decode_pagination (data_or_empty callback) = Token "history" action current_page ->
  fault env (List.length (calls w)) = None ->
  get_user_by_telegram_id (db w) (tg_id (callback_from_user callback)) = Some user ->
  let new_page := new_page_of action current_page in
  let fetched :=
    mkWorld (db w)
      (calls w ++ [GetUserByTelegramId (tg_id (callback_from_user callback));
                   GetUserHistory (User.id user) new_page])%list
      (Some "history") in
  handle_pagination callback env w
  = match fault env (S (List.length (calls w))) with
    | Some e => pagination_except e env fetched
    | None =>
        match get_user_history (db w) (User.id user) new_page 5 with
        | Ok (content, total_pages) =>
            try_except
              (show_page (is_empty content)
                 (_format_history_message content new_page total_pages)
                 "history" new_page total_pages)
              pagination_except env fetched
        | Raise e => pagination_except e env fetched
        end
    end.
Proof.
  intros Hm Hd Hf Hu new_page fetched.
  unfold handle_pagination, enter, pagination_body.
  rewrite Hm. cbv zeta. rewrite Hd. unfold try_except at 1. run.
  rewrite Hf. cbn [db calls content_type_local record]. rewrite Hu.
  cbn [String.eqb Ascii.eqb Bool.eqb]. run. rewrite length_snoc.
  unfold fetched, new_page, record. cbn [db calls content_type_local].
  rewrite <- !app_assoc. cbn [List.app].
  destruct (fault env (S _)); [reflexivity|].
  destruct (get_user_history _ _ _ _) as [[content total_pages]|e]; reflexivity.
Qed.

Lemma pagination_stats_fetch env w callback m action current_page user :
  message callback = Some m ->
  decode_pagination (data_or_empty callback) = Token "stats" action current_page ->
  fault env (List.length (calls w)) = None ->
  get_user_by_telegram_id (db w) (tg_id (callback_from_user callback)) = Some user ->
  let new_page := new_page_of action current_page in
  let fetched :=
    mkWorld (db w)
      (calls w ++ [GetUserByTelegramId (tg_id (callback_from_user callback));
                   GetUserStats (User.id user) new_page])%list
      (Some "stats") in
  handle_pagination callback env w
  = match fault env (S (List.length (calls w))) with
    | Some e => pagination_except e env fetched
    | None =>
        match get_user_stats (db w) (User.id user) new_page 5 with
        | Ok (content, total_pages) =>
            try_except
              (show_page (is_empty content)
                 (_format_stats_message content new_page total_pages)
                 "stats" new_page total_pages)
              pagination_except env fetched
        | Raise e => pagination_except e env fetched
        end
    end.
Proof.
  intros Hm Hd Hf Hu new_page fetched.
  unfold handle_pagination, enter, pagination_body.
  rewrite Hm. cbv zeta. rewrite Hd. unfold try_except at 1. run.
  rewrite Hf. cbn [db calls content_type_local record]. rewrite Hu.
  cbn [String.eqb Ascii.eqb Bool.eqb]. run. rewrite length_snoc.
  unfold fetched, new_page, record. cbn [db calls content_type_local].
  rewrite <- !app_assoc. cbn [List.app].
  destruct (fault env (S _)); [reflexivity|].
  destruct (get_user_stats _ _ _ _) as [[content total_pages]|e]; reflexivity.
Qed.

(** The fetch that follows a token of four segments with an integer
    page. *)
Lemma pagination_fetches
    env w callback m a content_type action page_str current_page user :
  message callback = Some m ->
  split "_" (data_or_empty callback) = [a; content_type; action; page_str] ->
  int_of_str page_str = Some current_page ->
  get_user_by_telegram_id (db w) (tg_id (callback_from_user callback)) = Some user ->
  fault env (List.length (calls w)) = None ->
  let asked := GetUserByTelegramId (tg_id (callback_from_user callback)) in
  let new_page := new_page_of action current_page in
  (content_type = "history" ->
   exists r w' rest,
     handle_pagination callback env w = (r, w')
     /\ calls w' = (calls w ++ asked :: GetUserHistory (User.id user) new_page :: rest)%list)
  /\ (content_type = "stats" ->
      exists r w' rest,
        handle_pagination callback env w = (r, w')
        /\ calls w' = (calls w ++ asked :: GetUserStats (User.id user) new_page :: rest)%list).
Proof.
  intros Hm Hsplit Hint Hu Hf asked new_page.
  assert (Hd := decode_four_segments _ _ _ _ _ _ Hsplit Hint).
  split.
  - intros ->.
    rewrite (pagination_history_fetch env w callback m action current_page user)
      by assumption.
    cbv zeta. fold new_page.
    destruct (get_user_history_returns (db w) (User.id user) new_page)
      as (content & total_pages & ->).
    destruct (fault env (S _)) as [e|].
    + match goal with
      | |- context [pagination_except e env ?fetched] =>
          destruct (pagination_except_outcome env fetched e "history" eq_refl)
            as (r & w' & rest & Hrun & _ & Hcalls & _)
      end.
      exists r, w', rest. split; [exact Hrun|].
      rewrite Hcalls. cbn [calls]. now rewrite <- app_assoc.
    + match goal with
      | |- context [try_except (show_page ?e ?t _ ?p ?n) _ env ?fetched] =>
          destruct (show_page_outcome env fetched "history" e t p n eq_refl)
            as (r & w' & rest & Hrun & _ & Hcalls & _)
      end.
      eexists r, w', _. split; [exact Hrun|].
      rewrite Hcalls. cbn [calls]. now rewrite <- app_assoc.
  - intros ->.
    rewrite (pagination_stats_fetch env w callback m action current_page user)
      by assumption.
    cbv zeta. fold new_page.
    destruct (get_user_stats_returns (db w) (User.id user) new_page)
      as (content & total_pages & ->).
    destruct (fault env (S _)) as [e|].
    + match goal with
      | |- context [pagination_except e env ?fetched] =>
          destruct (pagination_except_outcome env fetched e "stats" eq_refl)
            as (r & w' & rest & Hrun & _ & Hcalls & _)
      end.
      exists r, w', rest. split; [exact Hrun|].
      rewrite Hcalls. cbn [calls]. now rewrite <- app_assoc.
    + match goal with
      | |- context [try_except (show_page ?e ?t _ ?p ?n) _ env ?fetched] =>
          destruct (show_page_outcome env fetched "stats" e t p n eq_refl)
            as (r & w' & rest & Hrun & _ & Hcalls & _)
      end.
      eexists r, w', _. split; [exact Hrun|].
      rewrite Hcalls. cbn [calls]. now rewrite <- app_assoc.
Qed.

(** C3 (as amended). On an event that carries its message, a pagination
    token that does not split in exactly four segments, or whose 4th
    segment int() refuses, makes handle_pagination log an error and
    return: no call to the store, no edit of the message, no exception.
    A 4th segment that int() reads is not refused, whatever its sign
    (zero and negative numbers are integers): the token is decoded, and
    when the content kind is history or stats, the sender is a known user
    and the lookup of the user does not fail, the page next to it
    (current_page + 1 for "next", current_page - 1 otherwise) is asked
    from the store.  (The segment is taken within the 4300 characters
    that bound the digits int() reads.) *)
Theorem malformed_token_is_logged env w callback m :
  message callback = Some m ->
  (List.length (split "_" (data_or_empty callback)) <> 4%nat
   \/ (exists a content_type action page_str,
         split "_" (data_or_empty callback) = [a; content_type; action; page_str]
         /\ int_of_str page_str = None) ->
   exists w' added,
     handle_pagination callback env w = (Ok tt, w')
     /\ db w' = db w
     /\ calls w' = (calls w ++ added)%list
     /\ existsb is_log added = true
     /\ existsb is_store_call added = false
     /\ existsb is_edit added = false)
  /\ (forall a content_type action page_str current_page user,
        split "_" (data_or_empty callback) = [a; content_type; action; page_str] ->
        (String.length page_str <= 4300)%nat ->
        int_of_str page_str = Some current_page ->
        get_user_by_telegram_id (db w) (tg_id (callback_from_user callback)) = Some user ->
        fault env (List.length (calls w)) = None ->
        let asked := GetUserByTelegramId (tg_id (callback_from_user callback)) in
        let new_page := new_page_of action current_page in
        decode_pagination (data_or_empty callback)
        = Token content_type action current_page
        /\ (content_type = "history" ->
            exists r w' rest,
              handle_pagination callback env w = (r, w')
              /\ calls w'
                 = (calls w
                    ++ asked :: GetUserHistory (User.id user) new_page :: rest)%list)
        /\ (content_type = "stats" ->
            exists r w' rest,
              handle_pagination callback env w = (r, w')
              /\ calls w'
                 = (calls w
                    ++ asked :: GetUserStats (User.id user) new_page :: rest)%list)).
Proof.
  intros Hm. split.
  - intros [Hlen | (a & content_type & action & page_str & Hsplit & Hint)].
    + rewrite (pagination_wrong_segments env w callback m Hm)
        by now apply decode_wrong_segments.
      eexists _, _. repeat split; reflexivity.
    + rewrite (pagination_wrong_page_number env w callback m content_type action Hm)
        by now apply (decode_wrong_page_number _ a _ _ page_str).
      eexists _, _. repeat split; reflexivity.
  - intros a content_type action page_str current_page user Hsplit _ Hint Hu Hf
      asked new_page.
    split; [exact (decode_four_segments _ _ _ _ _ _ Hsplit Hint)|].
    exact (pagination_fetches env w callback m a content_type action page_str
             current_page user Hm Hsplit Hint Hu Hf).
Qed.

(** C4. When the fetch of the requested page gives an empty list while
    total_pages > 0, handle_pagination sends a transient alert and does
    not edit the message; otherwise it edits the message in place with the
    new text and the keyboard of the new page.  Asking for "next" on the
    last page therefore never puts an empty page in place of the content. *)
Theorem empty_page_is_never_shown
    env w callback m content_type action current_page user :
  message callback = Some m ->
  decode_pagination (data_or_empty callback) = Token content_type action current_page ->
  get_user_by_telegram_id (db w) (tg_id (callback_from_user callback)) = Some user ->
  fault env (List.length (calls w)) = None ->
  fault env (S (List.length (calls w))) = None ->
  let new_page := new_page_of action current_page in
  let asked := GetUserByTelegramId (tg_id (callback_from_user callback)) in
  let alert := CallbackAnswer (Some "Ошибка при получении контента") true in
  (content_type = "history" ->
   forall content total_pages,
     get_user_history (db w) (User.id user) new_page 5 = Ok (content, total_pages) ->
     exists r w' rest,
       handle_pagination callback env w = (r, w')
       /\ db w' = db w
       /\ calls w'
          = (calls w
             ++ asked :: GetUserHistory (User.id user) new_page
                :: (if is_empty content && (0 <? total_pages)%Z then alert
                    else MessageEditText
                           (_format_history_message content new_page total_pages)
                           (_get_pagination_keyboard "history" new_page total_pages))
                :: rest)%list
       /\ existsb is_edit rest = false)
  /\ (content_type = "stats" ->
      forall content total_pages,
        get_user_stats (db w) (User.id user) new_page 5 = Ok (content, total_pages) ->
        exists r w' rest,
          handle_pagination callback env w = (r, w')
          /\ db w' = db w
          /\ calls w'
             = (calls w
                ++ asked :: GetUserStats (User.id user) new_page
                   :: (if is_empty content && (0 <? total_pages)%Z then alert
                       else MessageEditText
                              (_format_stats_message content new_page total_pages)
                              (_get_pagination_keyboard "stats" new_page total_pages))
                   :: rest)%list
          /\ existsb is_edit rest = false)
  /\ (action = "next" ->
      (content_type = "history"
       /\ exists shown,
           get_user_history (db w) (User.id user) current_page 5
           = Ok (shown, current_page))
      \/ (content_type = "stats"
          /\ exists shown,
              get_user_stats (db w) (User.id user) current_page 5
              = Ok (shown, current_page)) ->
      exists r w' added,
        handle_pagination callback env w = (r, w')
        /\ calls w' = (calls w ++ added)%list
        /\ In alert added
        /\ existsb is_edit added = false).
Proof.
  intros Hm Hd Hu Hf0 Hf1 new_page asked alert.
  assert (Hhistory : content_type = "history" ->
            forall content total_pages,
              get_user_history (db w) (User.id user) new_page 5
              = Ok (content, total_pages) ->
              exists r w' rest,
                handle_pagination callback env w = (r, w')
                /\ db w' = db w
                /\ calls w'
                   = (calls w
                      ++ asked :: GetUserHistory (User.id user) new_page
                         :: (if is_empty content && (0 <? total_pages)%Z then alert
                             else MessageEditText
                                    (_format_history_message content new_page total_pages)
                                    (_get_pagination_keyboard "history" new_page
                                       total_pages))
                         :: rest)%list
                /\ existsb is_edit rest = false).
  { intros -> content total_pages Hfetch.
    rewrite (pagination_history_fetch env w callback m action current_page user)
      by assumption.
    cbv zeta. rewrite Hf1. fold new_page. rewrite Hfetch.
    match goal with
    | |- context [try_except ?b _ env ?fetched] =>
        destruct (show_page_outcome env fetched "history" (is_empty content)
                    (_format_history_message content new_page total_pages)
                    new_page total_pages eq_refl)
          as (r & w' & rest & Hrun & Hdb & Hcalls & Hrest)
    end.
    exists r, w', rest. split; [exact Hrun|]. split; [exact Hdb|].
    split; [|exact Hrest].
    rewrite Hcalls. cbn [calls]. rewrite <- app_assoc. reflexivity. }
  assert (Hstats : content_type = "stats" ->
            forall content total_pages,
              get_user_stats (db w) (User.id user) new_page 5
              = Ok (content, total_pages) ->
              exists r w' rest,
                handle_pagination callback env w = (r, w')
                /\ db w' = db w
                /\ calls w'
                   = (calls w
                      ++ asked :: GetUserStats (User.id user) new_page
                         :: (if is_empty content && (0 <? total_pages)%Z then alert
                             else MessageEditText
                                    (_format_stats_message content new_page total_pages)
                                    (_get_pagination_keyboard "stats" new_page
                                       total_pages))
                         :: rest)%list
                /\ existsb is_edit rest = false).
  { intros -> content total_pages Hfetch.
    rewrite (pagination_stats_fetch env w callback m action current_page user)
      by assumption.
    cbv zeta. rewrite Hf1. fold new_page. rewrite Hfetch.
    match goal with
    | |- context [try_except ?b _ env ?fetched] =>
        destruct (show_page_outcome env fetched "stats" (is_empty content)
                    (_format_stats_message content new_page total_pages)
                    new_page total_pages eq_refl)
          as (r & w' & rest & Hrun & Hdb & Hcalls & Hrest)
    end.
    exists r, w', rest. split; [exact Hrun|]. split; [exact Hdb|].
    split; [|exact Hrest].
    rewrite Hcalls. cbn [calls]. rewrite <- app_assoc. reflexivity. }
  split; [exact Hhistory|]. split; [exact Hstats|].
  intros Hnext Hlast.
  assert (Hnew : new_page = (current_page + 1)%Z)
    by (unfold new_page, new_page_of; now rewrite Hnext).
  destruct Hlast as [[Hct [shown Hshown]] | [Hct [shown Hshown]]].
  - apply history_after_last_page in Hshown. destruct Hshown as [Hpos Hempty].
    rewrite <- Hnew in Hempty.
    destruct (Hhistory Hct [] current_page Hempty)
      as (r & w' & rest & Hrun & _ & Hcalls & Hrest).
    cbn [is_empty andb] in Hcalls.
    destruct (Z.ltb_spec 0 current_page); [|lia].
    exists r, w', (asked :: GetUserHistory (User.id user) new_page :: alert :: rest).
    repeat split; [exact Hrun | exact Hcalls | cbn; tauto | exact Hrest].
  - apply stats_after_last_page in Hshown. destruct Hshown as [Hpos Hempty].
    rewrite <- Hnew in Hempty.
    destruct (Hstats Hct [] current_page Hempty)
      as (r & w' & rest & Hrun & _ & Hcalls & Hrest).
    cbn [is_empty andb] in Hcalls.
    destruct (Z.ltb_spec 0 current_page); [|lia].
    exists r, w', (asked :: GetUserStats (User.id user) new_page :: alert :: rest).
    repeat split; [exact Hrun | exact Hcalls | cbn; tauto | exact Hrest].
Qed.

(** C10. In a token of four segments whose page segment is an integer,
    any direction segment other than "next" -- "prev", the empty string,
    any other text -- is taken as "prev": the page fetched is
    current_page - 1.  The segment is compared with "next" and nothing
    else. *)
Theorem other_direction_is_previous
    env w callback m a content_type action page_str current_page user :
  message callback = Some m ->
  split "_" (data_or_empty callback) = [a; content_type; action; page_str] ->
  int_of_str page_str = Some current_page ->
  action <> "next" ->
  get_user_by_telegram_id (db w) (tg_id (callback_from_user callback)) = Some user ->
  fault env (List.length (calls w)) = None ->
  let asked := GetUserByTelegramId (tg_id (callback_from_user callback)) in
  decode_pagination (data_or_empty callback) = Token content_type action current_page
  /\ new_page_of action current_page = (current_page - 1)%Z
  /\ (content_type = "history" ->
      exists r w' rest,
        handle_pagination callback env w = (r, w')
        /\ calls w'
           = (calls w
              ++ asked :: GetUserHistory (User.id user) (current_page - 1) :: rest)%list)
  /\ (content_type = "stats" ->
      exists r w' rest,
        handle_pagination callback env w = (r, w')
        /\ calls w'
           = (calls w
              ++ asked :: GetUserStats (User.id user) (current_page - 1) :: rest)%list).
Proof.
  intros Hm Hsplit Hint Haction Hu Hf asked.
  assert (Hd := decode_four_segments _ _ _ _ _ _ Hsplit Hint).
  assert (Hnew : new_page_of action current_page = (current_page - 1)%Z).
  { unfold new_page_of.
    destruct (String.eqb_spec action "next"); [contradiction | reflexivity]. }
  split; [exact Hd|]. split; [exact Hnew|]. split.
  - intros ->.
    rewrite (pagination_history_fetch env w callback m action current_page user)
      by assumption.
    cbv zeta. rewrite Hnew.
    destruct (get_user_history_returns (db w) (User.id user) (current_page - 1))
      as (content & total_pages & ->).
    destruct (fault env (S _)) as [e|].
    + match goal with
      | |- context [pagination_except e env ?fetched] =>
          destruct (pagination_except_outcome env fetched e "history" eq_refl)
            as (r & w' & rest & Hrun & _ & Hcalls & _)
      end.
      exists r, w', rest. split; [exact Hrun|].
      rewrite Hcalls. cbn [calls]. now rewrite <- app_assoc.
    + match goal with
      | |- context [try_except (show_page ?e ?t _ ?p ?n) _ env ?fetched] =>
          destruct (show_page_outcome env fetched "history" e t p n eq_refl)
            as (r & w' & rest & Hrun & _ & Hcalls & _)
      end.
      eexists r, w', _. split; [exact Hrun|].
      rewrite Hcalls. cbn [calls]. now rewrite <- app_assoc.
  - intros ->.
    rewrite (pagination_stats_fetch env w callback m action current_page user)
      by assumption.
    cbv zeta. rewrite Hnew.
    destruct (get_user_stats_returns (db w) (User.id user) (current_page - 1))
      as (content & total_pages & ->).
    destruct (fault env (S _)) as [e|].
    + match goal with
      | |- context [pagination_except e env ?fetched] =>
          destruct (pagination_except_outcome env fetched e "stats" eq_refl)
            as (r & w' & rest & Hrun & _ & Hcalls & _)
      end.
      exists r, w', rest. split; [exact Hrun|].
      rewrite Hcalls. cbn [calls]. now rewrite <- app_assoc.
    + match goal with
      | |- context [try_except (show_page ?e ?t _ ?p ?n) _ env ?fetched] =>
          destruct (show_page_outcome env fetched "stats" e t p n eq_refl)
            as (r & w' & rest & Hrun & _ & Hcalls & _)
      end.
      eexists r, w', _. split; [exact Hrun|].
      rewrite Hcalls. cbn [calls]. now rewrite <- app_assoc.
Qed.

(** *** Faults at the boundary of a handler *)

(** handle_movie_select returns normally, or its [except] clause has
    logged the fault and attempted the notice; an exception leaves the
    handler only when that notice itself fails. *)
Lemma movie_select_contains_faults env w callback r w' :
  handle_movie_select callback env w = (r, w') ->
  (r = Ok tt /\ movie_select_body callback env w = (Ok tt, w'))
  \/ exists e w1,
      movie_select_body callback env w = (Raise e, w1)
      /\ db w' = db w1
      /\ calls w'
         = (calls w1
            ++ [LoggerError "Ошибка при обработке выбора фильма: " (Some e);
                CallbackAnswer
                  (Some "Произошла ошибка при получении информации о фильме") true])%list
      /\ r = match fault env (S (List.length (calls w1))) with
             | Some e' => Raise e'
             | None => Ok tt
             end.
Proof.
  unfold handle_movie_select, try_except.
  destruct (movie_select_body callback env w) as [[[]|e] w1]; intros Hrun.
  - left. now inversion Hrun.
  - right. exists e, w1. split; [reflexivity|].
    revert Hrun. run. rewrite length_snoc.
    destruct (fault env _); intros [= <- <-]; unfold record;
      cbn [db calls]; rewrite <- ?app_assoc; repeat split; reflexivity.
Qed.

(** Once the token is split in four, [content_type] is bound whenever the
    body of handle_pagination raises. *)
Lemma pagination_body_raises_bound env w callback m e w1 :
  message callback = Some m ->
  pagination_body callback env w = (Raise e, w1) ->
  exists content_type, content_type_local w1 = Some content_type.
Proof.
  intros Hm. unfold pagination_body. rewrite Hm. cbv zeta.
  destruct (decode_pagination _) as [|content_type action|content_type action page];
    run; try discriminate.
  destruct (fault env _); cbn [db calls content_type_local record];
    [intros [= <- <-]; eexists; reflexivity|].
  destruct (get_user_by_telegram_id _ _) as [user|].
  2:{ destruct (fault env _); intros [= <- <-]; eexists; reflexivity. }
  destruct (content_type =? "history").
  { run. destruct (fault env _); cbn [db calls content_type_local record];
      [intros [= <- <-]; eexists; reflexivity|].
    destruct (get_user_history _ _ _ _) as [[content total_pages]|e'];
      [|intros [= <- <-]; eexists; reflexivity].
    run. destruct (_ && _);
      repeat (destruct (fault env _); cbn [db calls content_type_local record]);
      intros [= <- <-]; eexists; reflexivity. }
  destruct (content_type =? "stats").
  { run. destruct (fault env _); cbn [db calls content_type_local record];
      [intros [= <- <-]; eexists; reflexivity|].
    destruct (get_user_stats _ _ _ _) as [[content total_pages]|e'];
      [|intros [= <- <-]; eexists; reflexivity].
    run. destruct (_ && _);
      repeat (destruct (fault env _); cbn [db calls content_type_local record]);
      intros [= <- <-]; eexists; reflexivity. }
  run. destruct (fault env _); intros [= <- <-]; eexists; reflexivity.
Qed.

(** With a message to edit, handle_pagination contains a fault the same
    way. *)
Lemma pagination_contains_faults env w callback m r w' :
  message callback = Some m ->
  handle_pagination callback env w = (r, w') ->
  r = Ok tt
  \/ exists e w1 content_type,
      pagination_body callback env (mkWorld (db w) (calls w) None) = (Raise e, w1)
      /\ db w' = db w1
      /\ calls w'
         = (calls w1
            ++ [LoggerError ("Ошибка при обработке пагинации " ++ content_type ++ ": ")
                  (Some e);
                CallbackAnswer (Some "Произошла ошибка при обновлении контента") true])%list
      /\ r = match fault env (S (List.length (calls w1))) with
             | Some e' => Raise e'
             | None => Ok tt
             end.
Proof.
  intros Hm. unfold handle_pagination, enter, try_except.
  destruct (pagination_body callback env _) as [[[]|e] w1] eqn:Hbody; intros Hrun.
  - left. now inversion Hrun.
  - right.
    destruct (pagination_body_raises_bound _ _ _ _ _ _ Hm Hbody) as [content_type Hct].
    exists e, w1, content_type. split; [reflexivity|].
    revert Hrun. run. rewrite Hct. cbn [db calls content_type_local record].
    rewrite length_snoc.
    destruct (fault env _); intros [= <- <-]; unfold record;
      cbn [db calls]; rewrite <- ?app_assoc; repeat split; reflexivity.
Qed.

(** handle_search has no [try]: the fault of its first call is the
    outcome of the handler. *)
Lemma search_propagates_faults env w incoming telegram_user e :
  from_user incoming = Some telegram_user ->
  fault env (List.length (calls w)) = Some e ->
  handle_search incoming env w
  = (Raise e,
     record (GetOrCreateUser (tg_id telegram_user) (tg_username telegram_user)) w).
Proof.
  intros Hfrom Hfault. unfold handle_search. rewrite Hfrom.
  unfold _get_or_create_user, db_get_or_create_user, bind, invoke.
  now rewrite Hfault.
Qed.

(** C5. A fault in a command/text event is not caught: when the store
    fails under handle_search the exception leaves the handler, nothing
    is logged and no notice is sent, while handle_movie_select logs the
    same fault and answers with an alert.  The [except] clause of
    handle_pagination fails in turn when the fault comes before the token
    is split. *)
Theorem search_fault_leaves_the_handler (e : exn) :
  handle_search (Samples.typed "матрица") (Samples.failing_at 0 e)
    (Samples.world Samples.store_twelve)
  = (Raise e,
     mkWorld Samples.store_twelve [GetOrCreateUser 1001 (Some "alice")] None)
  /\ handle_pagination
       (mkCallbackQuery None (Some "pagination_history_next_1") Samples.alice)
       (Samples.failing_at 0 e) (Samples.world Samples.store_twelve)
     = (Raise UnboundLocalError,
        mkWorld Samples.store_twelve
          [CallbackAnswer (Some "Сообщение не найдено") true] None)
  /\ handle_movie_select
       (mkCallbackQuery None (Some "movie_301") Samples.alice)
       (Samples.failing_at 0 e) (Samples.world Samples.store_twelve)
     = (Ok tt,
        mkWorld Samples.store_twelve
          [CallbackAnswer (Some "Сообщение не найдено") true;
           LoggerError "Ошибка при обработке выбора фильма: " (Some e);
           CallbackAnswer
             (Some "Произошла ошибка при получении информации о фильме") true]
          None).
Proof. split; [reflexivity | split; reflexivity]. Qed.

End Router.

Lemma malformed_token_is_logged_witness :
  (exists w' added,
      handle_pagination (runtime := Samples.runtime)
        (Samples.press "pagination_history_next_x")
        Samples.calm (Samples.world Samples.store_twelve) = (Ok tt, w')
      /\ db w' = Samples.store_twelve
      /\ calls w' = added
      /\ existsb is_log added = true
      /\ existsb is_store_call added = false
      /\ existsb is_edit added = false)
  /\ (exists r w' rest,
        handle_pagination (runtime := Samples.runtime)
          (Samples.press "pagination_history_next_-3")
          Samples.calm (Samples.world Samples.store_twelve) = (r, w')
        /\ calls w'
           = ([] ++ GetUserByTelegramId 1001 :: GetUserHistory 1 (-3 + 1) :: rest)%list).
Proof.
  split.
  - apply (proj1 (malformed_token_is_logged (runtime := Samples.runtime) Samples.calm
                    (Samples.world Samples.store_twelve)
                    (Samples.press "pagination_history_next_x") Samples.list_message
                    eq_refl)).
    right. exists "pagination", "history", "next", "x". split; reflexivity.
  - exact (proj1 (proj2
             (proj2 (malformed_token_is_logged (runtime := Samples.runtime) Samples.calm
                       (Samples.world Samples.store_twelve)
                       (Samples.press "pagination_history_next_-3") Samples.list_message
                       eq_refl)
                "pagination" "history" "next" "-3" (-3) (User.mk 1 1001 (Some "alice"))
                eq_refl ltac:(cbn; lia) eq_refl eq_refl eq_refl)) eq_refl).
Defined.

Lemma empty_page_is_never_shown_witness :
  exists r w' added,
    handle_pagination (runtime := Samples.runtime)
      (Samples.press "pagination_history_next_3")
      Samples.calm (Samples.world Samples.store_twelve) = (r, w')
    /\ calls w' = ([] ++ added)%list
    /\ In (CallbackAnswer (Some "Ошибка при получении контента") true) added
    /\ existsb is_edit added = false.
Proof.
  refine (proj2 (proj2
            (empty_page_is_never_shown (runtime := Samples.runtime) Samples.calm
               (Samples.world Samples.store_twelve)
               (Samples.press "pagination_history_next_3") Samples.list_message
               "history" "next" 3 (User.mk 1 1001 (Some "alice"))
               eq_refl eq_refl eq_refl eq_refl eq_refl)) eq_refl _).
  left. split; [reflexivity|]. eexists. reflexivity.
Defined.

Lemma other_direction_is_previous_witness :
  exists r w' rest,
    handle_pagination (runtime := Samples.runtime)
      (Samples.press "pagination_stats_back_2")
      Samples.calm (Samples.world Samples.store_twelve) = (r, w')
    /\ calls w' = ([] ++ GetUserByTelegramId 1001 :: GetUserStats 1 (2 - 1) :: rest)%list.
Proof.
  refine (proj2 (proj2 (proj2
            (other_direction_is_previous (runtime := Samples.runtime) Samples.calm
               (Samples.world Samples.store_twelve)
               (Samples.press "pagination_stats_back_2") Samples.list_message
               "pagination" "stats" "back" "2" 2 (User.mk 1 1001 (Some "alice"))
               eq_refl eq_refl eq_refl _ eq_refl eq_refl))) eq_refl).
  discriminate.
Defined.

(** The page segment "0" is not a positive integer, yet the token is
    decoded, the store is queried and the message is edited; a token of
    two segments is logged without any notice to the user; and on a
    callback without message the token is not read at all. *)
Lemma zero_page_is_decoded_and_fetched :
  split "_" "pagination_history_next_0" = ["pagination"; "history"; "next"; "0"]
  /\ int_of_str "0" = Some 0%Z
  /\ map is_store_call
       (calls (snd (handle_pagination (runtime := Samples.runtime)
                      (Samples.press "pagination_history_next_0")
                      Samples.calm (Samples.world Samples.store_twelve))))
     = [true; true; false; false]
  /\ map is_edit
       (calls (snd (handle_pagination (runtime := Samples.runtime)
                      (Samples.press "pagination_history_next_0")
                      Samples.calm (Samples.world Samples.store_twelve))))
     = [false; false; true; false]
  /\ calls (snd (handle_pagination (runtime := Samples.runtime)
                   (Samples.press "pagination_history")
                   Samples.calm (Samples.world Samples.store_twelve)))
     = [LoggerError "Ошибка данных пагинации" None]
  /\ calls (snd (handle_pagination (runtime := Samples.runtime)
                   (mkCallbackQuery None (Some "pagination_history") Samples.alice)
                   Samples.calm (Samples.world Samples.store_twelve)))
     = [CallbackAnswer (Some "Сообщение не найдено") true].
Proof. repeat split; vm_compute; reflexivity. Qed.

End RouterFacts.

(* ================================================================= *)
(** ** The catalog client *)

Module CatalogFacts.
Import Py KinopoiskAPI.

Section Catalog.
Context {runtime : Runtime}.

(** What the client does contain: a record whose construction raises
    [KeyError] or [ValueError] is logged and skipped. *)
Lemma collect_skips (film : value) (docs : list value) movies log (e : exn) :
  movie_info film = Raise e ->
  e = KeyError \/ e = ValueError ->
  collect (film :: docs) movies log
  = collect docs movies (log ++ ["Ошибка при обработке фильма"]).
Proof.
  intros Hfilm He. cbn [collect]. rewrite Hfilm.
  now destruct He as [-> | ->].
Qed.

Lemma collect_keeps (film : value) (docs : list value) movies log movie :
  movie_info film = Ok movie ->
  collect (film :: docs) movies log = collect docs (movies ++ [movie]) log.
Proof. intros Hfilm. cbn [collect]. now rewrite Hfilm. Qed.

(** Any other exception ends the loop, whatever was collected. *)
Lemma collect_stops (film : value) (docs : list value) movies log (e : exn) :
  movie_info film = Raise e ->
  exn_eqb e KeyError || exn_eqb e ValueError = false ->
  collect (film :: docs) movies log = (Raise e, log).
Proof. intros Hfilm He. cbn [collect]. now rewrite Hfilm, He. Qed.

Example missing_id_is_skipped :
  exists first second,
    search_movie (Response 200 (Ok Samples.docs_with_missing_id))
    = (Ok [first; second], ["Ошибка при обработке фильма"])
    /\ MovieInfo.id first = PInt 301
    /\ MovieInfo.id second = PInt 326.
Proof. eexists _, _. repeat split. Qed.

(** A failure of the transport, and a status other than 200, give the
    empty result. *)
Lemma transport_failure_gives_nothing (status : Z) json :
  search_movie (GetRaised ClientError)
  = (Ok [], ["Ошибка при запросе к API Кинопоиска"])
  /\ get_movie_details (GetRaised ClientError)
     = (Ok None, ["Ошибка при запросе к API Кинопоиска"])
  /\ (status <> 200 ->
      search_movie (Response status json) = (Ok [], ["Ошибка API Кинопоиска"])
      /\ get_movie_details (Response status json)
         = (Ok None, ["Ошибка API Кинопоиска"])).
Proof.
  split; [reflexivity|]. split; [reflexivity|]. intros Hstatus.
  unfold search_movie, get_movie_details.
  destruct (Z.eqb_spec status 200); [contradiction|]. split; reflexivity.
Qed.

(** C9. A record whose [rating] is null makes search_movie raise
    [AttributeError]: the record is not skipped and the records around it
    are lost; get_movie_details raises on the same record, and a body
    that is not JSON raises out of both methods. *)
Theorem null_rating_escapes_the_client :
  search_movie (Response 200 (Ok Samples.docs_with_null_rating))
  = (Raise AttributeError, [])
  /\ get_movie_details
       (Response 200
          (Ok (PDict [("id", PInt 302); ("name", PStr "Без рейтинга");
                      ("rating", PNone)])))
     = (Raise AttributeError, [])
  /\ search_movie (Response 200 (Raise ValueError)) = (Raise ValueError, [])
  /\ get_movie_details (Response 200 (Raise ValueError)) = (Raise ValueError, []).
Proof. repeat split; reflexivity. Qed.

End Catalog.

End CatalogFacts.

(* ================================================================= *)
(** ** More on the history store *)

Module StoreExtras.
Import Py Database DatabaseFacts.

(** *** Users *)

Lemma find_snoc {A} (f : A -> bool) (l : list A) (x : A) :
  find f (l ++ [x])
  = match find f l with
    | Some y => Some y
    | None => if f x then Some x else None
    end.
Proof.
  induction l as [|y l IH]; simpl; [reflexivity|].
  now destruct (f y).
Qed.

Lemma next_id_above (ids : list Z) (i : Z) : In i ids -> i < next_id ids.
Proof.
  unfold next_id. induction ids as [|j ids IH]; simpl; [contradiction|].
  intros [->|Hin]; [lia|]. specialize (IH Hin). lia.
Qed.

(** X1. get_or_create_user followed by get_user_by_telegram_id finds the
    user returned; asking again returns the same user and changes
    nothing; other users and the history are untouched. *)
Theorem user_is_found_after_creation
    (db : Store) (telegram_id : Z) (username again : option string) :
  let user := fst (get_or_create_user db telegram_id username) in
  let db' := snd (get_or_create_user db telegram_id username) in
  User.telegram_id user = telegram_id
  /\ get_user_by_telegram_id db' telegram_id = Some user
  /\ get_or_create_user db' telegram_id again = (user, db')
  /\ search_history db' = search_history db
  /\ forall other,
      other <> telegram_id ->
      get_user_by_telegram_id db' other = get_user_by_telegram_id db other.
Proof.
  unfold get_or_create_user, get_user_by_telegram_id.
  destruct (find _ (users db)) as [user|] eqn:Hfind; cbn [fst snd users search_history].
  - rewrite Hfind. apply find_some in Hfind. destruct Hfind as [_ Htid].
    apply Z.eqb_eq in Htid. repeat split; auto.
  - rewrite !find_snoc, Hfind. cbn [User.telegram_id].
    rewrite Z.eqb_refl. repeat split; auto.
    intros other Hother. rewrite find_snoc. cbn [User.telegram_id].
    destruct (Z.eqb_spec telegram_id other); [congruence|].
    now destruct (find (fun u => User.telegram_id u =? other) (users db)).
Qed.

Lemma NoDup_snoc {A} (l : list A) (x : A) :
  NoDup l -> ~ In x l -> NoDup (l ++ [x]).
Proof.
  intros Hl Hx. apply (Permutation_NoDup (l := x :: l)).
  - rewrite Permutation_app_comm. reflexivity.
  - now constructor.
Qed.

(** X2. get_or_create_user keeps the telegram ids of the users table
    distinct: it inserts only when no user has the id. *)
Theorem telegram_ids_stay_distinct
    (db : Store) (telegram_id : Z) (username : option string) :
  NoDup (map User.telegram_id (users db)) ->
  NoDup (map User.telegram_id (users (snd (get_or_create_user db telegram_id username)))).
Proof.
  intros Hnd. unfold get_or_create_user, get_user_by_telegram_id.
  destruct (find _ (users db)) as [user|] eqn:Hfind; cbn [snd users]; [exact Hnd|].
  rewrite map_app. apply NoDup_snoc; [exact Hnd|].
  cbn [User.telegram_id]. intros Hin. apply in_map_iff in Hin.
  destruct Hin as (u & Hu & Hin).
  apply (find_none _ _ Hfind) in Hin. cbn beta in Hin. lia.
Qed.

Lemma telegram_ids_stay_distinct_witness :
  NoDup (map User.telegram_id
           (users (snd (get_or_create_user Samples.store_empty 1003 (Some "carol"))))).
Proof.
  apply (telegram_ids_stay_distinct Samples.store_empty 1003 (Some "carol")).
  repeat constructor; simpl; intuition discriminate.
Defined.

(** *** Appending to the history *)

Lemma take_chars_count (n : nat) (s : string) : (char_count (take_chars n s) <= n)%nat.
Proof.
  revert n. induction s as [|c s IH]; intros n; simpl; [lia|].
  destruct (is_continuation c) eqn:Hc; simpl; rewrite ?Hc; [apply IH|].
  destruct n as [|n]; simpl; rewrite ?Hc; [lia|].
  specialize (IH n). lia.
Qed.

Lemma take_chars_prefix (n : nat) (s : string) : prefix (take_chars n s) s = true.
Proof.
  revert n. induction s as [|c s IH]; intros n; simpl; [reflexivity|].
  destruct (is_continuation c); [|destruct n as [|n]; [reflexivity|]];
    simpl; destruct (ascii_dec c c); try contradiction; apply IH.
Qed.

Lemma take_chars_short (n : nat) (s : string) :
  (char_count s <= n)%nat -> take_chars n s = s.
Proof.
  revert n. induction s as [|c s IH]; intros n; simpl; [reflexivity|].
  destruct (is_continuation c); intros H; [now rewrite IH|].
  destruct n as [|n]; [lia|]. rewrite IH by lia. reflexivity.
Qed.

(** X3. The row written by add_search_history holds at most 255
    characters of the query, of the movie id and of the title, and at
    most 512 of the URL: each stored text is a prefix of the text given,
    and the whole text when it is short enough.  An empty URL is stored
    as no URL. *)
Theorem stored_texts_are_bounded
    (db : Store) (now user_id : Z) (query movie_id movie_title : string)
    (movie_url : option string) (movie_rating : option Q) :
  let entry :=
    fst (add_search_history db now user_id query movie_id movie_title movie_url
           movie_rating) in
  let bounded (limit : nat) (stored given : string) :=
    (char_count stored <= limit)%nat
    /\ prefix stored given = true
    /\ ((char_count given <= limit)%nat -> stored = given) in
  bounded 255%nat (SearchHistory.query entry) query
  /\ bounded 255%nat (SearchHistory.movie_id entry) movie_id
  /\ bounded 255%nat (SearchHistory.movie_title entry) movie_title
  /\ match movie_url with
     | Some (String c rest) =>
         exists stored,
           SearchHistory.movie_url entry = Some stored
           /\ bounded 512%nat stored (String c rest)
     | Some EmptyString | None => SearchHistory.movie_url entry = None
     end.
Proof.
  cbv zeta. unfold add_search_history. cbn [fst SearchHistory.query
    SearchHistory.movie_id SearchHistory.movie_title SearchHistory.movie_url].
  assert (Hb : forall limit given,
             (char_count (take_chars limit given) <= limit)%nat
             /\ prefix (take_chars limit given) given = true
             /\ ((char_count given <= limit)%nat -> take_chars limit given = given)).
  { intros limit given.
    auto using take_chars_count, take_chars_prefix, take_chars_short. }
  repeat split; try apply Hb.
  destruct movie_url as [[|c rest]|]; try reflexivity.
  cbn [truthy_str]. eexists. split; [reflexivity | apply Hb].
Qed.

Lemma order_by_newest (entry : SearchHistory.row) (rows : list SearchHistory.row) :
  (forall r, In r rows -> SearchHistory.id r < SearchHistory.id entry) ->
  order_by newer (rows ++ [entry]) = entry :: order_by newer rows.
Proof.
  intros Hnew. unfold order_by. rewrite fold_right_app. cbn [fold_right insert_sorted].
  induction rows as [|r rows IH]; cbn [fold_right]; [reflexivity|].
  rewrite IH by (intros r' Hr'; apply Hnew; now right).
  cbn [insert_sorted]. unfold newer at 1.
  destruct (Z.ltb_spec (SearchHistory.id r) (SearchHistory.id entry)); [reflexivity|].
  specialize (Hnew r (or_introl eq_refl)). lia.
Qed.

(** X4. After add_search_history the new entry is the first item of page
    1 of its user's history, whose number of rows grew by one; the
    histories of the other users and the users table are as before. *)
Theorem added_entry_is_first
    (db : Store) (now user_id : Z) (query movie_id movie_title : string)
    (movie_url : option string) (movie_rating : option Q) (per_page : Z) :
  1 <= per_page ->
  let entry :=
    fst (add_search_history db now user_id query movie_id movie_title movie_url
           movie_rating) in
  let db' :=
    snd (add_search_history db now user_id query movie_id movie_title movie_url
           movie_rating) in
  (exists rest total, get_user_history db' user_id 1 per_page = Ok (entry :: rest, total))
  /\ List.length (rows_of_user db' user_id) = S (List.length (rows_of_user db user_id))
  /\ (forall other page size,
        other <> user_id ->
        get_user_history db' other page size = get_user_history db other page size)
  /\ users db' = users db.
Proof.
  intros Hpp entry db'.
  assert (Hrows : rows_of_user db' user_id = rows_of_user db user_id ++ [entry]).
  { unfold db', entry, rows_of_user, add_search_history.
    cbn [snd fst search_history]. rewrite filter_app.
    cbn [filter SearchHistory.user_id]. now rewrite Z.eqb_refl. }
  assert (Hothers : forall other, other <> user_id ->
                      rows_of_user db' other = rows_of_user db other).
  { intros other Hother. unfold db', rows_of_user, add_search_history.
    cbn [snd search_history]. rewrite filter_app.
    cbn [filter SearchHistory.user_id].
    destruct (Z.eqb_spec user_id other); [congruence | apply app_nil_r]. }
  assert (Hnewest : forall r, In r (rows_of_user db user_id) ->
                      SearchHistory.id r < SearchHistory.id entry).
  { intros r Hr. unfold rows_of_user in Hr. apply filter_In in Hr.
    destruct Hr as [Hr _]. unfold entry, add_search_history.
    cbn [fst SearchHistory.id]. apply next_id_above. now apply in_map. }
  split; [|split; [|split]].
  - unfold get_user_history. rewrite Hrows, order_by_newest by exact Hnewest.
    rewrite total_pages_ceiling by assumption. cbn [rbind].
    rewrite offset_limit_window by lia.
    change (Z.to_nat ((1 - 1) * per_page)) with 0%nat. cbn [skipn].
    destruct (Z.to_nat per_page) as [|n] eqn:Hn; [lia|].
    cbn [firstn]. eauto.
  - rewrite Hrows, length_app. simpl. lia.
  - intros other page size Hother. unfold get_user_history.
    now rewrite Hothers.
  - reflexivity.
Qed.

Lemma added_entry_is_first_witness :
  exists rest total,
    get_user_history
      (snd (add_search_history Samples.store_twelve 7 1 "дюна" "409424" "Дюна" None
              (Some 8.0%Q)))
      1 1 5
    = Ok (fst (add_search_history Samples.store_twelve 7 1 "дюна" "409424" "Дюна" None
                 (Some 8.0%Q)) :: rest, total).
Proof.
  exact (proj1 (added_entry_is_first Samples.store_twelve 7 1 "дюна" "409424" "Дюна"
                  None (Some 8.0%Q) 5 ltac:(lia))).
Defined.

(** *** All the pages of a result *)

Lemma firstn_plus {A} (a b : nat) (l : list A) :
  firstn (a + b) l = firstn a l ++ firstn b (skipn a l).
Proof.
  revert l. induction a as [|a IH]; intros l; [reflexivity|].
  destruct l as [|x l]; simpl; [now rewrite firstn_nil | now rewrite IH].
Qed.

Lemma in_window {A} (offset limit : Z) (l : list A) (x : A) :
  In x (offset_limit offset limit l) -> In x l.
Proof.
  unfold offset_limit. intros Hin.
  assert (Hskip : In x (skipn (Z.to_nat offset) l)).
  { destruct (limit <? 0); [exact Hin|].
    rewrite <- (firstn_skipn (Z.to_nat limit) (skipn (Z.to_nat offset) l)).
    apply in_or_app. now left. }
  rewrite <- (firstn_skipn (Z.to_nat offset) l). apply in_or_app. now right.
Qed.

Lemma windows_cover {A} (size count : nat) (l : list A) :
  flat_map (fun i => firstn size (skipn (i * size) l)) (seq 0 count)
  = firstn (count * size) l.
Proof.
  induction count as [|count IH]; [reflexivity|].
  rewrite seq_S, flat_map_app, IH. cbn [flat_map plus]. rewrite app_nil_r.
  replace (S count * size)%nat with (count * size + size)%nat by lia.
  now rewrite firstn_plus.
Qed.

Lemma window_of_page {A} (per_page : Z) (i : nat) (l : list A) :
  1 <= per_page ->
  offset_limit ((Z.of_nat (S i) - 1) * per_page) per_page l
  = firstn (Z.to_nat per_page) (skipn (i * Z.to_nat per_page) l).
Proof.
  intros Hpp. rewrite offset_limit_window by lia.
  do 2 f_equal. nia.
Qed.

(** The windows of pages 1 .. total, one after the other, are the whole
    list as soon as total * per_page reaches its length. *)
Lemma pages_cover {A} (per_page total : Z) (l : list A) :
  1 <= per_page ->
  Z.of_nat (List.length l) <= total * per_page ->
  flat_map (fun page => offset_limit ((page - 1) * per_page) per_page l) (pages total)
  = l.
Proof.
  intros Hpp Hall. unfold pages. rewrite <- seq_shift, map_map.
  rewrite flat_map_concat_map, map_map, <- flat_map_concat_map.
  rewrite (flat_map_ext _ (fun i => firstn (Z.to_nat per_page)
                                      (skipn (i * Z.to_nat per_page) l)))
    by (intros i; now apply window_of_page).
  rewrite windows_cover. apply firstn_all2. nia.
Qed.

Lemma total_pages_reach (count per_page : Z) :
  1 <= per_page -> 0 <= count ->
  count <= Z.max 1 ((count + per_page - 1) / per_page) * per_page.
Proof.
  intros Hpp Hcount.
  assert (count <= (count + per_page - 1) / per_page * per_page)
    by (Z.div_mod_to_equations; nia).
  nia.
Qed.

(** X5. The pages 1 .. total_pages of get_user_history, one after the
    other, are exactly the rows of the user from the newest to the
    oldest: no row is missing and none comes twice.  A page holds at most
    per_page rows, all of them rows of that user. *)
Theorem history_pages_cover (db : Store) (user_id per_page : Z) :
  1 <= per_page ->
  exists first total,
    get_user_history db user_id 1 per_page = Ok (first, total)
    /\ flat_map (fun page => items_of (get_user_history db user_id page per_page))
         (pages total)
       = order_by newer (rows_of_user db user_id)
    /\ forall page,
        (Z.of_nat (List.length (items_of (get_user_history db user_id page per_page)))
         <= per_page)
        /\ forall row,
            In row (items_of (get_user_history db user_id page per_page)) ->
            SearchHistory.user_id row = user_id /\ In row (search_history db).
Proof.
  intros Hpp.
  assert (Hrun : forall page,
             get_user_history db user_id page per_page
             = Ok (offset_limit ((page - 1) * per_page) per_page
                     (order_by newer (rows_of_user db user_id)),
                   Z.max 1 ((Z.of_nat (List.length (rows_of_user db user_id))
                             + per_page - 1) / per_page))).
  { intros page. unfold get_user_history, total_pages.
    destruct (Z.eqb_spec per_page 0); [lia | reflexivity]. }
  eexists _, _. split; [apply Hrun|]. split.
  - rewrite (flat_map_ext _ (fun page => offset_limit ((page - 1) * per_page) per_page
                                           (order_by newer (rows_of_user db user_id))))
      by (intros page; now rewrite Hrun).
    apply pages_cover; [exact Hpp|].
    rewrite (order_by_length SearchHistory.id).
    apply total_pages_reach; lia.
  - intros page. rewrite Hrun. cbn [items_of]. split.
    + unfold offset_limit. destruct (Z.ltb_spec per_page 0); [lia|].
      rewrite length_firstn. lia.
    + intros row Hin. apply in_window in Hin.
      apply (Permutation_in _ (newest_first_perm db user_id)) in Hin.
      unfold rows_of_user in Hin. apply filter_In in Hin.
      destruct Hin as [Hin Huser]. split; [lia | exact Hin].
Qed.

Lemma history_pages_cover_witness :
  exists first total,
    get_user_history Samples.store_twelve 1 1 5 = Ok (first, total)
    /\ flat_map (fun page => items_of (get_user_history Samples.store_twelve 1 page 5))
         (pages total)
       = order_by newer (rows_of_user Samples.store_twelve 1).
Proof.
  destruct (history_pages_cover Samples.store_twelve 1 5 ltac:(lia))
    as (first & total & Hfirst & Hcover & _).
  exists first, total. split; assumption.
Defined.

Lemma window_in_range {A} (l : list A) (page per_page : Z) :
  1 <= per_page -> l <> [] ->
  1 <= page <= Z.max 1 ((Z.of_nat (List.length l) + per_page - 1) / per_page) ->
  offset_limit ((page - 1) * per_page) per_page l <> [].
Proof.
  intros Hpp Hne Hpage.
  assert (Hlen : (0 < List.length l)%nat) by (destruct l; [congruence | simpl; lia]).
  assert (Hoffset : (page - 1) * per_page < Z.of_nat (List.length l)).
  { assert ((Z.of_nat (List.length l) + per_page - 1) / per_page * per_page
            < Z.of_nat (List.length l) + per_page)
      by (Z.div_mod_to_equations; nia).
    nia. }
  intros Hempty. apply (f_equal (fun w => nth_error w 0)) in Hempty.
  rewrite offset_limit_nth in Hempty by nia.
  destruct (Z.ltb_spec (Z.of_nat 0) per_page); [|lia].
  cbn [nth_error] in Hempty. apply nth_error_None in Hempty. lia.
Qed.

Lemma window_out_of_range {A} (l : list A) (page per_page : Z) :
  1 <= per_page ->
  Z.max 1 ((Z.of_nat (List.length l) + per_page - 1) / per_page) < page ->
  offset_limit ((page - 1) * per_page) per_page l = [].
Proof.
  intros Hpp Hpage. apply offset_limit_beyond.
  assert (H := total_pages_reach (Z.of_nat (List.length l)) per_page Hpp ltac:(lia)).
  nia.
Qed.

Lemma newest_first_length (db : Store) (user_id : Z) :
  List.length (order_by newer (rows_of_user db user_id))
  = List.length (rows_of_user db user_id).
Proof. apply (order_by_length SearchHistory.id). Qed.

Lemma most_searched_length (db : Store) (user_id : Z) :
  List.length (order_by more_searched (subquery db user_id))
  = List.length (subquery db user_id).
Proof. apply (order_by_length agg_search_count). Qed.

(** X6. With at least one row, every page from 1 to total_pages of
    get_user_history and of get_user_stats holds at least one item; every
    page after total_pages is empty, with the same total_pages. *)
Theorem pages_in_range_are_not_empty (db : Store) (user_id page per_page : Z) :
  1 <= per_page ->
  rows_of_user db user_id <> [] ->
  exists history stats history_pages stats_pages,
    get_user_history db user_id page per_page = Ok (history, history_pages)
    /\ get_user_stats db user_id page per_page = Ok (stats, stats_pages)
    /\ (1 <= page <= history_pages -> history <> [])
    /\ (history_pages < page -> history = [])
    /\ (1 <= page <= stats_pages -> stats <> [])
    /\ (stats_pages < page -> stats = []).
Proof.
  intros Hpp Hrows.
  assert (Hgroups : subquery db user_id <> []).
  { destruct (rows_of_user db user_id) as [|r rows] eqn:E; [congruence|].
    destruct (group_by_grouped (r :: rows)) as (_ & _ & Hcov).
    specialize (Hcov r (or_introl eq_refl)).
    unfold subquery. rewrite E.
    destruct (group_by (r :: rows)); [contradiction | discriminate]. }
  unfold get_user_history, get_user_stats, total_pages.
  destruct (Z.eqb_spec per_page 0); [lia|]. cbn [rbind].
  eexists _, _, _, _. split; [reflexivity|]. split; [reflexivity|].
  split; [|split; [|split]].
  - intros Hpage. apply window_in_range; try assumption.
    + intros E. apply Hrows. apply length_zero_iff_nil.
      rewrite <- newest_first_length, E. reflexivity.
    + now rewrite newest_first_length.
  - intros Hpage. apply window_out_of_range; [assumption|].
    now rewrite newest_first_length.
  - intros Hpage E. apply map_eq_nil in E. revert E.
    apply window_in_range; try assumption.
    + intros E. apply Hgroups. apply length_zero_iff_nil.
      rewrite <- most_searched_length, E. reflexivity.
    + now rewrite most_searched_length.
  - intros Hpage. rewrite window_out_of_range; [reflexivity | assumption |].
    now rewrite most_searched_length.
Qed.

Lemma pages_in_range_are_not_empty_witness :
  exists history stats history_pages stats_pages,
    get_user_history Samples.store_twelve 1 3 5 = Ok (history, history_pages)
    /\ get_user_stats Samples.store_twelve 1 3 5 = Ok (stats, stats_pages)
    /\ (1 <= 3 <= history_pages -> history <> [])
    /\ (history_pages < 3 -> history = [])
    /\ (1 <= 3 <= stats_pages -> stats <> [])
    /\ (stats_pages < 3 -> stats = []).
Proof.
  apply (pages_in_range_are_not_empty Samples.store_twelve 1 3 5); [lia | discriminate].
Defined.

(** *** The statistics as a whole *)

Lemma flat_map_of_map {A B C} (f : B -> C) (w : A -> list B) (l : list A) :
  flat_map (fun a => map f (w a)) l = map f (flat_map w l).
Proof.
  induction l as [|a l IH]; simpl; [reflexivity|].
  now rewrite map_app, IH.
Qed.

Lemma Zsum_app (a b : list Z) : Zsum (a ++ b) = Zsum a + Zsum b.
Proof. unfold Zsum. induction a as [|x a IH]; simpl; lia. Qed.

Lemma Zsum_perm (a b : list Z) : Permutation a b -> Zsum a = Zsum b.
Proof. unfold Zsum. induction 1; simpl; lia. Qed.

Lemma add_to_group_total r groups :
  members_total (add_to_group r groups) = members_total groups + 1.
Proof.
  unfold members_total.
  induction groups as [|[k members] groups IH]; cbn [add_to_group]; [reflexivity|].
  destruct (key_eqb k (key_of r)); cbn [map snd Zsum fold_right] in *.
  - rewrite length_app. simpl. lia.
  - fold (Zsum (map (fun g => Z.of_nat (List.length (snd g))) (add_to_group r groups))).
    rewrite IH. unfold Zsum. lia.
Qed.

Lemma group_by_total (rows : list SearchHistory.row) :
  members_total (group_by rows) = Z.of_nat (List.length rows).
Proof.
  induction rows as [|r rows IH] using rev_ind; [reflexivity|].
  rewrite group_by_snoc, add_to_group_total, IH, length_app. simpl. lia.
Qed.

Lemma subquery_counts (db : Store) (user_id : Z) :
  Zsum (map agg_search_count (subquery db user_id))
  = Z.of_nat (List.length (rows_of_user db user_id)).
Proof.
  rewrite <- group_by_total. unfold subquery, members_total.
  rewrite map_map. f_equal. apply map_ext. now intros [[[i t] u] members].
Qed.

(** X7. Over the pages 1 .. total_pages of get_user_stats every movie
    looked up by the user comes exactly once, with a count of at least
    one, and the counts add up to the number of the user's history rows. *)
Theorem stats_counts_add_up (db : Store) (user_id per_page : Z) :
  1 <= per_page ->
  exists first total,
    get_user_stats db user_id 1 per_page = Ok (first, total)
    /\ let listed :=
         flat_map (fun page => items_of (get_user_stats db user_id page per_page))
           (pages total) in
       Zsum (map search_count listed)
       = Z.of_nat (List.length (rows_of_user db user_id))
       /\ NoDup (map (fun s => (movie_id s, movie_title s, movie_url s)) listed)
       /\ (forall row,
             In row (rows_of_user db user_id) ->
             In (key_of row)
               (map (fun s => (movie_id s, movie_title s, movie_url s)) listed))
       /\ (forall stat, In stat listed -> 1 <= search_count stat).
Proof.
  intros Hpp.
  assert (Hrun : forall page,
             get_user_stats db user_id page per_page
             = Ok (map stat_of_row
                     (offset_limit ((page - 1) * per_page) per_page
                        (order_by more_searched (subquery db user_id))),
                   Z.max 1 ((Z.of_nat (List.length (subquery db user_id))
                             + per_page - 1) / per_page))).
  { intros page. unfold get_user_stats, total_pages.
    destruct (Z.eqb_spec per_page 0); [lia | reflexivity]. }
  eexists _, _. split; [apply Hrun|]. cbv zeta.
  rewrite (flat_map_ext _ (fun page =>
             map stat_of_row
               (offset_limit ((page - 1) * per_page) per_page
                  (order_by more_searched (subquery db user_id)))))
    by (intros page; now rewrite Hrun).
  rewrite flat_map_of_map, pages_cover;
    [| exact Hpp | rewrite most_searched_length; apply total_pages_reach; lia].
  assert (Hperm := most_searched_perm db user_id).
  assert (Hkeys : map (fun s => (movie_id s, movie_title s, movie_url s))
                    (map stat_of_row (order_by more_searched (subquery db user_id)))
                  = map agg_key (order_by more_searched (subquery db user_id))).
  { rewrite map_map. reflexivity. }
  destruct (group_by_grouped (rows_of_user db user_id)) as (Hnd & _ & Hcov).
  split; [|split; [|split]].
  - rewrite map_map.
    rewrite (map_ext (fun g => search_count (stat_of_row g)) agg_search_count)
      by reflexivity.
    rewrite (Zsum_perm _ _ (Permutation_map agg_search_count Hperm)).
    apply subquery_counts.
  - rewrite Hkeys, (Permutation_map agg_key Hperm), subquery_keys. exact Hnd.
  - intros row Hrow.
    rewrite Hkeys, (Permutation_map agg_key Hperm), subquery_keys. now apply Hcov.
  - intros stat Hin. apply in_map_iff in Hin. destruct Hin as (g & <- & Hg).
    apply (Permutation_in _ Hperm) in Hg.
    destruct (subquery_member db user_id g Hg) as (Hne & Hcount & _).
    cbn [stat_of_row search_count]. rewrite Hcount.
    destruct (rows_with_key (agg_key g) (rows_of_user db user_id));
      [congruence | simpl; lia].
Qed.

Lemma stats_counts_add_up_witness :
  exists first total,
    get_user_stats Samples.store_twelve 1 1 5 = Ok (first, total)
    /\ Zsum (map search_count
               (flat_map (fun page => items_of (get_user_stats Samples.store_twelve 1 page 5))
                  (pages total)))
       = 12.
Proof.
  destruct (stats_counts_add_up Samples.store_twelve 1 5 ltac:(lia))
    as (first & total & Hfirst & Hsum & _).
  exists first, total. split; [exact Hfirst | exact Hsum].
Defined.

End StoreExtras.

(* ================================================================= *)
(** ** More on the tokens and the keyboards *)

Module CodecExtras.
Import Py Bot PyFacts CodecFacts.

#[local] Open Scope string_scope.

Lemma prefix_empty (s : string) : prefix EmptyString s = true.
Proof. now destruct s. Qed.

Lemma split_two (a b : string) :
  contains "_" a = false -> contains "_" b = false ->
  split "_" (a ++ String "_" b) = [a; b].
Proof. intros Ha Hb. now rewrite split_app, split_without. Qed.

(** X8. The token handle_search attaches to the button of a movie whose
    id is an integer is "movie_" followed by the id in decimal; it is
    routed to handle_movie_select, which reads the same id back. *)
Theorem movie_token_round_trip {runtime : Runtime} (movie : MovieInfo.t) (movie_id : Z) :
  MovieInfo.id movie = PInt movie_id ->
  callback_data (search_button movie) = Some ("movie_" ++ str_of_int movie_id)
  /\ callback_route (callback_data (search_button movie)) = Some HandleMovieSelect
  /\ selected_movie_id ("movie_" ++ str_of_int movie_id) = Ok movie_id.
Proof.
  intros Hid.
  assert (Hdata : callback_data (search_button movie)
                  = Some ("movie_" ++ str_of_int movie_id)).
  { unfold search_button. cbn [callback_data]. now rewrite Hid. }
  split; [exact Hdata|].
  split; [rewrite Hdata; unfold callback_route; simpl; now rewrite prefix_empty|].
  unfold selected_movie_id.
  change ("movie_" ++ str_of_int movie_id)
    with ("movie" ++ String "_" (str_of_int movie_id)).
  rewrite split_two by (auto using str_of_int_no_separator).
  now rewrite int_of_str_of_int.
Qed.

Lemma movie_token_round_trip_witness :
  selected_movie_id "movie_535341" = Ok 535341%Z.
Proof.
  exact (proj2 (proj2
           (movie_token_round_trip (runtime := Samples.runtime)
              (MovieInfo.mk (PInt 535341) (PStr "1+1") PNone PNone None PNone PNone PNone
                 [] [] PNone PNone (PStr "movie") (PInt 0) (PInt 0) PNone)
              535341 eq_refl))).
Defined.

Lemma pagination_token_routed (content_kind direction : string) (current_page : Z) :
  callback_route (Some (pagination_token content_kind direction current_page))
  = Some HandlePagination.
Proof.
  unfold callback_route, pagination_token. rewrite join_four. simpl.
  now rewrite prefix_empty.
Qed.

(** X9. On a page between 1 and total_pages, every button of
    _get_pagination_keyboard is routed to handle_pagination, decodes to
    the page it was rendered on, and asks for a page that is again
    between 1 and total_pages. *)
Theorem buttons_stay_in_range (content_type : string) (current_page total_pages : Z)
    (button : Button) :
  content_type = "history" \/ content_type = "stats" ->
  (1 <= current_page <= total_pages)%Z ->
  In button (_get_pagination_keyboard content_type current_page total_pages) ->
  exists token action,
    callback_data button = Some token
    /\ callback_route (Some token) = Some HandlePagination
    /\ decode_pagination token = Token content_type action current_page
    /\ (1 <= new_page_of action current_page <= total_pages)%Z.
Proof.
  intros Hkind Hpage Hin.
  assert (Hk : contains "_" content_type = false)
    by (destruct Hkind; subst; reflexivity).
  rewrite keyboard_tokens in Hin. apply in_app_or in Hin.
  destruct Hin as [Hin|Hin].
  - destruct (Z.ltb_spec 1 current_page); [|contradiction].
    destruct Hin as [<-|[]].
    exists (pagination_token content_type "prev" current_page), "prev".
    split; [reflexivity|]. split; [apply pagination_token_routed|].
    split; [now apply decode_pagination_token | unfold new_page_of; simpl; lia].
  - destruct (Z.ltb_spec current_page total_pages); [|contradiction].
    destruct Hin as [<-|[]].
    exists (pagination_token content_type "next" current_page), "next".
    split; [reflexivity|]. split; [apply pagination_token_routed|].
    split; [now apply decode_pagination_token | unfold new_page_of; simpl; lia].
Qed.

Lemma buttons_stay_in_range_witness :
  exists token action,
    callback_data (mkButton "Вперед ▶️" (Some "pagination_history_next_2") None)
    = Some token
    /\ callback_route (Some token) = Some HandlePagination
    /\ decode_pagination token = Token "history" action 2%Z
    /\ (1 <= new_page_of action 2 <= 3)%Z.
Proof.
  apply (buttons_stay_in_range "history" 2 3); [now left | lia |].
  right. now left.
Defined.

(** X10. The tokens of _get_history_keyboard, which nothing calls, reach
    no handler: they start with neither registered prefix, and
    handle_pagination would refuse them, as they have three segments. *)
Theorem history_keyboard_is_dead (current_page total_pages : Z) (button : Button) :
  In button (_get_history_keyboard current_page total_pages) ->
  exists token,
    callback_data button = Some token
    /\ callback_route (Some token) = None
    /\ decode_pagination token = WrongSegments.
Proof.
  unfold _get_history_keyboard. intros Hin. apply in_app_or in Hin.
  assert (Hthree : forall direction,
             contains "_" direction = false ->
             decode_pagination ("history" ++ String "_" (direction ++ String "_"
                                  (str_of_int current_page)))
             = WrongSegments).
  { intros direction Hd. unfold decode_pagination.
    rewrite split_app, split_two by (auto using str_of_int_no_separator).
    reflexivity. }
  destruct Hin as [Hin|Hin];
    [destruct (1 <? current_page)%Z | destruct (current_page <? total_pages)%Z];
    try contradiction; destruct Hin as [<-|[]]; eexists;
    (split; [reflexivity|]); (split; [reflexivity|]).
  - exact (Hthree "prev" eq_refl).
  - exact (Hthree "next" eq_refl).
Qed.

Lemma history_keyboard_is_dead_witness :
  exists token,
    callback_data (mkButton "Вперед ▶️" (Some "history_next_1") None) = Some token
    /\ callback_route (Some token) = None
    /\ decode_pagination token = WrongSegments.
Proof.
  apply (history_keyboard_is_dead 1 3). now left.
Defined.

End CodecExtras.

(* ================================================================= *)
(** ** More on the handlers *)

Module RouterExtras.
Import Py Database Bot PyFacts DatabaseFacts CodecFacts RouterFacts StoreExtras CodecExtras.

#[local] Open Scope string_scope.

(** *** Handlers and the store *)

#[local] Instance same_store_order : StoreOrder same_store.
Proof.
  split; unfold same_store; [auto | intros a b c Hab Hbc; congruence].
Qed.

#[local] Instance users_grow_order : StoreOrder users_grow.
Proof.
  split; unfold users_grow.
  - intros w w' ->. split; [reflexivity|]. exists []. now rewrite app_nil_r.
  - intros a b c [Hu1 [x Hx]] [Hu2 [y Hy]]. split; [congruence|].
    exists (x ++ y)%list. now rewrite Hy, Hx, app_assoc.
Qed.

Section Keeping.
Context {runtime : Runtime} (R : World -> World -> Prop) {order : StoreOrder R}.

Lemma keeps_ret {A} (a : A) : keeps R (ret a).
Proof. intros env w r w' [= _ <-]. now apply same_db_related. Qed.

Lemma keeps_raise {A} (e : exn) : keeps R (raise (A := A) e).
Proof. intros env w r w' [= _ <-]. now apply same_db_related. Qed.

Lemma keeps_lift {A} (x : result A) : keeps R (lift x).
Proof. intros env w r w' [= _ <-]. now apply same_db_related. Qed.

Lemma keeps_bind {A B} (m : M A) (k : A -> M B) :
  keeps R m -> (forall a, keeps R (k a)) -> keeps R (bind m k).
Proof.
  intros Hm Hk env w r w'. unfold bind.
  destruct (m env w) as [[a|e] w1] eqn:Hrun; intros Hrest.
  - apply (related_trans _ w1); [exact (Hm _ _ _ _ Hrun) | exact (Hk a _ _ _ _ Hrest)].
  - injection Hrest as _ <-. exact (Hm _ _ _ _ Hrun).
Qed.

Lemma keeps_try_except {A} (body : M A) (handler : exn -> M A) :
  keeps R body -> (forall e, keeps R (handler e)) -> keeps R (try_except body handler).
Proof.
  intros Hbody Hhandler env w r w'. unfold try_except.
  destruct (body env w) as [[a|e] w1] eqn:Hrun; intros Hrest.
  - injection Hrest as _ <-. exact (Hbody _ _ _ _ Hrun).
  - apply (related_trans _ w1);
      [exact (Hbody _ _ _ _ Hrun) | exact (Hhandler e _ _ _ _ Hrest)].
Qed.

Lemma keeps_invoke (c : Call) : keeps R (invoke c).
Proof.
  intros env w r w'. unfold invoke.
  destruct (fault env _); intros [= _ <-]; now apply same_db_related.
Qed.

Lemma keeps_logger_error line cause : keeps R (logger_error line cause).
Proof. intros env w r w' [= _ <-]. now apply same_db_related. Qed.

Lemma keeps_assign content_type : keeps R (assign_content_type content_type).
Proof. intros env w r w' [= _ <-]. now apply same_db_related. Qed.

Lemma keeps_read_db : keeps R read_db.
Proof. intros env w r w' [= _ <-]. now apply same_db_related. Qed.

Lemma keeps_enter {A} (m : M A) : keeps R m -> keeps R (enter m).
Proof.
  intros Hm env w r w' Hrun. unfold enter in Hrun.
  apply (related_trans _ (mkWorld (db w) (calls w) None));
    [now apply same_db_related | exact (Hm _ _ _ _ Hrun)].
Qed.

Lemma keeps_log_lines lines : keeps R (log_lines lines).
Proof.
  induction lines as [|line lines IH]; cbn [log_lines];
    [apply keeps_ret | apply keeps_bind; [apply keeps_logger_error | intros _; exact IH]].
Qed.

Lemma keeps_api_search_movie query : keeps R (api_search_movie query).
Proof.
  intros env w r w'. unfold api_search_movie.
  destruct (KinopoiskAPI.search_movie _) as [outcome lines]. intros Hrun.
  apply (related_trans _ (record (SearchMovie query) w));
    [now apply same_db_related|].
  revert Hrun. apply keeps_bind; [apply keeps_log_lines | intros _; apply keeps_lift].
Qed.

Lemma keeps_api_get_movie_details movie_id : keeps R (api_get_movie_details movie_id).
Proof.
  intros env w r w'. unfold api_get_movie_details.
  destruct (KinopoiskAPI.get_movie_details _) as [outcome lines]. intros Hrun.
  apply (related_trans _ (record (GetMovieDetails movie_id) w));
    [now apply same_db_related|].
  revert Hrun. apply keeps_bind; [apply keeps_log_lines | intros _; apply keeps_lift].
Qed.

End Keeping.

(** Breaks a handler down to the calls it is made of. *)
Ltac keep_step :=
  first
    [ match goal with |- StoreOrder _ => typeclasses eauto end
    | apply keeps_ret | apply keeps_raise | apply keeps_lift
    | apply keeps_invoke | apply keeps_logger_error | apply keeps_assign
    | apply keeps_read_db | apply keeps_log_lines
    | apply keeps_api_search_movie | apply keeps_api_get_movie_details
    | apply keeps_enter
    | apply keeps_bind; [..|intros ?]
    | apply keeps_try_except; [..|intros ?]
    | match goal with
      | |- keeps _ (match ?x with _ => _ end) => destruct x
      | |- keeps _ (if ?x then _ else _) => destruct x
      end ].

Ltac keep := repeat keep_step.

(** Distinguishes whether the next call of the goal fails. *)
Ltac case_fault :=
  match goal with
  | |- context [fault ?env ?k] => destruct (fault env k) as [?e|]
  end.

Section Router.
Context {runtime : Runtime}.

Lemma keeps_pagination_except (R : World -> World -> Prop) {order : StoreOrder R} e :
  keeps R (pagination_except e).
Proof.
  intros env w r w'. unfold pagination_except.
  destruct (content_type_local w) as [content_type|].
  - apply (keeps_bind R); try exact order;
      [apply keeps_logger_error | intros _; apply keeps_invoke]; exact order.
  - intros [= _ <-]. now apply same_db_related.
Qed.

(** X11. handle_pagination only reads: whatever the token, the state of
    the store and the calls that fail, the store is the same after the
    handler as before. *)
Theorem pagination_only_reads (callback : CallbackQuery) (env : Env) (w : World) :
  db (snd (handle_pagination callback env w)) = db w.
Proof.
  assert (H : keeps same_store (handle_pagination callback)).
  { unfold handle_pagination, pagination_body, show_page, callback_answer,
      message_edit_text, db_get_user_by_telegram_id, db_get_user_history,
      db_get_user_stats.
    apply keeps_enter; [typeclasses eauto|].
    apply keeps_try_except;
      [typeclasses eauto | | intros e; apply keeps_pagination_except; typeclasses eauto].
    keep. }
  destruct (handle_pagination callback env w) as [r w'] eqn:Hrun.
  exact (H _ _ _ _ Hrun).
Qed.

Lemma keeps_get_user (R : World -> World -> Prop) {order : StoreOrder R} telegram_id :
  keeps R (db_get_user_by_telegram_id telegram_id).
Proof. unfold db_get_user_by_telegram_id. keep. Qed.

Lemma keeps_get_history (R : World -> World -> Prop) {order : StoreOrder R} user_id page :
  keeps R (db_get_user_history user_id page).
Proof. unfold db_get_user_history. keep. Qed.

Lemma keeps_get_stats (R : World -> World -> Prop) {order : StoreOrder R} user_id page :
  keeps R (db_get_user_stats user_id page).
Proof. unfold db_get_user_stats. keep. Qed.

Lemma create_user_grows_users telegram_id username :
  keeps users_grow (db_get_or_create_user telegram_id username).
Proof.
  intros env w r w'.
  unfold db_get_or_create_user, bind, invoke, read_db, write_db, ret.
  destruct (fault env _); cbn [db calls record];
    [intros [= _ <-]; now apply same_db_related|].
  unfold get_or_create_user.
  destruct (get_user_by_telegram_id (db w) telegram_id) as [user|];
    intros [= _ <-]; split; cbn [db users search_history]; try reflexivity.
  - exists []. now rewrite app_nil_r.
  - eexists. reflexivity.
Qed.

(** X13. handle_search, cmd_history and cmd_stats never touch the
    history, and what they do to the users table is to add rows at its
    end. *)
Theorem message_handlers_only_add_users (incoming : Message) (env : Env) (w : World) :
  users_grow w (snd (handle_search incoming env w))
  /\ users_grow w (snd (cmd_history incoming env w))
  /\ users_grow w (snd (cmd_stats incoming env w)).
Proof.
  assert (Hcreate : forall telegram_user,
             keeps users_grow (_get_or_create_user telegram_user)).
  { intros [telegram_user|]; cbn [_get_or_create_user];
      [apply create_user_grows_users | keep]. }
  assert (Hshow : forall content_type user_id,
             keeps users_grow (_show_paginated_content content_type user_id)).
  { intros content_type user_id. unfold _show_paginated_content, message_answer.
    repeat first
      [ apply keeps_get_history | apply keeps_get_stats | keep_step ]. }
  assert (Hsearch : keeps users_grow (handle_search incoming)).
  { unfold handle_search, message_answer.
    repeat first [ apply Hcreate | keep_step ]. }
  assert (Hhistory : keeps users_grow (cmd_history incoming)).
  { unfold cmd_history, message_answer.
    repeat first [ apply Hcreate | apply Hshow | keep_step ]. }
  assert (Hstats : keeps users_grow (cmd_stats incoming)).
  { unfold cmd_stats, message_answer.
    repeat first [ apply Hcreate | apply Hshow | keep_step ]. }
  split; [|split].
  - destruct (handle_search incoming env w) as [r w'] eqn:Hrun.
    exact (Hsearch _ _ _ _ Hrun).
  - destruct (cmd_history incoming env w) as [r w'] eqn:Hrun.
    exact (Hhistory _ _ _ _ Hrun).
  - destruct (cmd_stats incoming env w) as [r w'] eqn:Hrun.
    exact (Hstats _ _ _ _ Hrun).
Qed.

(** *** Running a handler call by call *)

Lemma try_bind {A B} (m : M A) (k : A -> M B) (h : exn -> M B) env w a w1 :
  m env w = (Ok a, w1) ->
  try_except (bind m k) h env w = try_except (k a) h env w1.
Proof. intros Hrun. unfold try_except, bind. now rewrite Hrun. Qed.

Lemma try_bind_raise {A B} (m : M A) (k : A -> M B) (h : exn -> M B) env w e w1 :
  m env w = (Raise e, w1) ->
  try_except (bind m k) h env w = h e env w1.
Proof. intros Hrun. unfold try_except, bind. now rewrite Hrun. Qed.

Lemma bind_ok {A B} (m : M A) (k : A -> M B) env w a w1 :
  m env w = (Ok a, w1) -> bind m k env w = k a env w1.
Proof. intros Hrun. unfold bind. now rewrite Hrun. Qed.

Lemma log_lines_run (lines : list string) env w :
  log_lines lines env w
  = (Ok tt, mkWorld (db w) (calls w ++ logged lines)%list (content_type_local w)).
Proof.
  revert w. induction lines as [|line lines IH]; intros w; cbn [log_lines logged map].
  - unfold ret. rewrite app_nil_r. now destruct w.
  - unfold bind, logger_error. rewrite IH. unfold record. cbn [db calls content_type_local].
    now rewrite <- app_assoc.
Qed.

Lemma details_found_logs_nothing reply movie lines :
  KinopoiskAPI.get_movie_details reply = (Ok (Some movie), lines) -> lines = [].
Proof.
  unfold KinopoiskAPI.get_movie_details.
  destruct reply as [e|status json].
  - destruct (exn_eqb e ClientError); discriminate.
  - destruct (negb (status =? 200)%Z); [discriminate|].
    destruct json as [film|e].
    + destruct (KinopoiskAPI.movie_info film) as [found|e]; [now intros [= _ <-]|].
      destruct (exn_eqb e KeyError || exn_eqb e ValueError); [discriminate|].
      destruct (exn_eqb e ClientError); discriminate.
    + destruct (exn_eqb e ClientError); discriminate.
Qed.

(** *** handle_movie_select *)

Lemma selected_token_not_empty token movie_id :
  selected_movie_id token = Ok movie_id -> token <> EmptyString.
Proof. now intros Hsel ->. Qed.

(** Lines 132-191: what follows the write to the history. *)
Lemma keeps_selection_view (R : World -> World -> Prop) {order : StoreOrder R}
    (movie : MovieInfo.t) (keyboard : InlineKeyboardMarkup) :
  keeps R
    (bind (lift (details_text movie))
       (fun message_text =>
          bind (if truthy (MovieInfo.poster_url movie)
                then
                  try_except
                    (bind (invoke (MessageAnswerPhoto (MovieInfo.poster_url movie)
                                     message_text keyboard))
                       (fun _ => invoke MessageDelete))
                    (fun e =>
                       bind (logger_error "Ошибка при отправке постера: " (Some e))
                         (fun _ => message_edit_text message_text keyboard))
                else message_edit_text message_text keyboard)
            (fun _ => callback_answer None false))).
Proof. unfold message_edit_text, callback_answer. keep. Qed.

Lemma keeps_movie_select_except (R : World -> World -> Prop) {order : StoreOrder R} e :
  keeps R (movie_select_except e).
Proof. unfold movie_select_except, callback_answer. keep. Qed.

(** The run up to the write, when the catalog has the movie and the
    store has the user. *)
Lemma movie_select_stores env w callback m token movie_id movie title user :
  message callback = Some m ->
  data callback = Some token ->
  selected_movie_id token = Ok movie_id ->
  fst (KinopoiskAPI.get_movie_details (details_reply env movie_id)) = Ok (Some movie) ->
  MovieInfo.title movie = PStr title ->
  fault env (S (List.length (calls w))) = None ->
  get_user_by_telegram_id (db w) (tg_id (callback_from_user callback)) = Some user ->
  fault env (S (S (List.length (calls w)))) = None ->
  let watch_url := "https://www.sspoisk.ru/film/" ++ py_str (MovieInfo.id movie) ++ "/" in
  let keyboard := [mkButton "🎬 Посмотреть" None (Some watch_url)] in
  let stored :=
    mkWorld
      (snd (add_search_history (db w) (utcnow env) (User.id user) (first_line (text m))
              (py_str (MovieInfo.id movie)) title (Some watch_url) (MovieInfo.rating movie)))
      (calls w
       ++ [GetMovieDetails movie_id;
           GetUserByTelegramId (tg_id (callback_from_user callback));
           AddSearchHistory (User.id user) (first_line (text m))
             (py_str (MovieInfo.id movie)) (PStr title) watch_url
             (MovieInfo.rating movie)])%list
      (content_type_local w) in
  handle_movie_select callback env w
  = try_except
      (bind (lift (details_text movie))
         (fun message_text =>
            bind (if truthy (MovieInfo.poster_url movie)
                  then
                    try_except
                      (bind (invoke (MessageAnswerPhoto (MovieInfo.poster_url movie)
                                       message_text keyboard))
                         (fun _ => invoke MessageDelete))
                      (fun e =>
                         bind (logger_error "Ошибка при отправке постера: " (Some e))
                           (fun _ => message_edit_text message_text keyboard))
                  else message_edit_text message_text keyboard)
              (fun _ => callback_answer None false)))
      movie_select_except env stored.
Proof.
  intros Hm Hdata Hsel Hfound Htitle Hf1 Huser Hf2 watch_url keyboard stored.
  unfold handle_movie_select, movie_select_body. rewrite Hm, Hdata.
  destruct token as [|c token]; [discriminate|].
  rewrite (try_bind _ _ _ env w movie_id w) by (unfold lift; now rewrite Hsel).
  destruct (KinopoiskAPI.get_movie_details (details_reply env movie_id))
    as [outcome lines] eqn:Hdetails.
  cbn [fst] in Hfound. subst outcome.
  pose proof (details_found_logs_nothing _ _ _ Hdetails) as ->.
  rewrite (try_bind _ _ _ env w (Some movie) (record (GetMovieDetails movie_id) w))
    by (unfold api_get_movie_details; now rewrite Hdetails).
  cbv beta iota.
  rewrite (try_bind _ _ _ env _ (Some user)
             (record (GetUserByTelegramId (tg_id (callback_from_user callback)))
                (record (GetMovieDetails movie_id) w))).
  2:{ unfold db_get_user_by_telegram_id, bind, invoke, read_db, ret, record.
      cbn [db calls content_type_local]. rewrite length_snoc, Hf1.
      cbn [db calls content_type_local]. now rewrite Huser. }
  cbv beta iota zeta. rewrite Htitle.
  rewrite (try_bind _ _ _ env _ tt stored).
  2:{ unfold db_add_search_history, bind, invoke, write_db, record.
      cbn [db calls content_type_local]. rewrite !length_snoc, Hf2.
      cbn [db calls content_type_local]. unfold stored.
      rewrite <- !app_assoc. reflexivity. }
  reflexivity.
Qed.

Lemma bind_inv {A B} (m : M A) (k : A -> M B) env w r w' :
  bind m k env w = (r, w') ->
  (exists a w1, m env w = (Ok a, w1) /\ k a env w1 = (r, w'))
  \/ (exists e, m env w = (Raise e, w') /\ r = Raise e).
Proof.
  unfold bind. destruct (m env w) as [[a|e] w1]; intros Hrun.
  - left. now exists a, w1.
  - right. exists e. now inversion Hrun.
Qed.

Lemma api_details_outcome movie_id env w r w' :
  api_get_movie_details movie_id env w = (r, w') ->
  r = fst (KinopoiskAPI.get_movie_details (details_reply env movie_id))
  /\ db w' = db w.
Proof.
  unfold api_get_movie_details.
  destruct (KinopoiskAPI.get_movie_details _) as [outcome lines].
  unfold bind. rewrite log_lines_run. unfold lift. now intros [= <- <-].
Qed.

Lemma get_user_outcome telegram_id env w found w' :
  db_get_user_by_telegram_id telegram_id env w = (Ok found, w') ->
  found = get_user_by_telegram_id (db w) telegram_id /\ db w' = db w.
Proof.
  unfold db_get_user_by_telegram_id, bind, invoke, read_db, ret.
  destruct (fault env _); [discriminate|]. now intros [= <- <-].
Qed.

Lemma add_history_outcome user_id query movie_id movie_title movie_url rating env w r w' :
  db_add_search_history user_id query movie_id movie_title movie_url rating env w
  = (r, w') ->
  (exists title,
      r = Ok tt /\ movie_title = PStr title
      /\ db w' = snd (add_search_history (db w) (utcnow env) user_id query movie_id title
                        (Some movie_url) rating))
  \/ (exists e, r = Raise e /\ db w' = db w).
Proof.
  unfold db_add_search_history, bind, invoke, write_db, raise.
  destruct (fault env _); cbn [db calls record];
    [intros [= <- <-]; right; eexists; now split|].
  destruct movie_title; intros [= <- <-];
    try (right; eexists; now split).
  left. eexists. repeat split.
Qed.

Lemma movie_select_body_store env w callback r w' :
  movie_select_body callback env w = (r, w') ->
  db w' = db w
  \/ exists m token movie_id movie title user,
      message callback = Some m
      /\ data callback = Some token
      /\ selected_movie_id token = Ok movie_id
      /\ fst (KinopoiskAPI.get_movie_details (details_reply env movie_id))
         = Ok (Some movie)
      /\ MovieInfo.title movie = PStr title
      /\ get_user_by_telegram_id (db w) (tg_id (callback_from_user callback)) = Some user
      /\ db w'
         = snd (add_search_history (db w) (utcnow env) (User.id user)
                  (first_line (text m)) (py_str (MovieInfo.id movie)) title
                  (Some ("https://www.sspoisk.ru/film/" ++ py_str (MovieInfo.id movie)
                         ++ "/"))
                  (MovieInfo.rating movie)).
Proof.
  assert (Hanswer : forall text alert env w r w',
             callback_answer text alert env w = (r, w') -> db w' = db w).
  { intros text alert. apply (keeps_invoke same_store). }
  unfold movie_select_body.
  destruct (message callback) as [m|] eqn:Hm; [|intros Hrun; left; eauto].
  destruct (data callback) as [token|] eqn:Hdata; [|intros Hrun; left; eauto].
  destruct token as [|c token]; [intros Hrun; left; eauto|].
  intros Hrun. apply bind_inv in Hrun.
  destruct Hrun as [(movie_id & w1 & Hsel & Hrun) | (e & Hsel & _)];
    [|left; now inversion Hsel].
  unfold lift in Hsel. injection Hsel as Hsel <-.
  apply bind_inv in Hrun.
  destruct Hrun as [(found & w2 & Hdetails & Hrun) | (e & Hdetails & _)];
    [|left; now apply api_details_outcome in Hdetails].
  apply api_details_outcome in Hdetails. destruct Hdetails as [Hfound Hdb2].
  destruct found as [movie|]; [|left; rewrite <- Hdb2; eauto].
  apply bind_inv in Hrun.
  destruct Hrun as [(found & w3 & Huser & Hrun) | (e & Huser & _)].
  2:{ left. rewrite <- Hdb2.
      exact (keeps_get_user same_store _ _ _ _ _ Huser). }
  apply get_user_outcome in Huser. destruct Huser as [Huser Hdb3].
  destruct found as [user|]; [|left; rewrite <- Hdb2, <- Hdb3; eauto].
  apply bind_inv in Hrun.
  destruct Hrun as [([] & w4 & Hadd & Hrun) | (e & Hadd & _)].
  - apply add_history_outcome in Hadd.
    destruct Hadd as [(title & _ & Htitle & Hdb4) | (e & He & _)]; [|discriminate].
    right. exists m, (String c token), movie_id, movie, title, user.
    repeat (split; [congruence|]).
    rewrite (keeps_selection_view same_store _ _ _ _ _ _ Hrun), Hdb4.
    now rewrite Hdb3, Hdb2.
  - apply add_history_outcome in Hadd.
    destruct Hadd as [(title & He & _) | (e' & _ & Hdb4)]; [discriminate|].
    left. now rewrite Hdb4, Hdb3, Hdb2.
Qed.

(** X12. The only change handle_movie_select ever makes to the store is
    to record the selection, and it makes it only when the event carries
    its message and a token whose second segment is an integer, the
    catalog returns the movie, its title is a string and the sender is a
    known user.  In every other run, whatever fails, the store is left as
    it was. *)
Theorem movie_select_only_records (callback : CallbackQuery) (env : Env) (w : World) :
  let after := db (snd (handle_movie_select callback env w)) in
  after = db w
  \/ exists m token movie_id movie title user,
      message callback = Some m
      /\ data callback = Some token
      /\ selected_movie_id token = Ok movie_id
      /\ fst (KinopoiskAPI.get_movie_details (details_reply env movie_id))
         = Ok (Some movie)
      /\ MovieInfo.title movie = PStr title
      /\ get_user_by_telegram_id (db w) (tg_id (callback_from_user callback)) = Some user
      /\ after
         = snd (add_search_history (db w) (utcnow env) (User.id user)
                  (first_line (text m)) (py_str (MovieInfo.id movie)) title
                  (Some ("https://www.sspoisk.ru/film/" ++ py_str (MovieInfo.id movie)
                         ++ "/"))
                  (MovieInfo.rating movie)).
Proof.
  cbv zeta. unfold handle_movie_select, try_except.
  destruct (movie_select_body callback env w) as [[[]|e] w1] eqn:Hbody.
  - exact (movie_select_body_store _ _ _ _ _ Hbody).
  - destruct (movie_select_except e env w1) as [r w'] eqn:Hexcept. cbn [snd].
    rewrite (keeps_movie_select_except same_store _ _ _ _ _ Hexcept).
    exact (movie_select_body_store _ _ _ _ _ Hbody).
Qed.

(** X14. When the catalog returns the movie, its title is a string, the
    sender is a known user and the two calls to the store do not fail,
    handle_movie_select records the selection under that user: the first
    line of the message the button was under as the query, the id in
    text, the title, the link built from the id and the rating.  The row
    is written before the detail view is built and sent, so it stays
    whatever fails afterwards. *)
Theorem selection_is_recorded env w callback m token movie_id movie title user :
  message callback = Some m ->
  data callback = Some token ->
  selected_movie_id token = Ok movie_id ->
  fst (KinopoiskAPI.get_movie_details (details_reply env movie_id)) = Ok (Some movie) ->
  MovieInfo.title movie = PStr title ->
  fault env (S (List.length (calls w))) = None ->
  get_user_by_telegram_id (db w) (tg_id (callback_from_user callback)) = Some user ->
  fault env (S (S (List.length (calls w)))) = None ->
  db (snd (handle_movie_select callback env w))
  = snd (add_search_history (db w) (utcnow env) (User.id user) (first_line (text m))
           (py_str (MovieInfo.id movie)) title
           (Some ("https://www.sspoisk.ru/film/" ++ py_str (MovieInfo.id movie) ++ "/"))
           (MovieInfo.rating movie)).
Proof.
  intros Hm Hdata Hsel Hfound Htitle Hf1 Huser Hf2.
  rewrite (movie_select_stores env w callback m token movie_id movie title user)
    by assumption.
  cbv zeta.
  match goal with
  | |- db (snd (?run env ?stored)) = _ =>
      destruct (run env stored) as [r w'] eqn:Hrun
  end.
  cbn [snd]. revert Hrun.
  match goal with
  | |- ?run env ?stored = _ -> _ =>
      intros Hrun;
      assert (Hkeeps : keeps same_store run)
        by (apply keeps_try_except;
            [typeclasses eauto
            | apply keeps_selection_view; typeclasses eauto
            | intros e; apply keeps_movie_select_except; typeclasses eauto]);
      exact (Hkeeps _ _ _ _ Hrun)
  end.
Qed.

(** X15. When the movie has a poster and sending the photo fails, or the
    photo is sent and deleting the list message fails, handle_movie_select
    logs the failure and edits the list message into the detail view
    instead: the same text and the same keyboard as the photo had. *)
Theorem poster_failure_falls_back
    env w callback m token movie_id movie title user view e :
  message callback = Some m ->
  data callback = Some token ->
  selected_movie_id token = Ok movie_id ->
  fst (KinopoiskAPI.get_movie_details (details_reply env movie_id)) = Ok (Some movie) ->
  MovieInfo.title movie = PStr title ->
  fault env (S (List.length (calls w))) = None ->
  get_user_by_telegram_id (db w) (tg_id (callback_from_user callback)) = Some user ->
  fault env (S (S (List.length (calls w)))) = None ->
  details_text movie = Ok view ->
  truthy (MovieInfo.poster_url movie) = true ->
  let watch_url := "https://www.sspoisk.ru/film/" ++ py_str (MovieInfo.id movie) ++ "/" in
  let keyboard := [mkButton "🎬 Посмотреть" None (Some watch_url)] in
  let photo := MessageAnswerPhoto (MovieInfo.poster_url movie) view keyboard in
  let recorded :=
    [GetMovieDetails movie_id;
     GetUserByTelegramId (tg_id (callback_from_user callback));
     AddSearchHistory (User.id user) (first_line (text m))
       (py_str (MovieInfo.id movie)) (PStr title) watch_url (MovieInfo.rating movie)] in
  let fallback :=
    [LoggerError "Ошибка при отправке постера: " (Some e);
     MessageEditText view keyboard] in
  (fault env (List.length (calls w) + 3) = Some e ->
   exists r w' rest,
     handle_movie_select callback env w = (r, w')
     /\ calls w' = (calls w ++ recorded ++ [photo] ++ fallback ++ rest)%list
     /\ existsb is_edit rest = false)
  /\ (fault env (List.length (calls w) + 3) = None ->
      fault env (List.length (calls w) + 3 + 1) = Some e ->
      exists r w' rest,
        handle_movie_select callback env w = (r, w')
        /\ calls w'
           = (calls w ++ recorded ++ [photo; MessageDelete] ++ fallback ++ rest)%list
        /\ existsb is_edit rest = false).
Proof.
  intros Hm Hdata Hsel Hfound Htitle Hf1 Huser Hf2 Hview Hposter
    watch_url keyboard photo recorded fallback.
  rewrite (movie_select_stores env w callback m token movie_id movie title user)
    by assumption.
  cbv zeta. rewrite Hview, Hposter. fold watch_url. fold keyboard.
  split.
  - intros Hphoto. run. rewrite length_app. cbn [List.length]. rewrite Hphoto.
    cbn [db calls content_type_local record].
    repeat (destruct (fault env _) as [?e|];
            cbn [db calls content_type_local record]);
      eexists _, _, _; (split; [reflexivity|]);
      unfold record, recorded, photo, fallback; cbn [db calls content_type_local];
      rewrite <- ?app_assoc; cbn [List.app]; split; reflexivity.
  - intros Hphoto Hdelete. run. rewrite length_app. cbn [List.length]. rewrite Hphoto.
    cbn [db calls content_type_local record].
    rewrite !length_app. cbn [List.length]. rewrite Hdelete.
    cbn [db calls content_type_local record].
    repeat (destruct (fault env _) as [?e|];
            cbn [db calls content_type_local record]);
      eexists _, _, _; (split; [reflexivity|]);
      unfold record, recorded, photo, fallback; cbn [db calls content_type_local];
      rewrite <- ?app_assoc; cbn [List.app]; split; reflexivity.
Qed.

Lemma get_user_run telegram_id env w found :
  fault env (List.length (calls w)) = None ->
  get_user_by_telegram_id (db w) telegram_id = found ->
  db_get_user_by_telegram_id telegram_id env w
  = (Ok found, record (GetUserByTelegramId telegram_id) w).
Proof.
  intros Hfault Hfound. unfold db_get_user_by_telegram_id, bind, invoke, read_db, ret.
  rewrite Hfault. cbn [db record]. now rewrite Hfound.
Qed.

Lemma api_details_run movie_id env w outcome lines :
  KinopoiskAPI.get_movie_details (details_reply env movie_id) = (outcome, lines) ->
  api_get_movie_details movie_id env w
  = (outcome,
     mkWorld (db w) (calls w ++ GetMovieDetails movie_id :: logged lines)%list
       (content_type_local w)).
Proof.
  intros Hdetails. unfold api_get_movie_details. rewrite Hdetails.
  unfold bind. rewrite log_lines_run. unfold lift, record.
  cbn [db calls content_type_local]. now rewrite <- app_assoc.
Qed.

(** X16. A selection token that handle_movie_select cannot read, because
    it has no second segment (IndexError) or because the segment is not
    an integer (ValueError), is logged and answered with an alert: the
    catalog and the store are not called, the message is not edited, and
    an exception leaves the handler only if the alert itself fails. *)
Theorem unreadable_selection_is_reported env w callback m token e :
  message callback = Some m ->
  data callback = Some token ->
  token <> EmptyString ->
  selected_movie_id token = Raise e ->
  handle_movie_select callback env w
  = (match fault env (S (List.length (calls w))) with
     | Some e' => Raise e'
     | None => Ok tt
     end,
     mkWorld (db w)
       (calls w
        ++ [LoggerError "Ошибка при обработке выбора фильма: " (Some e);
            CallbackAnswer (Some "Произошла ошибка при получении информации о фильме")
              true])%list
       (content_type_local w))
  /\ (e = IndexError \/ e = ValueError)
  /\ (contains "_" token = false -> e = IndexError).
Proof.
  intros Hm Hdata Hne Hsel. split; [|split].
  - unfold handle_movie_select, movie_select_body. rewrite Hm, Hdata.
    destruct token as [|c token]; [contradiction|].
    rewrite (try_bind_raise _ _ _ env w e w) by (unfold lift; now rewrite Hsel).
    run. rewrite length_snoc.
    destruct (fault env _); unfold record; cbn [db calls content_type_local];
      now rewrite <- app_assoc.
  - revert Hsel. unfold selected_movie_id.
    destruct (split "_" token) as [|first [|second rest]]; try (intros [= <-]; now left).
    destruct (int_of_str second); [discriminate | intros [= <-]; now right].
  - intros Hnone. revert Hsel. unfold selected_movie_id.
    rewrite split_without by exact Hnone. now intros [= <-].
Qed.

(** X17. When the catalog does not return the movie (a status other than
    200, a failure of the transport, a record it could not build),
    handle_movie_select answers with the alert that the movie could not be
    fetched; when the sender is not a known user it answers that the user
    was not found.  In both runs nothing is written to the store, and the
    message is not edited. *)
Theorem missing_movie_or_user_is_reported env w callback m token movie_id :
  message callback = Some m ->
  data callback = Some token ->
  selected_movie_id token = Ok movie_id ->
  (forall lines,
     KinopoiskAPI.get_movie_details (details_reply env movie_id) = (Ok None, lines) ->
     exists r w' rest,
       handle_movie_select callback env w = (r, w')
       /\ db w' = db w
       /\ calls w'
          = (calls w
             ++ GetMovieDetails movie_id :: logged lines
             ++ CallbackAnswer (Some "Не удалось получить информацию о фильме") true
                :: rest)%list
       /\ existsb is_store_call rest = false
       /\ existsb is_edit rest = false)
  /\ (forall movie,
        fst (KinopoiskAPI.get_movie_details (details_reply env movie_id))
        = Ok (Some movie) ->
        fault env (S (List.length (calls w))) = None ->
        get_user_by_telegram_id (db w) (tg_id (callback_from_user callback)) = None ->
        exists r w' rest,
          handle_movie_select callback env w = (r, w')
          /\ db w' = db w
          /\ calls w'
             = (calls w
                ++ GetMovieDetails movie_id
                   :: GetUserByTelegramId (tg_id (callback_from_user callback))
                   :: CallbackAnswer (Some "Пользователь не найден") true
                   :: rest)%list
          /\ existsb is_store_call rest = false
          /\ existsb is_edit rest = false).
Proof.
  intros Hm Hdata Hsel.
  pose proof (selected_token_not_empty _ _ Hsel) as Hne.
  split.
  - intros lines Hdetails.
    unfold handle_movie_select, movie_select_body. rewrite Hm, Hdata.
    destruct token as [|c token]; [contradiction|].
    rewrite (try_bind _ _ _ env w movie_id w) by (unfold lift; now rewrite Hsel).
    rewrite (try_bind _ _ _ env w None _ (api_details_run _ _ _ _ _ Hdetails)).
    cbv beta iota. run.
    destruct (fault env _); cbn [db calls content_type_local record];
      [destruct (fault env _)|];
      eexists _, _, _; (split; [reflexivity|]);
      unfold record; cbn [db calls content_type_local];
      rewrite <- ?app_assoc; cbn [List.app]; repeat split; reflexivity.
  - intros movie Hfound Hf1 Huser.
    destruct (KinopoiskAPI.get_movie_details (details_reply env movie_id))
      as [outcome lines] eqn:Hdetails.
    cbn [fst] in Hfound. subst outcome.
    pose proof (details_found_logs_nothing _ _ _ Hdetails) as ->.
    unfold handle_movie_select, movie_select_body. rewrite Hm, Hdata.
    destruct token as [|c token]; [contradiction|].
    rewrite (try_bind _ _ _ env w movie_id w) by (unfold lift; now rewrite Hsel).
    rewrite (try_bind _ _ _ env w (Some movie) _ (api_details_run _ _ _ _ _ Hdetails)).
    cbv beta iota. cbn [logged map].
    set (w1 := mkWorld (db w) (calls w ++ [GetMovieDetails movie_id])%list
                 (content_type_local w)).
    assert (Hlookup : db_get_user_by_telegram_id (tg_id (callback_from_user callback))
                        env w1
                      = (Ok None,
                         record (GetUserByTelegramId
                                   (tg_id (callback_from_user callback))) w1))
      by (apply get_user_run;
          [unfold w1; cbn [calls]; rewrite length_snoc; exact Hf1 | exact Huser]).
    rewrite (try_bind _ _ _ env w1 None _ Hlookup). unfold w1.
    clear Hlookup w1 Hf1. cbv beta iota. run.
    destruct (fault env _); cbn [db calls content_type_local record];
      [destruct (fault env _)|];
      eexists _, _, _; (split; [reflexivity|]);
      unfold record; cbn [db calls content_type_local];
      rewrite <- ?app_assoc; cbn [List.app]; repeat split; reflexivity.
Qed.

(** *** handle_search *)

Lemma create_user_run telegram_id username env w :
  fault env (List.length (calls w)) = None ->
  db_get_or_create_user telegram_id username env w
  = (Ok (fst (get_or_create_user (db w) telegram_id username)),
     mkWorld (snd (get_or_create_user (db w) telegram_id username))
       (calls w ++ [GetOrCreateUser telegram_id username])%list
       (content_type_local w)).
Proof.
  intros Hfault. unfold db_get_or_create_user, bind, invoke, read_db, write_db, ret.
  rewrite Hfault. cbn [db calls content_type_local record].
  now destruct (get_or_create_user (db w) telegram_id username).
Qed.

Lemma api_search_run query env w outcome lines :
  KinopoiskAPI.search_movie (search_reply env query) = (outcome, lines) ->
  api_search_movie (Some query) env w
  = (outcome,
     mkWorld (db w) (calls w ++ SearchMovie (Some query) :: logged lines)%list
       (content_type_local w)).
Proof.
  intros Hsearch. unfold api_search_movie. rewrite Hsearch.
  unfold bind. rewrite log_lines_run. unfold lift, record.
  cbn [db calls content_type_local]. now rewrite <- app_assoc.
Qed.

(** X18. When the store registers the sender and the catalog returns a
    list, handle_search answers once: with the plain text that nothing
    was found when the list is empty, and otherwise with a keyboard of at
    most five buttons, one for each of the first movies in the order of
    the catalog, each carrying the token "movie_" followed by the id of
    its movie.  The sender is a user of the store afterwards. *)
Theorem search_answers_with_choices env w incoming sender query movies lines :
  from_user incoming = Some sender ->
  text incoming = Some query ->
  fault env (List.length (calls w)) = None ->
  KinopoiskAPI.search_movie (search_reply env query) = (Ok movies, lines) ->
  let keyboard := map search_button (firstn 5 movies) in
  let answer :=
    match movies with
    | [] => MessageAnswer "По вашему запросу ничего не найдено 😔" None
    | _ => MessageAnswer "Выберите фильм из списка:" (Some keyboard)
    end in
  exists r w',
    handle_search incoming env w = (r, w')
    /\ calls w'
       = (calls w
          ++ GetOrCreateUser (tg_id sender) (tg_username sender)
             :: SearchMovie (Some query) :: logged lines ++ [answer])%list
    /\ get_user_by_telegram_id (db w') (tg_id sender) <> None
    /\ List.length keyboard = Nat.min 5 (List.length movies)
    /\ forall i movie,
        (i < 5)%nat ->
        nth_error movies i = Some movie ->
        exists button,
          nth_error keyboard i = Some button
          /\ callback_data button = Some ("movie_" ++ py_str (MovieInfo.id movie)).
Proof.
  intros Hfrom Htext Hfault Hsearch keyboard answer.
  assert (Hrun : exists r w',
             handle_search incoming env w = (r, w')
             /\ calls w'
                = (calls w
                   ++ GetOrCreateUser (tg_id sender) (tg_username sender)
                      :: SearchMovie (Some query) :: logged lines ++ [answer])%list
             /\ db w' = snd (get_or_create_user (db w) (tg_id sender) (tg_username sender))).
  { unfold handle_search. rewrite Hfrom, Htext. cbn [_get_or_create_user].
    rewrite (bind_ok _ _ env w _ _ (create_user_run _ _ env w Hfault)).
    rewrite (bind_ok _ _ env _ _ _ (api_search_run query env _ _ _ Hsearch)).
    cbn [db calls content_type_local].
    unfold answer, keyboard. destruct movies as [|movie rest];
      unfold message_answer, invoke; case_fault;
      eexists _, _; (split; [reflexivity|]);
      unfold record; cbn [db calls content_type_local];
      rewrite <- ?app_assoc; cbn [List.app]; rewrite <- ?app_assoc; split; reflexivity. }
  destruct Hrun as (r & w' & Hrun & Hcalls & Hdb).
  exists r, w'. split; [exact Hrun|]. split; [exact Hcalls|]. split; [|split].
  - rewrite Hdb. unfold get_or_create_user.
    destruct (get_user_by_telegram_id (db w) (tg_id sender)) as [user|] eqn:Hknown;
      cbn [snd]; [now rewrite Hknown|].
    unfold get_user_by_telegram_id in *. cbn [users]. rewrite find_snoc, Hknown.
    cbn [User.telegram_id]. now rewrite Z.eqb_refl.
  - unfold keyboard. now rewrite length_map, length_firstn.
  - intros i movie Hi Hnth. exists (search_button movie). split; [|reflexivity].
    unfold keyboard. rewrite nth_error_map, nth_error_firstn.
    destruct (Nat.ltb_spec i 5); [|lia]. now rewrite Hnth.
Qed.

(** *** cmd_history and cmd_stats *)

Lemma get_history_run user_id page env w fetched :
  fault env (List.length (calls w)) = None ->
  get_user_history (db w) user_id page 5 = fetched ->
  db_get_user_history user_id page env w
  = (fetched, record (GetUserHistory user_id page) w).
Proof.
  intros Hfault <-. unfold db_get_user_history, bind, invoke, read_db, lift.
  now rewrite Hfault.
Qed.

Lemma get_stats_run user_id page env w fetched :
  fault env (List.length (calls w)) = None ->
  get_user_stats (db w) user_id page 5 = fetched ->
  db_get_user_stats user_id page env w
  = (fetched, record (GetUserStats user_id page) w).
Proof.
  intros Hfault <-. unfold db_get_user_stats, bind, invoke, read_db, lift.
  now rewrite Hfault.
Qed.

Lemma first_page_keyboard (content_type : string) (count total : Z) :
  (0 <= count)%Z ->
  total_pages count 5 = Ok total ->
  _get_pagination_keyboard content_type 1 total
  = if (5 <? count)%Z
    then [mkButton "Вперед ▶️" (Some (pagination_token content_type "next" 1)) None]
    else [].
Proof.
  intros Hcount. unfold total_pages. cbn [Z.eqb]. intros [= <-].
  rewrite keyboard_tokens. cbn [Z.ltb Z.compare List.app].
  pose proof (Z.div_mod (count + 5 - 1) 5 ltac:(lia)) as Hdiv.
  pose proof (Z.mod_pos_bound (count + 5 - 1) 5 ltac:(lia)) as Hmod.
  destruct (Z.ltb_spec 1 (Z.max 1 ((count + 5 - 1) / 5)));
    destruct (Z.ltb_spec 5 count); try reflexivity; lia.
Qed.

(** X19. cmd_history and cmd_stats register the sender and answer with
    page 1 of the content: the keyboard never has a button back, and it
    has the button forward, with the token of page 1, exactly when the
    user has more than five history rows (for the statistics: more than
    five distinct movies). *)
Theorem first_page_is_answered env w incoming sender :
  from_user incoming = Some sender ->
  fault env (List.length (calls w)) = None ->
  fault env (S (List.length (calls w))) = None ->
  let user := fst (get_or_create_user (db w) (tg_id sender) (tg_username sender)) in
  let store := snd (get_or_create_user (db w) (tg_id sender) (tg_username sender)) in
  let registered := GetOrCreateUser (tg_id sender) (tg_username sender) in
  let forward kind :=
    [mkButton "Вперед ▶️" (Some (pagination_token kind "next" 1)) None] in
  (exists r w' content total,
      cmd_history incoming env w = (r, w')
      /\ db w' = store
      /\ get_user_history store (User.id user) 1 5 = Ok (content, total)
      /\ calls w'
         = (calls w
            ++ [registered; GetUserHistory (User.id user) 1;
                MessageAnswer (_format_history_message content 1 total)
                  (Some (if (5 <? Z.of_nat (List.length (rows_of_user store (User.id user))))%Z
                         then forward "history" else []))])%list)
  /\ (exists r w' content total,
        cmd_stats incoming env w = (r, w')
        /\ db w' = store
        /\ get_user_stats store (User.id user) 1 5 = Ok (content, total)
        /\ calls w'
           = (calls w
              ++ [registered; GetUserStats (User.id user) 1;
                  MessageAnswer (_format_stats_message content 1 total)
                    (Some (if (5 <? Z.of_nat (List.length (subquery store (User.id user))))%Z
                           then forward "stats" else []))])%list).
Proof.
  intros Hfrom Hf0 Hf1 user store registered forward.
  split.
  - unfold cmd_history. rewrite Hfrom. cbn [_get_or_create_user].
    rewrite (bind_ok _ _ env w _ _ (create_user_run _ _ env w Hf0)).
    fold user. fold store. unfold _show_paginated_content.
    cbn [String.eqb Ascii.eqb Bool.eqb].
    destruct (get_user_history store (User.id user) 1 5) as [[content total]|e] eqn:Hfetch.
    2:{ destruct (get_user_history_returns store (User.id user) 1)
          as (content & total & Hreturns). congruence. }
    assert (Hkeyboard : _get_pagination_keyboard "history" 1 total
                        = if (5 <? Z.of_nat (List.length (rows_of_user store (User.id user))))%Z
                          then forward "history" else []).
    { apply first_page_keyboard; [lia|].
      revert Hfetch. unfold get_user_history.
      destruct (total_pages _ 5) as [pages|e]; cbn [rbind]; [|discriminate].
      now intros [= _ <-]. }
    match goal with
    | |- context [bind (db_get_user_history ?u ?p) _ env ?w1] =>
        rewrite (bind_ok _ _ env w1 (content, total) _
                   (get_history_run u p env w1 _
                      ltac:(cbn [calls]; rewrite length_snoc; exact Hf1) Hfetch))
    end.
    unfold message_answer, invoke. clear Hf0 Hf1. case_fault;
      eexists _, _, content, total; (split; [reflexivity|]);
      unfold record; cbn [db calls content_type_local];
      rewrite <- ?app_assoc, Hkeyboard; repeat split; reflexivity.
  - unfold cmd_stats. rewrite Hfrom. cbn [_get_or_create_user].
    rewrite (bind_ok _ _ env w _ _ (create_user_run _ _ env w Hf0)).
    fold user. fold store. unfold _show_paginated_content.
    cbn [String.eqb Ascii.eqb Bool.eqb].
    destruct (get_user_stats store (User.id user) 1 5) as [[content total]|e] eqn:Hfetch.
    2:{ destruct (get_user_stats_returns store (User.id user) 1)
          as (content & total & Hreturns). congruence. }
    assert (Hkeyboard : _get_pagination_keyboard "stats" 1 total
                        = if (5 <? Z.of_nat (List.length (subquery store (User.id user))))%Z
                          then forward "stats" else []).
    { apply first_page_keyboard; [lia|].
      revert Hfetch. unfold get_user_stats.
      destruct (total_pages _ 5) as [pages|e]; cbn [rbind]; [|discriminate].
      now intros [= _ <-]. }
    match goal with
    | |- context [bind (db_get_user_stats ?u ?p) _ env ?w1] =>
        rewrite (bind_ok _ _ env w1 (content, total) _
                   (get_stats_run u p env w1 _
                      ltac:(cbn [calls]; rewrite length_snoc; exact Hf1) Hfetch))
    end.
    unfold message_answer, invoke. clear Hf0 Hf1. case_fault;
      eexists _, _, content, total; (split; [reflexivity|]);
      unfold record; cbn [db calls content_type_local];
      rewrite <- ?app_assoc, Hkeyboard; repeat split; reflexivity.
Qed.

(** *** From a rendered button to the next page *)

Lemma show_page_calm env w content_type text new_page total :
  (forall k, fault env k = None) ->
  try_except (show_page false text content_type new_page total) pagination_except env w
  = (Ok tt,
     mkWorld (db w)
       (calls w
        ++ [MessageEditText text (_get_pagination_keyboard content_type new_page total);
            CallbackAnswer None false])%list
       (content_type_local w)).
Proof.
  intros Hcalm. unfold show_page. cbn [andb]. run. rewrite !Hcalm.
  unfold record. cbn [db calls content_type_local].
  now rewrite <- app_assoc.
Qed.

Lemma pressed_button (content_type : string) (shown_page total : Z) (button : Button) :
  contains "_" content_type = false ->
  In button (_get_pagination_keyboard content_type shown_page total) ->
  let new_page := if is_next button then (shown_page + 1)%Z else (shown_page - 1)%Z in
  exists action,
    callback_data button = Some (pagination_token content_type action shown_page)
    /\ decode_pagination (pagination_token content_type action shown_page)
       = Token content_type action shown_page
    /\ new_page_of action shown_page = new_page
    /\ ((1 <= shown_page <= total)%Z -> (1 <= new_page <= total)%Z /\ (1 < total)%Z).
Proof.
  intros Hkind Hin. rewrite keyboard_tokens in Hin. apply in_app_or in Hin.
  destruct Hin as [Hin|Hin].
  - destruct (Z.ltb_spec 1 shown_page); [|contradiction]. destruct Hin as [<-|[]].
    exists "prev". split; [reflexivity|].
    split; [now apply decode_pagination_token|]. split; [reflexivity|].
    cbn. lia.
  - destruct (Z.ltb_spec shown_page total); [|contradiction]. destruct Hin as [<-|[]].
    exists "next". split; [reflexivity|].
    split; [now apply decode_pagination_token|]. split; [reflexivity|].
    cbn. lia.
Qed.

Lemma several_pages_not_empty {A} (l : list A) :
  (1 < Z.max 1 ((Z.of_nat (List.length l) + 5 - 1) / 5))%Z -> l <> [].
Proof. intros Hpages ->. cbn in Hpages. lia. Qed.

(** X20. Without failing calls, pressing a button of the keyboard shown
    under page p of the history or of the statistics (p between 1 and
    total_pages) makes handle_pagination edit the message into the page
    before p for the button back and the page after p for the button
    forward: that page is again between 1 and total_pages, it is not
    empty, and it comes with the keyboard of its own position. *)
Theorem pressed_button_turns_the_page env w callback m user shown_page total button :
  message callback = Some m ->
  get_user_by_telegram_id (db w) (tg_id (callback_from_user callback)) = Some user ->
  (forall k, fault env k = None) ->
  (1 <= shown_page <= total)%Z ->
  data callback = callback_data button ->
  let new_page := if is_next button then (shown_page + 1)%Z else (shown_page - 1)%Z in
  let asked := GetUserByTelegramId (tg_id (callback_from_user callback)) in
  (forall shown,
     get_user_history (db w) (User.id user) shown_page 5 = Ok (shown, total) ->
     In button (_get_pagination_keyboard "history" shown_page total) ->
     exists content,
       get_user_history (db w) (User.id user) new_page 5 = Ok (content, total)
       /\ content <> []
       /\ (1 <= new_page <= total)%Z
       /\ handle_pagination callback env w
          = (Ok tt,
             mkWorld (db w)
               (calls w
                ++ [asked; GetUserHistory (User.id user) new_page;
                    MessageEditText (_format_history_message content new_page total)
                      (_get_pagination_keyboard "history" new_page total);
                    CallbackAnswer None false])%list
               (Some "history")))
  /\ (forall shown,
        get_user_stats (db w) (User.id user) shown_page 5 = Ok (shown, total) ->
        In button (_get_pagination_keyboard "stats" shown_page total) ->
        exists content,
          get_user_stats (db w) (User.id user) new_page 5 = Ok (content, total)
          /\ content <> []
          /\ (1 <= new_page <= total)%Z
          /\ handle_pagination callback env w
             = (Ok tt,
                mkWorld (db w)
                  (calls w
                   ++ [asked; GetUserStats (User.id user) new_page;
                       MessageEditText (_format_stats_message content new_page total)
                         (_get_pagination_keyboard "stats" new_page total);
                       CallbackAnswer None false])%list
                  (Some "stats"))).
Proof.
  intros Hm Huser Hcalm Hpage Hdata new_page asked. split.
  - intros shown Hshown Hin.
    destruct (pressed_button "history" shown_page total button eq_refl Hin)
      as (action & Htoken & Hdecode & Hnew & Hrange).
    fold new_page in Hnew, Hrange. destruct (Hrange Hpage) as [Hnew_range Hseveral].
    assert (Htotal : total
                     = Z.max 1 ((Z.of_nat (List.length
                                   (order_by newer (rows_of_user (db w) (User.id user))))
                                 + 5 - 1) / 5)).
    { revert Hshown. unfold get_user_history, total_pages. cbn [Z.eqb rbind].
      rewrite newest_first_length. now intros [= _ <-]. }
    set (content := offset_limit ((new_page - 1) * 5) 5
                      (order_by newer (rows_of_user (db w) (User.id user)))).
    assert (Hfetch : get_user_history (db w) (User.id user) new_page 5
                     = Ok (content, total)).
    { unfold get_user_history, total_pages. cbn [Z.eqb rbind].
      rewrite Htotal, newest_first_length. reflexivity. }
    assert (Hcontent : content <> []).
    { apply window_in_range; [lia | | now rewrite <- Htotal].
      apply several_pages_not_empty. now rewrite <- Htotal. }
    exists content. split; [exact Hfetch|]. split; [exact Hcontent|].
    split; [exact Hnew_range|].
    rewrite (pagination_history_fetch env w callback m action shown_page user Hm)
      by (try exact Huser; try apply Hcalm;
          unfold data_or_empty; now rewrite Hdata, Htoken).
    cbv zeta. rewrite Hcalm, Hnew, Hfetch.
    replace (is_empty content) with false by (now destruct content).
    rewrite show_page_calm by exact Hcalm.
    cbn [db calls content_type_local]. rewrite <- app_assoc. reflexivity.
  - intros shown Hshown Hin.
    destruct (pressed_button "stats" shown_page total button eq_refl Hin)
      as (action & Htoken & Hdecode & Hnew & Hrange).
    fold new_page in Hnew, Hrange. destruct (Hrange Hpage) as [Hnew_range Hseveral].
    assert (Htotal : total
                     = Z.max 1 ((Z.of_nat (List.length
                                   (order_by more_searched (subquery (db w) (User.id user))))
                                 + 5 - 1) / 5)).
    { revert Hshown. unfold get_user_stats, total_pages. cbn [Z.eqb rbind].
      rewrite most_searched_length. now intros [= _ <-]. }
    set (groups := offset_limit ((new_page - 1) * 5) 5
                     (order_by more_searched (subquery (db w) (User.id user)))).
    assert (Hfetch : get_user_stats (db w) (User.id user) new_page 5
                     = Ok (map stat_of_row groups, total)).
    { unfold get_user_stats, total_pages. cbn [Z.eqb rbind].
      rewrite Htotal, most_searched_length. reflexivity. }
    assert (Hgroups : groups <> []).
    { apply window_in_range; [lia | | now rewrite <- Htotal].
      apply several_pages_not_empty. now rewrite <- Htotal. }
    exists (map stat_of_row groups). split; [exact Hfetch|].
    split; [now destruct groups|]. split; [exact Hnew_range|].
    rewrite (pagination_stats_fetch env w callback m action shown_page user Hm)
      by (try exact Huser; try apply Hcalm;
          unfold data_or_empty; now rewrite Hdata, Htoken).
    cbv zeta. rewrite Hcalm, Hnew, Hfetch.
    replace (is_empty (map stat_of_row groups)) with false by (now destruct groups).
    rewrite show_page_calm by exact Hcalm.
    cbn [db calls content_type_local]. rewrite <- app_assoc. reflexivity.
Qed.

End Router.

Lemma selection_is_recorded_witness :
  db (snd (handle_movie_select (runtime := Samples.runtime) (Samples.press "movie_301")
             Samples.calm (Samples.world Samples.store_twelve)))
  = snd (add_search_history Samples.store_twelve 0 1 "Выберите фильм из списка:" "301"
           "Матрица" (Some "https://www.sspoisk.ru/film/301/") (Some 8.5%Q)).
Proof.
  exact (selection_is_recorded (runtime := Samples.runtime) Samples.calm
           (Samples.world Samples.store_twelve) (Samples.press "movie_301")
           Samples.list_message "movie_301" 301 _ "Матрица"
           (User.mk 1 1001 (Some "alice"))
           eq_refl eq_refl eq_refl eq_refl eq_refl eq_refl eq_refl eq_refl).
Defined.

Lemma poster_failure_falls_back_witness :
  exists r w',
    handle_movie_select (runtime := Samples.runtime) (Samples.press "movie_326")
      (Samples.poster_failing_at 3 (OtherError "TelegramBadRequest"))
      (Samples.world Samples.store_twelve) = (r, w')
    /\ map is_edit (calls w') = [false; false; false; false; false; true; false].
Proof.
  destruct (proj1
              (poster_failure_falls_back (runtime := Samples.runtime)
                 (Samples.poster_failing_at 3 (OtherError "TelegramBadRequest"))
                 (Samples.world Samples.store_twelve) (Samples.press "movie_326")
                 Samples.list_message "movie_326" 326 _ "Побег из Шоушенка"
                 (User.mk 1 1001 (Some "alice")) _ (OtherError "TelegramBadRequest")
                 eq_refl eq_refl eq_refl eq_refl eq_refl eq_refl eq_refl eq_refl
                 eq_refl eq_refl) eq_refl)
    as (r & w' & rest & Hrun & _).
  exists r, w'. split; [exact Hrun|].
  vm_compute in Hrun. injection Hrun as _ <-. reflexivity.
Defined.

Lemma unreadable_selection_is_reported_witness :
  handle_movie_select (runtime := Samples.runtime) (Samples.press "movie_abc")
    Samples.calm (Samples.world Samples.store_twelve)
  = (Ok tt,
     mkWorld Samples.store_twelve
       [LoggerError "Ошибка при обработке выбора фильма: " (Some ValueError);
        CallbackAnswer (Some "Произошла ошибка при получении информации о фильме") true]
       None).
Proof.
  exact (proj1
           (unreadable_selection_is_reported (runtime := Samples.runtime) Samples.calm
              (Samples.world Samples.store_twelve) (Samples.press "movie_abc")
              Samples.list_message "movie_abc" ValueError eq_refl eq_refl
              ltac:(discriminate) eq_refl)).
Defined.

Lemma missing_movie_or_user_is_reported_witness :
  exists r w' rest,
    handle_movie_select (runtime := Samples.runtime) (Samples.press "movie_301")
      Samples.catalog_down (Samples.world Samples.store_twelve) = (r, w')
    /\ db w' = Samples.store_twelve
    /\ calls w'
       = ([] ++ GetMovieDetails 301 :: logged ["Ошибка API Кинопоиска"]
          ++ CallbackAnswer (Some "Не удалось получить информацию о фильме") true
             :: rest)%list
    /\ existsb is_store_call rest = false
    /\ existsb is_edit rest = false.
Proof.
  exact (proj1
           (missing_movie_or_user_is_reported (runtime := Samples.runtime)
              Samples.catalog_down (Samples.world Samples.store_twelve)
              (Samples.press "movie_301") Samples.list_message "movie_301" 301
              eq_refl eq_refl eq_refl)
           ["Ошибка API Кинопоиска"] eq_refl).
Defined.

Lemma search_answers_with_choices_witness :
  exists r w',
    handle_search (runtime := Samples.runtime) (Samples.typed "матрица") Samples.calm
      (Samples.world (mkStore [] [])) = (r, w')
    /\ get_user_by_telegram_id (db w') 1001 <> None.
Proof.
  destruct (search_answers_with_choices (runtime := Samples.runtime) Samples.calm
              (Samples.world (mkStore [] [])) (Samples.typed "матрица") Samples.alice
              "матрица" _ _ eq_refl eq_refl eq_refl eq_refl)
    as (r & w' & Hrun & _ & Huser & _).
  exists r, w'. split; [exact Hrun | exact Huser].
Defined.

Lemma first_page_is_answered_witness :
  exists r w' content total,
    cmd_history (runtime := Samples.runtime) (Samples.typed "/history") Samples.calm
      (Samples.world Samples.store_twelve) = (r, w')
    /\ db w' = Samples.store_twelve
    /\ get_user_history Samples.store_twelve 1 1 5 = Ok (content, total).
Proof.
  destruct (proj1
              (first_page_is_answered (runtime := Samples.runtime) Samples.calm
                 (Samples.world Samples.store_twelve) (Samples.typed "/history")
                 Samples.alice eq_refl eq_refl eq_refl))
    as (r & w' & content & total & Hrun & Hdb & Hfetch & _).
  exists r, w', content, total. split; [exact Hrun|]. split; [exact Hdb | exact Hfetch].
Defined.

Lemma pressed_button_turns_the_page_witness :
  exists content,
    get_user_history Samples.store_twelve 1 2 5 = Ok (content, 3%Z)
    /\ content <> [].
Proof.
  destruct (proj1
              (pressed_button_turns_the_page (runtime := Samples.runtime) Samples.calm
                 (Samples.world Samples.store_twelve)
                 (Samples.press "pagination_history_next_1") Samples.list_message
                 (User.mk 1 1001 (Some "alice")) 1 3
                 (mkButton "Вперед ▶️" (Some "pagination_history_next_1") None)
                 eq_refl eq_refl (fun _ => eq_refl) ltac:(lia) eq_refl)
              _ eq_refl (or_introl eq_refl))
    as (content & Hfetch & Hcontent & _).
  exists content. split; [exact Hfetch | exact Hcontent].
Defined.

End RouterExtras.

(* ================================================================= *)
(** ** More on the catalog client *)

Module CatalogExtras.
Import Py KinopoiskAPI CatalogFacts.

#[local] Open Scope string_scope.

Section Catalog.
Context {runtime : Runtime}.

Lemma rbind_inv {A B} (r : result A) (k : A -> result B) (b : B) :
  rbind r k = Ok b -> exists a, r = Ok a /\ k a = Ok b.
Proof. destruct r as [a|e]; cbn [rbind]; [eauto | discriminate]. Qed.

Lemma collect_all (docs : list value) (movies : list MovieInfo.t) (log : list string) :
  (forall film e, In film docs -> movie_info film = Raise e -> e = KeyError \/ e = ValueError) ->
  collect docs movies log
  = (Ok (movies
         ++ flat_map (fun film => match movie_info film with
                                  | Ok movie => [movie]
                                  | Raise _ => []
                                  end) docs)%list,
     (log
      ++ flat_map (fun film => match movie_info film with
                               | Ok _ => []
                               | Raise _ => ["Ошибка при обработке фильма"]
                               end) docs)%list).
Proof.
  revert movies log. induction docs as [|film docs IH]; intros movies log Hskip.
  - cbn [collect flat_map]. now rewrite !app_nil_r.
  - cbn [collect flat_map].
    destruct (movie_info film) as [movie|e] eqn:Hfilm.
    + rewrite IH by (intros f e Hin; apply Hskip; now right).
      cbn [List.app]. now rewrite <- app_assoc.
    + destruct (Hskip film e (or_introl eq_refl) Hfilm) as [-> | ->];
        cbn [exn_eqb orb];
        (rewrite IH by (intros f e Hin; apply Hskip; now right));
        cbn [List.app]; now rewrite <- app_assoc.
Qed.

(** X21. On a reply with status 200 whose body lists the records under
    "docs", when every record that cannot be built fails with KeyError or
    ValueError, search_movie returns exactly the records that can be
    built, in the order of the reply, and logs one line for each record
    it skipped.  A body without "docs" gives the empty list and logs
    nothing. *)
Theorem search_returns_what_builds (entries : list (string * value)) (docs : list value) :
  (lookup "docs" entries = None ->
   search_movie (Response 200 (Ok (PDict entries))) = (Ok [], []))
  /\ (lookup "docs" entries = Some (PList docs) ->
      (forall film e,
         In film docs -> movie_info film = Raise e -> e = KeyError \/ e = ValueError) ->
      search_movie (Response 200 (Ok (PDict entries)))
      = (Ok (flat_map (fun film => match movie_info film with
                                   | Ok movie => [movie]
                                   | Raise _ => []
                                   end) docs),
         flat_map (fun film => match movie_info film with
                               | Ok _ => []
                               | Raise _ => ["Ошибка при обработке фильма"]
                               end) docs)).
Proof.
  split.
  - intros Hdocs. unfold search_movie, get. cbn [Z.eqb negb]. now rewrite Hdocs.
  - intros Hdocs Hskip. unfold search_movie, get. cbn [Z.eqb negb]. rewrite Hdocs.
    cbn [rbind iterate]. now rewrite (collect_all docs [] [] Hskip).
Qed.

(** X22. A record without "id" or without "name" cannot be built: the
    construction raises KeyError, get_movie_details logs it and returns
    None. *)
Theorem record_needs_id_and_name (entries : list (string * value)) :
  lookup "id" entries = None \/ lookup "name" entries = None ->
  movie_info (PDict entries) = Raise KeyError
  /\ get_movie_details (Response 200 (Ok (PDict entries)))
     = (Ok None, ["Ошибка при обработке деталей фильма"]).
Proof.
  intros Hmissing.
  assert (Hinfo : movie_info (PDict entries) = Raise KeyError).
  { unfold movie_info, getitem.
    destruct (lookup "id" entries) as [id|] eqn:Hid; [|reflexivity].
    destruct Hmissing as [Hno|Hno]; [discriminate|]. cbn [rbind]. now rewrite Hno. }
  split; [exact Hinfo|].
  unfold get_movie_details. cbn [Z.eqb negb]. now rewrite Hinfo.
Qed.

(** X23. A record that is built has the id and the name of the reply,
    and the defaults of the optional keys that are missing: type "movie",
    0 votes, no rating, no poster, no genres and no countries.  A rating
    whose "kp" is zero, null or missing is no rating either. *)
Theorem built_record_has_defaults (entries : list (string * value)) (movie : MovieInfo.t) :
  movie_info (PDict entries) = Ok movie ->
  lookup "id" entries = Some (MovieInfo.id movie)
  /\ lookup "name" entries = Some (MovieInfo.title movie)
  /\ (lookup "type" entries = None -> MovieInfo.type movie = PStr "movie")
  /\ (lookup "votes" entries = None ->
      MovieInfo.votes_kp movie = PInt 0 /\ MovieInfo.votes_imdb movie = PInt 0)
  /\ (lookup "poster" entries = None -> MovieInfo.poster_url movie = PNone)
  /\ (lookup "genres" entries = None -> MovieInfo.genres movie = [])
  /\ (lookup "countries" entries = None -> MovieInfo.countries movie = [])
  /\ (lookup "rating" entries = None -> MovieInfo.rating movie = None)
  /\ (forall scores,
        lookup "rating" entries = Some (PDict scores) ->
        match lookup "kp" scores with
        | Some kp => truthy kp = false
        | None => True
        end ->
        MovieInfo.rating movie = None).
Proof.
  unfold movie_info. intros Hbuilt.
  apply rbind_inv in Hbuilt. destruct Hbuilt as (id & Hid & Hbuilt).
  apply rbind_inv in Hbuilt. destruct Hbuilt as (title & Htitle & Hbuilt).
  apply rbind_inv in Hbuilt. destruct Hbuilt as (original_title & _ & Hbuilt).
  apply rbind_inv in Hbuilt. destruct Hbuilt as (year & _ & Hbuilt).
  apply rbind_inv in Hbuilt. destruct Hbuilt as (rating & Hrating & Hbuilt).
  apply rbind_inv in Hbuilt. destruct Hbuilt as (poster_url & Hposter & Hbuilt).
  apply rbind_inv in Hbuilt. destruct Hbuilt as (description & _ & Hbuilt).
  apply rbind_inv in Hbuilt. destruct Hbuilt as (short_description & _ & Hbuilt).
  apply rbind_inv in Hbuilt. destruct Hbuilt as (genres & Hgenres & Hbuilt).
  apply rbind_inv in Hbuilt. destruct Hbuilt as (countries & Hcountries & Hbuilt).
  apply rbind_inv in Hbuilt. destruct Hbuilt as (movie_length & _ & Hbuilt).
  apply rbind_inv in Hbuilt. destruct Hbuilt as (age_rating & _ & Hbuilt).
  apply rbind_inv in Hbuilt. destruct Hbuilt as (type & Htype & Hbuilt).
  apply rbind_inv in Hbuilt. destruct Hbuilt as (votes_kp & Hkp & Hbuilt).
  apply rbind_inv in Hbuilt. destruct Hbuilt as (votes_imdb & Himdb & Hbuilt).
  apply rbind_inv in Hbuilt. destruct Hbuilt as (external_id_imdb & _ & Hbuilt).
  injection Hbuilt as <-. cbn [MovieInfo.id MovieInfo.title MovieInfo.type
    MovieInfo.votes_kp MovieInfo.votes_imdb MovieInfo.poster_url MovieInfo.genres
    MovieInfo.countries MovieInfo.rating].
  unfold getitem, get, nested_or, names, get in *.
  split; [|split; [|split; [|split; [|split; [|split; [|split; [|split]]]]]]].
  - destruct (lookup "id" entries); [congruence | discriminate].
  - destruct (lookup "name" entries); [congruence | discriminate].
  - intros Hnone. rewrite Hnone in Htype. congruence.
  - intros Hnone. rewrite Hnone in Hkp, Himdb. cbn in Hkp, Himdb.
    split; congruence.
  - intros Hnone. rewrite Hnone in Hposter. cbn in Hposter. congruence.
  - intros Hnone. rewrite Hnone in Hgenres. cbn in Hgenres. congruence.
  - intros Hnone. rewrite Hnone in Hcountries. cbn in Hcountries. congruence.
  - intros Hnone. rewrite Hnone in Hrating. cbn in Hrating. congruence.
  - intros scores Hscores Hkp0. rewrite Hscores in Hrating. cbn [rbind] in Hrating.
    destruct (lookup "kp" scores) as [kp|]; cbn [rbind] in Hrating.
    + rewrite Hkp0 in Hrating. congruence.
    + cbn [truthy] in Hrating. congruence.
Qed.

End Catalog.

Lemma search_returns_what_builds_witness :
  search_movie (runtime := Samples.runtime) (Response 200 (Ok Samples.docs_with_missing_id))
  = (Ok (flat_map (fun film => match movie_info (runtime := Samples.runtime) film with
                               | Ok movie => [movie]
                               | Raise _ => []
                               end)
           [PDict [("id", PInt 301); ("name", PStr "Матрица")];
            PDict [("name", PStr "Без номера")];
            PDict [("id", PInt 326); ("name", PStr "Побег из Шоушенка")]]),
     ["Ошибка при обработке фильма"]).
Proof.
  refine (proj2 (search_returns_what_builds (runtime := Samples.runtime)
                   [("docs",
                     PList [PDict [("id", PInt 301); ("name", PStr "Матрица")];
                            PDict [("name", PStr "Без номера")];
                            PDict [("id", PInt 326); ("name", PStr "Побег из Шоушенка")]])]
                   [PDict [("id", PInt 301); ("name", PStr "Матрица")];
                    PDict [("name", PStr "Без номера")];
                    PDict [("id", PInt 326); ("name", PStr "Побег из Шоушенка")]])
            eq_refl _).
  intros film e [<-|[<-|[<-|[]]]]; vm_compute; intros [= <-]; now left.
Defined.

Lemma record_needs_id_and_name_witness :
  get_movie_details (runtime := Samples.runtime)
    (Response 200 (Ok (PDict [("name", PStr "Без номера")])))
  = (Ok None, ["Ошибка при обработке деталей фильма"]).
Proof.
  exact (proj2 (record_needs_id_and_name (runtime := Samples.runtime)
                  [("name", PStr "Без номера")] (or_introl eq_refl))).
Defined.

Lemma built_record_has_defaults_witness :
  lookup "id" [("id", PInt 301); ("name", PStr "Матрица")] = Some (PInt 301)
  /\ lookup "name" [("id", PInt 301); ("name", PStr "Матрица")] = Some (PStr "Матрица").
Proof.
  destruct (built_record_has_defaults (runtime := Samples.runtime)
              [("id", PInt 301); ("name", PStr "Матрица")] _ eq_refl)
    as (Hid & Hname & _).
  split; [exact Hid | exact Hname].
Defined.

End CatalogExtras.

(* ================================================================= *)
(** ** The text loader, the first commands and edge inputs *)

Module EdgeExtras.
Import Py Database Bot PyFacts DatabaseFacts RouterFacts StoreExtras.

#[local] Open Scope string_scope.

(** *** get_text *)

Lemma cached_store_same (text_key text : string) (cache : TextLoader.Cache) :
  TextLoader.cached text_key (TextLoader.store text_key text cache) = Some text.
Proof.
  induction cache as [|[k old] cache IH]; cbn [TextLoader.store TextLoader.cached].
  - now rewrite String.eqb_refl.
  - destruct (String.eqb k text_key) eqn:Hk; cbn [TextLoader.cached]; now rewrite Hk.
Qed.

Lemma cached_store_other (text_key other text : string) (cache : TextLoader.Cache) :
  other <> text_key ->
  TextLoader.cached other (TextLoader.store text_key text cache)
  = TextLoader.cached other cache.
Proof.
  intros Hother.
  induction cache as [|[k old] cache IH]; cbn [TextLoader.store TextLoader.cached].
  - destruct (String.eqb_spec text_key other); [congruence | reflexivity].
  - destruct (String.eqb_spec k text_key) as [->|Hk]; cbn [TextLoader.cached].
    + destruct (String.eqb_spec text_key other); [congruence | reflexivity].
    + now rewrite IH.
Qed.

(** X24. get_text caches what it loads and nothing else.  A text read
    from its file is returned stripped and from then on served from the
    cache, whatever the files hold later and whatever directory is asked
    for; the texts cached under other keys are untouched.  When the file
    is missing the placeholder is returned and not cached, so that the
    file is read once it exists. *)
Theorem get_text_caches_what_it_loads
    (strip : string -> string) (files : string -> TextLoader.Read)
    (cache : TextLoader.Cache) (text_key texts_dir : string) :
  TextLoader.cached text_key cache = None ->
  let path := TextLoader.path_join texts_dir (text_key ++ ".txt") in
  (forall raw,
     files path = TextLoader.Content raw ->
     exists cache',
       TextLoader.get_text strip files cache text_key texts_dir = (Ok (strip raw), cache')
       /\ (forall strip' files' texts_dir',
             TextLoader.get_text strip' files' cache' text_key texts_dir'
             = (Ok (strip raw), cache'))
       /\ (forall other,
             other <> text_key ->
             TextLoader.cached other cache' = TextLoader.cached other cache))
  /\ (files path = TextLoader.FileNotFound ->
      TextLoader.get_text strip files cache text_key texts_dir
      = (Ok ("Текст не найден: " ++ text_key), cache)
      /\ forall strip' files' raw,
          files' path = TextLoader.Content raw ->
          fst (TextLoader.get_text strip' files' cache text_key texts_dir)
          = Ok (strip' raw)).
Proof.
  intros Hcached path. split.
  - intros raw Hfile. exists (TextLoader.store text_key (strip raw) cache).
    split; [|split].
    + unfold TextLoader.get_text. fold path. now rewrite Hcached, Hfile.
    + intros strip' files' texts_dir'. unfold TextLoader.get_text.
      now rewrite cached_store_same.
    + intros other Hother. now apply cached_store_other.
  - intros Hfile. split.
    + unfold TextLoader.get_text. fold path. now rewrite Hcached, Hfile.
    + intros strip' files' raw Hfile'. unfold TextLoader.get_text. fold path.
      now rewrite Hcached, Hfile'.
Qed.

Lemma get_text_caches_what_it_loads_witness :
  exists cache',
    TextLoader.get_text (fun s => s) (fun _ => TextLoader.Content "Привет!") []
      "start" TextLoader.default_texts_dir
    = (Ok "Привет!", cache')
    /\ (forall strip' files' texts_dir',
          TextLoader.get_text strip' files' cache' "start" texts_dir'
          = (Ok "Привет!", cache'))
    /\ (forall other,
          other <> "start" -> TextLoader.cached other cache' = TextLoader.cached other []).
Proof.
  exact (proj1 (get_text_caches_what_it_loads (fun s => s)
                  (fun _ => TextLoader.Content "Привет!") [] "start"
                  TextLoader.default_texts_dir eq_refl)
           "Привет!" eq_refl).
Defined.

(** *** cmd_start and cmd_help *)

(** X25. cmd_start registers the sender before anything else: when the
    store fails nothing is answered and no text is loaded; otherwise the
    sender is a user of the store afterwards and the answer is the start
    text, which is cached.  cmd_help never changes the store. *)
Theorem start_registers_then_greets
    (strip : string -> string) (files : string -> TextLoader.Read)
    (cache : TextLoader.Cache) (incoming : Message) (sender : TelegramUser)
    (env : Env) (w : World) :
  from_user incoming = Some sender ->
  let registered := GetOrCreateUser (tg_id sender) (tg_username sender) in
  (forall e,
     fault env (List.length (calls w)) = Some e ->
     cmd_start strip files cache incoming env w = ((Raise e, record registered w), cache))
  /\ (forall raw,
        fault env (List.length (calls w)) = None ->
        TextLoader.cached "start" cache = None ->
        files "app/utils/texts/start.txt" = TextLoader.Content raw ->
        exists r w',
          cmd_start strip files cache incoming env w
          = ((r, w'), TextLoader.store "start" (strip raw) cache)
          /\ calls w' = (calls w ++ [registered; MessageAnswer (strip raw) None])%list
          /\ get_user_by_telegram_id (db w') (tg_id sender) <> None)
  /\ db (snd (fst (cmd_help strip files cache incoming env w))) = db w.
Proof.
  intros Hfrom registered. split; [|split].
  - intros e Hfault. unfold cmd_start. rewrite Hfrom.
    unfold _get_or_create_user, db_get_or_create_user, bind, invoke.
    now rewrite Hfault.
  - intros raw Hfault Hcached Hfile. unfold cmd_start. rewrite Hfrom.
    unfold _get_or_create_user, db_get_or_create_user, bind, invoke, read_db,
      write_db, ret.
    rewrite Hfault. cbn [db calls content_type_local record].
    destruct (get_or_create_user (db w) (tg_id sender) (tg_username sender))
      as [user store] eqn:Hcreate.
    cbn [db calls content_type_local].
    unfold TextLoader.get_text. rewrite Hcached.
    change (TextLoader.path_join TextLoader.default_texts_dir ("start" ++ ".txt"))
      with "app/utils/texts/start.txt".
    rewrite Hfile. unfold message_answer, invoke. cbn [db calls content_type_local].
    assert (Hknown : get_user_by_telegram_id store (tg_id sender) <> None).
    { revert Hcreate. unfold get_or_create_user.
      destruct (get_user_by_telegram_id (db w) (tg_id sender)) as [known|] eqn:Hknown;
        intros [= <- <-]; [now rewrite Hknown|].
      unfold get_user_by_telegram_id in *. cbn [users]. rewrite find_snoc, Hknown.
      cbn [User.telegram_id]. now rewrite Z.eqb_refl. }
    clear Hfault.
    match goal with
    | |- context [fault ?env ?k] => destruct (fault env k) as [?e|]
    end;
      eexists _, _; (split; [reflexivity|]);
      unfold record; cbn [db calls content_type_local];
      rewrite <- ?app_assoc; (split; [reflexivity | exact Hknown]).
  - unfold cmd_help.
    destruct (TextLoader.get_text strip files cache "help" TextLoader.default_texts_dir)
      as [[text|e] cache']; cbn [fst snd]; [|reflexivity].
    unfold message_answer, invoke. now destruct (fault env _).
Qed.

Lemma start_registers_then_greets_witness :
  exists r w',
    cmd_start (fun s => s) (fun _ => TextLoader.Content "Привет!") []
      (Samples.typed "/start") Samples.calm (Samples.world (mkStore [] []))
    = ((r, w'), TextLoader.store "start" "Привет!" [])
    /\ calls w' = ([] ++ [GetOrCreateUser 1001 (Some "alice");
                          MessageAnswer "Привет!" None])%list
    /\ get_user_by_telegram_id (db w') 1001 <> None.
Proof.
  exact (proj1 (proj2
           (start_registers_then_greets (fun s => s)
              (fun _ => TextLoader.Content "Привет!") [] (Samples.typed "/start")
              Samples.alice Samples.calm (Samples.world (mkStore [] [])) eq_refl))
           "Привет!" eq_refl eq_refl eq_refl).
Defined.

(** *** The query recorded with a selection *)

Lemma split_head (sep : ascii) (s : string) :
  exists head rest,
    split sep s = head :: rest
    /\ contains sep head = false
    /\ prefix head s = true.
Proof.
  induction s as [|c s (head & rest & Hsplit & Hclean & Hprefix)].
  - exists EmptyString, []. repeat split.
  - cbn [split]. destruct (Ascii.eqb c sep) eqn:Hc.
    + exists EmptyString, (split sep s). repeat split.
    + rewrite Hsplit. exists (String c head), rest. split; [reflexivity|].
      cbn [contains prefix]. rewrite Hc, Hclean.
      split; [reflexivity|].
      destruct (ascii_dec c c); [exact Hprefix | contradiction].
Qed.

(** Text that holds a separator is cut in two at the first one. *)
Lemma cut_at_first (sep : ascii) (s : string) :
  contains sep s = true ->
  exists head tail,
    s = (head ++ String sep tail)%string /\ contains sep head = false.
Proof.
  induction s as [|c s IH]; cbn [contains]; [discriminate|].
  destruct (Ascii.eqb c sep) eqn:Hc.
  - intros _. apply Ascii.eqb_eq in Hc. subst c.
    exists EmptyString, s. split; reflexivity.
  - cbn [orb]. intros Hs. destruct (IH Hs) as (head & tail & -> & Hclean).
    exists (String c head), tail. split; [reflexivity|].
    cbn [contains]. now rewrite Hc, Hclean.
Qed.

(** X26. The query handle_movie_select records is the first line of the
    text of the message: the whole text when it holds no line break, the
    text before its first line break otherwise, and "Поиск" when the
    message has no text or an empty one.  It never holds a line break. *)
Theorem first_line_is_one_line (message_text : option string) :
  contains (ascii_of_nat 10) (first_line message_text) = false
  /\ (message_text = None \/ message_text = Some EmptyString ->
      first_line message_text = "Поиск")
  /\ (forall t,
        message_text = Some t -> t <> EmptyString ->
        (contains (ascii_of_nat 10) t = false -> first_line message_text = t)
        /\ (contains (ascii_of_nat 10) t = true ->
            exists head tail,
              t = head ++ String (ascii_of_nat 10) tail
              /\ contains (ascii_of_nat 10) head = false
              /\ first_line message_text = head)
        /\ (forall head tail,
              t = head ++ String (ascii_of_nat 10) tail ->
              contains (ascii_of_nat 10) head = false ->
              first_line message_text = head)).
Proof.
  assert (Hcut : forall head tail,
             head ++ String (ascii_of_nat 10) tail <> EmptyString ->
             contains (ascii_of_nat 10) head = false ->
             first_line (Some (head ++ String (ascii_of_nat 10) tail)) = head).
  { intros head tail Hne Hclean. unfold first_line.
    destruct (head ++ String (ascii_of_nat 10) tail) as [|c t] eqn:Htext;
      [contradiction|].
    cbn [truthy_str]. rewrite <- Htext. now rewrite split_app. }
  split; [|split].
  - unfold first_line.
    destruct message_text as [[|c t]|]; try reflexivity.
    cbn [truthy_str].
    destruct (split_head (ascii_of_nat 10) (String c t))
      as (head & rest & Hsplit & Hclean & _).
    now rewrite Hsplit.
  - now intros [-> | ->].
  - intros t -> Hne. split; [|split].
    + intros Hclean. unfold first_line.
      destruct t as [|c t]; [contradiction|]. cbn [truthy_str].
      now rewrite split_without.
    + intros Hbreak.
      destruct (cut_at_first _ _ Hbreak) as (head & tail & Htext & Hclean).
      exists head, tail. split; [exact Htext|]. split; [exact Hclean|].
      subst t. now apply Hcut.
    + intros head tail Htext Hclean. subst t. now apply Hcut.
Qed.

(** *** Pages outside 1 .. total_pages *)

(** X27. A page number of one or less (zero, negative) is answered like
    page 1 by get_user_history and by get_user_stats: the offset is not
    positive and nothing is skipped.  With per_page = 0 both raise
    ZeroDivisionError. *)
Theorem pages_below_one_are_page_one (db : Store) (user_id page per_page : Z) :
  (1 <= per_page)%Z ->
  (page <= 1)%Z ->
  get_user_history db user_id page per_page = get_user_history db user_id 1 per_page
  /\ get_user_stats db user_id page per_page = get_user_stats db user_id 1 per_page
  /\ get_user_history db user_id page 0 = Raise ZeroDivisionError
  /\ get_user_stats db user_id page 0 = Raise ZeroDivisionError.
Proof.
  intros Hper_page Hpage.
  assert (Hwindow : forall A (l : list A),
             offset_limit ((page - 1) * per_page) per_page l
             = offset_limit ((1 - 1) * per_page) per_page l).
  { intros A l. unfold offset_limit.
    replace (Z.to_nat ((page - 1) * per_page)) with 0%nat by nia.
    replace (Z.to_nat ((1 - 1) * per_page)) with 0%nat by nia.
    reflexivity. }
  unfold get_user_history, get_user_stats. rewrite !Hwindow.
  repeat split; reflexivity.
Qed.

Lemma pages_below_one_are_page_one_witness :
  get_user_history Samples.store_twelve 1 0 5 = get_user_history Samples.store_twelve 1 1 5
  /\ get_user_stats Samples.store_twelve 1 0 5 = get_user_stats Samples.store_twelve 1 1 5.
Proof.
  destruct (pages_below_one_are_page_one Samples.store_twelve 1 0 5 ltac:(lia) ltac:(lia))
    as (Hhistory & Hstats & _).
  split; [exact Hhistory | exact Hstats].
Defined.

End EdgeExtras.
